(** * A todo list kept in localStorage: model and verification

    The program is a browser script (src/main.js, and a second, commented
    copy of it).  It keeps two keys in [window.localStorage]: 'todos', the
    JSON text of an array of records {id, task, completed}, and 'uniqueId',
    the decimal text of the next id.  Every handler reads the text, parses
    it, changes the parsed value, and writes the text back; the list shown
    in the page is kept in step by hand.

    The development has three layers.
    - The platform: strings, numbers, JSON.stringify / JSON.parse,
      Number(...) and String(...), localStorage, and the part of the DOM
      the script touches.
    - The script: one definition per function of the source, in a small
      monad for the state and for exceptions.
    - The properties.

    Scope of the platform model.  A JavaScript string is modelled by a Rocq
    [string], so a code unit is one of the 256 characters of [ascii]; a
    JavaScript number is modelled by an integer of [Z] from -2^53 to 2^53:
    every such integer is a Number, the conversions between it and its
    decimal text are exact, and adding one is exact except at 2^53, where
    the sum rounds back to 2^53.  Where the platform would leave what is
    modelled (a fraction or an exponent in a number, an integer beyond
    2^53, an escape above u00FF, NaN) the model answers [OutsideModel]
    instead of guessing. *)

From Stdlib Require Import String Ascii ZArith List Decimal DecimalString Lia Sorting.Sorted.
From Stdlib Require Import DecimalFacts DecimalPos DecimalN DecimalZ.
From stdpp Require Import gmap strings.
Import ListNotations.
Open Scope string_scope.
Open Scope Z_scope.

(** ** Completions *)

(** How a piece of script ends: with a value, or abruptly.  [SyntaxError]
    and [TypeError] are the two exceptions the script can meet;
    [OutsideModel] is no exception of JavaScript: it marks an input on which
    this model makes no statement. *)
Inductive abrupt : Type :=
| SyntaxError
| TypeError
| OutsideModel.

Inductive completion (A : Type) : Type :=
| Normal (a : A)
| Abrupt (e : abrupt).
Arguments Normal {A} a.
Arguments Abrupt {A} e.

Definition cbind {A B : Type} (c : completion A) (k : A -> completion B) : completion B :=
  match c with
  | Normal a => k a
  | Abrupt e => Abrupt e
  end.

(** ** Characters *)

(** The double quote, code 34. *)
Definition dquote : ascii := "034"%char.

Definition code (c : ascii) : N := N_of_ascii c.

Definition digit_of_char (c : ascii) : option (uint -> uint) :=
  match c with
  | "0"%char => Some D0 | "1"%char => Some D1 | "2"%char => Some D2
  | "3"%char => Some D3 | "4"%char => Some D4 | "5"%char => Some D5
  | "6"%char => Some D6 | "7"%char => Some D7 | "8"%char => Some D8
  | "9"%char => Some D9
  | _ => None
  end.

Definition is_digit (c : ascii) : bool :=
  match digit_of_char c with Some _ => true | None => false end.

(** The value of a hexadecimal digit, of either case. *)
Definition hex_of_char (c : ascii) : option N :=
  let n := code c in
  if ((48 <=? n) && (n <=? 57))%N%bool then Some (n - 48)%N
  else if ((97 <=? n) && (n <=? 102))%N%bool then Some (n - 87)%N
  else if ((65 <=? n) && (n <=? 70))%N%bool then Some (n - 55)%N
  else None.

(** Lower-case hexadecimal digit of a number below 16, as JSON.stringify
    writes it. *)
Definition char_of_hex (n : N) : ascii :=
  if (n <? 10)%N then ascii_of_N (48 + n) else ascii_of_N (87 + n).

(** ** Numbers and their text *)

(** The longest prefix of decimal digits of a text, and the rest. *)
Fixpoint read_uint (s : string) : uint * string :=
  match s with
  | EmptyString => (Nil, EmptyString)
  | String c r =>
      match digit_of_char c with
      | Some d => let (u, r') := read_uint r in (d u, r')
      | None => (Nil, s)
      end
  end.

(** The integers that the model takes for Numbers: those from -2^53 to
    2^53.  Each of them is a Number (a double holds it exactly), its
    decimal text is what String(n) and JSON.stringify(n) give, and it is
    the Number of every decimal text that denotes it. *)
Definition two53 : Z := 2 ^ 53.

Definition exact_int (n : Z) : bool := ((- two53 <=? n) && (n <=? two53))%bool.

(** The Number with the integer value [n], where the model has one. *)
Definition number (n : Z) : completion Z :=
  if exact_int n then Normal n else Abrupt OutsideModel.

(** The decimal text of an integer, with a minus sign when it is
    negative. *)
Definition decimal (n : Z) : string := NilEmpty.string_of_int (Z.to_int n).

(** String(n) for a Number n (Number::toString, radix 10): for an integer
    of the model, its decimal text. *)
Definition String_of_number (n : Z) : completion string :=
  if exact_int n then Normal (decimal n) else Abrupt OutsideModel.

(** n + 1 on Numbers.  The sum is exact while it is at most 2^53;
    2^53 + 1 is no Number, and the sum rounds (to even) back to 2^53. *)
Definition succ_number (n : Z) : Z := if n <? two53 then n + 1 else two53.

Definition plus_one (n : Z) : completion Z :=
  if exact_int n then Normal (succ_number n) else Abrupt OutsideModel.

(** White space of the numeric-string grammar (StrWhiteSpaceChar), in the
    range of [ascii]: TAB, LF, VT, FF, CR, SP and NBSP. *)
Definition is_str_ws (c : ascii) : bool :=
  match code c with
  | 9%N | 10%N | 11%N | 12%N | 13%N | 32%N | 160%N => true
  | _ => false
  end.

Fixpoint skip_str_ws (s : string) : string :=
  match s with
  | String c r => if is_str_ws c then skip_str_ws r else s
  | EmptyString => EmptyString
  end.

(** Digits, then nothing but white space: the unsigned integer forms of
    StrDecimalLiteral.  Any other tail (a fraction, an exponent, a radix
    prefix, Infinity, or text that makes the number NaN) is outside the
    integer model, and so is an integer beyond 2^53, which Number(...)
    would round. *)
Definition digits_to_end (s : string) : completion Z :=
  match read_uint s with
  | (Nil, _) => Abrupt OutsideModel
  | (u, r) =>
      match skip_str_ws r with
      | EmptyString => number (Z.of_uint u)
      | _ => Abrupt OutsideModel
      end
  end.

(** StringToNumber. *)
Definition StringToNumber (s : string) : completion Z :=
  match skip_str_ws s with
  | EmptyString => Normal 0
  | String "-" r => cbind (digits_to_end r) (fun n => Normal (- n))
  | String "+" r => digits_to_end r
  | t => digits_to_end t
  end.

(** ToNumber of what [getItem] returns: null becomes 0, a string is read
    as a numeric string. *)
Definition ToNumber (v : option string) : completion Z :=
  match v with
  | None => Normal 0
  | Some s => StringToNumber s
  end.

(** ** JSON values *)

Set Warnings "-register-all".

(** The values JSON.parse builds: null, booleans, numbers, strings, arrays,
    and objects.  An object is the list of its own properties in the order
    the engine enumerates them. *)
Inductive json : Type :=
| JNull
| JBool (b : bool)
| JNum (n : Z)
| JStr (s : string)
| JArr (items : list json)
| JObj (props : list (string * json)).

(** All the numbers of a value are integers of the model. *)
Fixpoint exact_json (v : json) : bool :=
  match v with
  | JNum n => exact_int n
  | JArr items => forallb exact_json items
  | JObj props => forallb (fun p => exact_json (snd p)) props
  | _ => true
  end.

(** *** Property order

    An ordinary object lists its array-index keys first, in ascending
    order, and then its other string keys in the order they were created.
    An array index is the canonical decimal text of an integer below
    2^32 - 1. *)
Definition array_index (k : string) : option N :=
  match read_uint k with
  | (Nil, _) => None
  | (u, EmptyString) =>
      if (String.eqb (NilEmpty.string_of_uint (N.to_uint (N.of_uint u))) k
          && (N.of_uint u <? 4294967295)%N)%bool
      then Some (N.of_uint u) else None
  | _ => None
  end.

(** Insert a new index key at its place among the index keys. *)
Fixpoint insert_index (i : N) (k : string) (v : json) (ps : list (string * json))
  : list (string * json) :=
  match ps with
  | [] => [(k, v)]
  | (k', v') :: ps' =>
      match array_index k' with
      | Some j => if (j <? i)%N then (k', v') :: insert_index i k v ps'
                  else (k, v) :: ps
      | None => (k, v) :: ps
      end
  end.

Fixpoint has_key (k : string) (ps : list (string * json)) : bool :=
  match ps with
  | [] => false
  | (k', _) :: ps' => if String.eqb k' k then true else has_key k ps'
  end.

Fixpoint replace_key (k : string) (v : json) (ps : list (string * json))
  : list (string * json) :=
  match ps with
  | [] => []
  | (k', v') :: ps' =>
      if String.eqb k' k then (k', v) :: ps' else (k', v') :: replace_key k v ps'
  end.

(** Give property [k] the value [v]: an existing property keeps its place,
    a new one goes where the property order puts it.  This is what both
    the parser (CreateDataProperty) and an assignment [o.k = v] do to an
    ordinary object. *)
Definition obj_set (k : string) (v : json) (ps : list (string * json))
  : list (string * json) :=
  if has_key k ps then replace_key k v ps
  else match array_index k with
       | Some i => insert_index i k v ps
       | None => ps ++ [(k, v)]
       end.

Fixpoint obj_get (k : string) (ps : list (string * json)) : option json :=
  match ps with
  | [] => None
  | (k', v) :: ps' => if String.eqb k' k then Some v else obj_get k ps'
  end.

(** ** JSON.stringify *)

(** QuoteJSONString, one code unit at a time. *)
Definition escape_char (c : ascii) : string :=
  match code c with
  | 8%N => "\b"
  | 9%N => "\t"
  | 10%N => "\n"
  | 12%N => "\f"
  | 13%N => "\r"
  | 34%N => String "\" (String dquote EmptyString)
  | 92%N => "\\"
  | n => if (n <? 32)%N
         then "\u00" ++ String (char_of_hex (n / 16)) (String (char_of_hex (n mod 16)) EmptyString)
         else String c EmptyString
  end.

Fixpoint escape (s : string) : string :=
  match s with
  | EmptyString => EmptyString
  | String c r => escape_char c ++ escape r
  end.

Definition quote (s : string) : string :=
  String dquote (escape s ++ String dquote EmptyString).

Fixpoint join (sep : string) (l : list string) : string :=
  match l with
  | [] => EmptyString
  | [x] => x
  | x :: l' => x ++ sep ++ join sep l'
  end.

(** The JSON text of a value, without indentation, its integers in
    decimal. *)
Fixpoint json_text (v : json) : string :=
  match v with
  | JNull => "null"
  | JBool true => "true"
  | JBool false => "false"
  | JNum n => decimal n
  | JStr s => quote s
  | JArr items => "[" ++ join "," (List.map json_text items) ++ "]"
  | JObj props =>
      "{" ++ join "," (List.map (fun p => quote (fst p) ++ ":" ++ json_text (snd p)) props) ++ "}"
  end.

(** JSON.stringify(value) with no replacer and no indentation, for a value
    built of the constructors of [json] (no undefined, no function) whose
    numbers are integers of the model. *)
Definition JSON_stringify (v : json) : completion string :=
  if exact_json v then Normal (json_text v) else Abrupt OutsideModel.

(** ** JSON.parse *)

(** JSON white space: TAB, LF, CR and SP. *)
Definition is_ws (c : ascii) : bool :=
  match code c with
  | 9%N | 10%N | 13%N | 32%N => true
  | _ => false
  end.

Fixpoint skip_ws (s : string) : string :=
  match s with
  | String c r => if is_ws c then skip_ws r else s
  | EmptyString => EmptyString
  end.

(** The four hexadecimal digits of a u-escape. *)
Definition hex4 (a b c d : ascii) : option N :=
  match hex_of_char a, hex_of_char b, hex_of_char c, hex_of_char d with
  | Some x, Some y, Some z, Some w => Some (((x * 16 + y) * 16 + z) * 16 + w)%N
  | _, _, _, _ => None
  end.

(** The characters of a string literal, from after its opening quote to
    its closing quote; returns the string and the text after the quote. *)
Fixpoint parse_chars (s : string) : completion (string * string) :=
  match s with
  | EmptyString => Abrupt SyntaxError
  | String c r =>
      match code c with
      | 34%N => Normal (EmptyString, r)
      | 92%N =>
          match r with
          | String e r1 =>
              let simple (x : ascii) :=
                cbind (parse_chars r1) (fun p => Normal (String x (fst p), snd p)) in
              match e with
              | "b"%char => simple "008"%char
              | "t"%char => simple "009"%char
              | "n"%char => simple "010"%char
              | "f"%char => simple "012"%char
              | "r"%char => simple "013"%char
              | "/"%char => simple "/"%char
              | "\"%char => simple "\"%char
              | "u"%char =>
                  match r1 with
                  | String h1 (String h2 (String h3 (String h4 r2))) =>
                      match hex4 h1 h2 h3 h4 with
                      | Some n =>
                          if (n <? 256)%N
                          then cbind (parse_chars r2)
                                 (fun p => Normal (String (ascii_of_N n) (fst p), snd p))
                          else Abrupt OutsideModel
                      | None => Abrupt SyntaxError
                      end
                  | _ => Abrupt SyntaxError
                  end
              | _ =>
                  if Ascii.eqb e dquote then simple dquote else Abrupt SyntaxError
              end
          | EmptyString => Abrupt SyntaxError
          end
      | n =>
          if (n <? 32)%N then Abrupt SyntaxError
          else cbind (parse_chars r) (fun p => Normal (String c (fst p), snd p))
      end
  end.

(** What may follow the integer part of a number: a fraction and an
    exponent.  [Normal r] when there is neither (the number is an integer
    and [r] is the text after it); a well-formed fraction or exponent is
    outside the integer model; a malformed one is a syntax error. *)
Definition exponent_tail (s : string) : completion string :=
  let digits (t : string) :=
    match read_uint t with
    | (Nil, _) => Abrupt SyntaxError
    | _ => Abrupt OutsideModel
    end in
  match s with
  | String "e" r | String "E" r =>
      match r with
      | String "+" r' | String "-" r' => digits r'
      | _ => digits r
      end
  | _ => Normal s
  end.

Definition number_tail (s : string) : completion string :=
  match s with
  | String "." r =>
      match read_uint r with
      | (Nil, _) => Abrupt SyntaxError
      | (_, r') => cbind (exponent_tail r') (fun _ => Abrupt OutsideModel)
      end
  | _ => exponent_tail s
  end.

(** The integer part: 0, or a digit from 1 to 9 and more digits; the
    result is the integer the digits denote. *)
Definition parse_int_part (s : string) : completion (Z * string) :=
  match read_uint s with
  | (Nil, _) => Abrupt SyntaxError
  | (D0 Nil, r) => Normal (0, r)
  | (D0 _, _) => Abrupt SyntaxError
  | (u, r) => Normal (Z.of_uint u, r)
  end.

(** A number literal.  An integer beyond 2^53, which JSON.parse would
    round to a double, is outside the model. *)
Definition parse_number (s : string) : completion (Z * string) :=
  let unsigned (t : string) :=
    cbind (parse_int_part t) (fun p =>
    cbind (number_tail (snd p)) (fun r =>
    cbind (number (fst p)) (fun n => Normal (n, r)))) in
  match s with
  | String "-" r => cbind (unsigned r) (fun p => Normal (- fst p, snd p))
  | _ => unsigned s
  end.

(** A value, the elements of an array after its bracket, the members of an
    object after its brace.  The recursion is on [fuel]; [JSON_parse] below
    gives one more than twice the length of the text, which is shown to be
    enough for every text the script writes ([JSON_parse_stringify_todos]).
    A run out of fuel is reported as [OutsideModel], never as an error of
    the text. *)
Fixpoint parse_value (fuel : nat) (s : string) : completion (json * string) :=
  match fuel with
  | O => Abrupt OutsideModel
  | S fuel' =>
      match skip_ws s with
      | EmptyString => Abrupt SyntaxError
      | String "n" (String "u" (String "l" (String "l" r))) => Normal (JNull, r)
      | String "t" (String "r" (String "u" (String "e" r))) => Normal (JBool true, r)
      | String "f" (String "a" (String "l" (String "s" (String "e" r)))) =>
          Normal (JBool false, r)
      | String "[" r =>
          match skip_ws r with
          | String "]" r' => Normal (JArr [], r')
          | _ => cbind (parse_elements fuel' r) (fun p => Normal (JArr (fst p), snd p))
          end
      | String "{" r =>
          match skip_ws r with
          | String "}" r' => Normal (JObj [], r')
          | _ => cbind (parse_members fuel' [] r) (fun p => Normal (JObj (fst p), snd p))
          end
      | String c r =>
          if Ascii.eqb c dquote
          then cbind (parse_chars r) (fun p => Normal (JStr (fst p), snd p))
          else cbind (parse_number (String c r)) (fun p => Normal (JNum (fst p), snd p))
      end
  end
with parse_elements (fuel : nat) (s : string) : completion (list json * string) :=
  match fuel with
  | O => Abrupt OutsideModel
  | S fuel' =>
      cbind (parse_value fuel' s) (fun p =>
      match skip_ws (snd p) with
      | String "," r =>
          cbind (parse_elements fuel' r) (fun q => Normal (fst p :: fst q, snd q))
      | String "]" r => Normal ([fst p], r)
      | _ => Abrupt SyntaxError
      end)
  end
with parse_members (fuel : nat) (acc : list (string * json)) (s : string)
  : completion (list (string * json) * string) :=
  match fuel with
  | O => Abrupt OutsideModel
  | S fuel' =>
      match skip_ws s with
      | String c r =>
          if Ascii.eqb c dquote then
            cbind (parse_chars r) (fun k =>
            match skip_ws (snd k) with
            | String ":" r1 =>
                cbind (parse_value fuel' r1) (fun p =>
                let acc' := obj_set (fst k) (fst p) acc in
                match skip_ws (snd p) with
                | String "," r2 => parse_members fuel' acc' r2
                | String "}" r2 => Normal (acc', r2)
                | _ => Abrupt SyntaxError
                end)
            | _ => Abrupt SyntaxError
            end)
          else Abrupt SyntaxError
      | EmptyString => Abrupt SyntaxError
      end
  end.

(** JSON.parse(text): one value, white space around it, nothing else.
    The numbers of the value are integers of the model: [parse_number] lets
    no other number through, and the test at the end makes it a fact of
    every result. *)
Definition JSON_parse_text (s : string) : completion json :=
  cbind (parse_value (S (2 * String.length s)) s) (fun p =>
  match skip_ws (snd p) with
  | EmptyString => if exact_json (fst p) then Normal (fst p) else Abrupt OutsideModel
  | _ => Abrupt SyntaxError
  end).

(** JSON.parse applied to what [getItem] returns.  The argument is first
    converted to a string, so null is parsed as the text null. *)
Definition JSON_parse (v : option string) : completion json :=
  match v with
  | None => JSON_parse_text "null"
  | Some s => JSON_parse_text s
  end.

(** ** Values of the script *)

(** A value held by a variable of the script: a JSON value, or undefined
    ([None]). *)
Definition jsval : Type := option json.

(** ToString.  A number gives its decimal text.  An array is joined with
    commas, its null elements giving the empty text and the others their
    own ToString.  An object built by JSON.parse has no method of its own:
    with an own property toString (which is no function) neither that nor
    the inherited valueOf yields a primitive, and the conversion throws a
    TypeError; without one, Object.prototype.toString answers. *)
Fixpoint ToString_json (v : json) : completion string :=
  match v with
  | JNull => Normal "null"
  | JBool true => Normal "true"
  | JBool false => Normal "false"
  | JNum n => String_of_number n
  | JStr s => Normal s
  | JArr items =>
      cbind ((fix each (l : list json) : completion (list string) :=
                match l with
                | [] => Normal []
                | x :: l' =>
                    cbind (match x with
                           | JNull => Normal EmptyString
                           | _ => ToString_json x
                           end) (fun y =>
                    cbind (each l') (fun ys => Normal (y :: ys)))
                end) items)
        (fun l => Normal (join "," l))
  | JObj props =>
      if has_key "toString" props then Abrupt TypeError else Normal "[object Object]"
  end.

Definition ToString (v : jsval) : completion string :=
  match v with
  | None => Normal "undefined"
  | Some j => ToString_json j
  end.

(** ToBoolean: what [if (v)] and [!v] test. *)
Definition ToBoolean (v : jsval) : bool :=
  match v with
  | None | Some JNull => false
  | Some (JBool b) => b
  | Some (JNum n) => negb (n =? 0)
  | Some (JStr s) => negb (String.eqb s EmptyString)
  | Some (JArr _) | Some (JObj _) => true
  end.

(** [a === b], where [a] was read from a freshly parsed value and [b] was
    captured earlier: primitives are compared by value; an array or an
    object is only equal to itself, and a fresh one is no earlier one. *)
Definition strict_eq (a b : jsval) : bool :=
  match a, b with
  | None, None => true
  | Some JNull, Some JNull => true
  | Some (JBool x), Some (JBool y) => Bool.eqb x y
  | Some (JNum x), Some (JNum y) => x =? y
  | Some (JStr x), Some (JStr y) => String.eqb x y
  | _, _ => false
  end.

(** [v.k] for one of the names the script reads (id, task, completed),
    none of which is a property of a prototype, of a string or of an
    array: reading it off null throws, off an object looks it up, off
    anything else gives undefined. *)
Definition get_prop (v : json) (k : string) : completion jsval :=
  match v with
  | JNull => Abrupt TypeError
  | JObj ps => Normal (obj_get k ps)
  | _ => Normal None
  end.

(** [v.k = x].  The script assigns only to objects; what an assignment to
    a number, a string or an array does is left outside the model. *)
Definition set_prop (v : json) (k : string) (x : json) : completion json :=
  match v with
  | JObj ps => Normal (JObj (obj_set k x ps))
  | JNull => Abrupt TypeError
  | _ => Abrupt OutsideModel
  end.

Fixpoint mapM {A B : Type} (f : A -> completion B) (l : list A) : completion (list B) :=
  match l with
  | [] => Normal []
  | x :: l' => cbind (f x) (fun y => cbind (mapM f l') (fun ys => Normal (y :: ys)))
  end.

Fixpoint filterM {A : Type} (f : A -> completion bool) (l : list A) : completion (list A) :=
  match l with
  | [] => Normal []
  | x :: l' =>
      cbind (f x) (fun b =>
      cbind (filterM f l') (fun ys => Normal (if b then x :: ys else ys)))
  end.

(** [todos.push(x)], [todos.map(f)], [todos.filter(f)]: only an array has
    these methods, on any other value the call throws a TypeError. *)
Definition array_push (todos : json) (x : json) : completion json :=
  match todos with
  | JArr items => Normal (JArr (items ++ [x]))
  | _ => Abrupt TypeError
  end.

Definition array_map (f : json -> completion json) (todos : json) : completion json :=
  match todos with
  | JArr items => cbind (mapM f items) (fun l => Normal (JArr l))
  | _ => Abrupt TypeError
  end.

Definition array_filter (f : json -> completion bool) (todos : json) : completion json :=
  match todos with
  | JArr items => cbind (filterM f items) (fun l => Normal (JArr l))
  | _ => Abrupt TypeError
  end.

(** ** The page *)

(** What the script puts inside a list item: the checkbox with the id its
    click listener closed over, the span of the text with its id attribute
    and whether its class list holds 'strike', and the Delete button with
    the id of its listener. *)
Inductive node : Type :=
| Checkbox (checked : bool) (listener : jsval)
| Span (span_id : string) (text : string) (strike : bool)
| Button (listener : jsval).

(** A list item with its data-id attribute. *)
Record li : Type := Li { data_id : string; children : list node }.

(** The state: the storage of the origin, the children of the element
    .todos__list, the value of the field .todos__submit, and whether the
    script got as far as registering the keydown listener of the field.
    The page is taken to hold no other list item and no other element
    with an id of the form todo-n. *)
Record state : Type := State {
  localStorage : gmap string string;
  todoList : list li;
  todoSubmit : string;
  listening : bool
}.

(** A reference to an element inside the list: item [fst], child [snd]. *)
Definition path : Type := (nat * nat)%type.

(** ** The monad of the script *)

Definition M (A : Type) : Type := state -> completion A * state.

Definition ret {A : Type} (a : A) : M A := fun st => (Normal a, st).

Definition bind {A B : Type} (m : M A) (k : A -> M B) : M B :=
  fun st =>
    match m st with
    | (Normal a, st') => k a st'
    | (Abrupt e, st') => (Abrupt e, st')
    end.

Definition lift {A : Type} (c : completion A) : M A := fun st => (c, st).

Definition throw {A : Type} (e : abrupt) : M A := fun st => (Abrupt e, st).

Notation "'let*' x ':=' m 'in' k" := (bind m (fun x => k))
  (at level 10, x pattern, m at level 100, k at level 200).

(** *** localStorage *)

Definition getItem (k : string) : M (option string) :=
  fun st => (Normal (localStorage st !! k), st).

(** setItem stores the string form of its argument; the callers below
    convert the argument and pass the string. *)
Definition setItem (k v : string) : M unit :=
  fun st => (Normal tt,
             State (<[k := v]> (localStorage st)) (todoList st) (todoSubmit st) (listening st)).

(** *** The document *)

Definition set_todoList (l : list li) : M unit :=
  fun st => (Normal tt, State (localStorage st) l (todoSubmit st) (listening st)).

Definition get_todoList : M (list li) := fun st => (Normal (todoList st), st).

(** todoList.appendChild(li); the result is the place of the item. *)
Definition appendChild (x : li) : M nat :=
  let* l := get_todoList in
  let* _ := set_todoList (l ++ [x]) in
  ret (List.length l).

Fixpoint find_index {A : Type} (p : A -> bool) (l : list A) : option nat :=
  match l with
  | [] => None
  | x :: l' => if p x then Some O else option_map S (find_index p l')
  end.

(** Text that can stand between the quotes of an attribute selector and
    mean itself: no quote, no backslash, no control character. *)
Fixpoint plain_text (s : string) : bool :=
  match s with
  | EmptyString => true
  | String c r =>
      (negb (code c =? 34)%N && negb (code c =? 92)%N && negb (code c <? 32)%N
       && plain_text r)%bool
  end.

(** document.querySelector of the selector li[data-id=...] built from
    [id]: the first list item whose data-id is the text of [id], or null. *)
Definition querySelector_li (id : jsval) : M (option nat) :=
  let* d := lift (ToString id) in
  if plain_text d then
    let* l := get_todoList in
    ret (find_index (fun x => String.eqb (data_id x) d) l)
  else throw OutsideModel.

Definition is_span_with (sid : string) (n : node) : bool :=
  match n with
  | Span i _ _ => String.eqb i sid
  | _ => false
  end.

Fixpoint find_span (sid : string) (l : list li) (i : nat) : option path :=
  match l with
  | [] => None
  | x :: l' =>
      match find_index (is_span_with sid) (children x) with
      | Some j => Some (i, j)
      | None => find_span sid l' (S i)
      end
  end.

(** document.getElementById: the first element, in document order, with
    that id. *)
Definition getElementById (sid : string) : M (option path) :=
  let* l := get_todoList in
  ret (find_span sid l O).

Definition node_at (p : path) (l : list li) : option node :=
  match l !! fst p with
  | Some x => children x !! snd p
  | None => None
  end.

(** Change the node at a path (nothing changes if there is none). *)
Definition update_node (p : path) (f : node -> node) (l : list li) : list li :=
  match l !! fst p with
  | Some x =>
      match children x !! snd p with
      | Some n => <[fst p := Li (data_id x) (<[snd p := f n]> (children x))]> l
      | None => l
      end
  | None => l
  end.

(** e.target.hasAttribute('checked') for the target of a click on a
    checkbox. *)
Definition hasAttribute_checked (target : path) : M bool :=
  let* l := get_todoList in
  match node_at target l with
  | Some (Checkbox c _) => ret c
  | _ => throw OutsideModel
  end.

Definition check (b : bool) (n : node) : node :=
  match n with
  | Checkbox _ id => Checkbox b id
  | _ => n
  end.

Definition strike_out (b : bool) (n : node) : node :=
  match n with
  | Span i t _ => Span i t b
  | _ => n
  end.

(** setAttribute('checked', '') and removeAttribute('checked'). *)
Definition set_checked (target : path) (b : bool) : M unit :=
  let* l := get_todoList in
  set_todoList (update_node target (check b) l).

(** todoText.classList.add('strike') and .remove('strike'); [todoText] is
    what getElementById returned, and a property of null cannot be read. *)
Definition classList_strike (todoText : option path) (b : bool) : M unit :=
  match todoText with
  | None => throw TypeError
  | Some p =>
      let* l := get_todoList in
      set_todoList (update_node p (strike_out b) l)
  end.

(** ** The script

    The two files have the same text except for [incrementUniqueId] and
    for the order of the statements of [toggleEventHandler].  The functions
    that build the view, the same in both, come first; the functions that
    read or write the store and the listeners are in [Module Main]
    (src/main.js) and in [Module Part000] (the second file). *)

(** createListItem: a detached list item holding the span of the text.
    The class todos__list-item, the same on every item, is left out. *)
Definition createListItem (item : json) : completion li :=
  cbind (get_prop item "id") (fun id =>
  cbind (ToString id) (fun d =>
  cbind (get_prop item "task") (fun task =>
  cbind (ToString task) (fun text =>
  cbind (get_prop item "completed") (fun completed =>
  Normal (Li d [Span ("todo-" ++ d) text (ToBoolean completed)])))))).

(** addToggleButton(id, completed = false): the checkbox goes in front of
    the children of the first list item that has the data-id; if there is
    none, [listItem] is null and reading [listItem.insertBefore] throws.
    The listener of the checkbox calls [toggleEventHandler] with [id]. *)
Definition addToggleButton (id completed : jsval) : M unit :=
  let completed := match completed with None => Some (JBool false) | _ => completed end in
  let* listItem := querySelector_li id in
  match listItem with
  | None => throw TypeError
  | Some i =>
      let* l := get_todoList in
      set_todoList
        (alter (fun x => Li (data_id x) (Checkbox (ToBoolean completed) id :: children x)) i l)
  end.

(** addDeleteButton(el, id): the button is appended to [el]; its listener
    calls [removeElement] with [id]. *)
Definition addDeleteButton (el : nat) (id : jsval) : M unit :=
  let* l := get_todoList in
  set_todoList (alter (fun x => Li (data_id x) (children x ++ [Button id])) el l).

(** displayExistingListItem *)
Definition displayExistingListItem (item : json) : M unit :=
  let* x := lift (createListItem item) in
  let* el := appendChild x in
  let* id := lift (get_prop item "id") in
  let* completed := lift (get_prop item "completed") in
  let* _ := addToggleButton id completed in
  let* id' := lift (get_prop item "id") in
  addDeleteButton el id'.

Fixpoint forEachM {A : Type} (f : A -> M unit) (l : list A) : M unit :=
  match l with
  | [] => ret tt
  | x :: l' => let* _ := f x in forEachM f l'
  end.

Definition array_forEach (f : json -> M unit) (todos : json) : M unit :=
  match todos with
  | JArr items => forEachM f items
  | _ => throw TypeError
  end.

(** [!localStorage.getItem('todos')]: true for null and for the empty
    string. *)
Definition not_item (v : option string) : bool :=
  match v with
  | None => true
  | Some s => String.eqb s EmptyString
  end.

(** The statement at the top of the script (lines 15 to 21). *)
Definition startup : M unit :=
  let* t := getItem "todos" in
  if not_item t then
    let* uniqueId := lift (String_of_number 0) in
    let* _ := setItem "uniqueId" uniqueId in
    let* todos := lift (JSON_stringify (JArr [])) in
    setItem "todos" todos
  else
    let* t' := getItem "todos" in
    let* todos := lift (JSON_parse t') in
    array_forEach displayExistingListItem todos.

(** todoSubmit.addEventListener('keydown', ...) *)
Definition register_keydown : M unit :=
  fun st => (Normal tt, State (localStorage st) (todoList st) (todoSubmit st) true).

(** The script from its first line to its last: an exception at startup
    ends it before the listener of the field is registered. *)
Definition script : M unit :=
  let* _ := startup in
  register_keydown.

(** The callback of [todos.filter] in [removeElement]. *)
Definition remove_callback (id : jsval) (todo : json) : completion bool :=
  cbind (get_prop todo "id") (fun i => Normal (negb (strict_eq i id))).

(** The callback of [todos.map] in [toggleEventHandler]. *)
Definition toggle_callback (id : jsval) (todo : json) : completion json :=
  cbind (get_prop todo "id") (fun i =>
  if strict_eq i id then
    cbind (get_prop todo "completed") (fun c =>
    set_prop todo "completed" (JBool (negb (ToBoolean c))))
  else Normal todo).

(** The branch on [isChecked], the same in both files. *)
Definition update_view (target : path) (todoText : option path) (isChecked : bool) : M unit :=
  if isChecked then
    let* _ := set_checked target false in
    classList_strike todoText false
  else
    let* _ := set_checked target true in
    classList_strike todoText true.

Definition set_todoSubmit (s : string) : M unit :=
  fun st => (Normal tt, State (localStorage st) (todoList st) s (listening st)).

(** What the user does: loads the page, edits the field, presses a key in
    the field, clicks child [j] of item [i]. *)
Inductive event : Type :=
| Load
| Input (s : string)
| KeyDown (keyCode : Z)
| Click (i j : nat).

(** A fresh page over the same storage. *)
Definition fresh_page (st : state) : state :=
  State (localStorage st) [] EmptyString false.

Module Main.

(** incrementUniqueId: [uniqueId++] on the stored string.  The postfix
    increment converts its operand with ToNumeric and adds one; setItem
    stores the string of the sum. *)
Definition incrementUniqueId : M unit :=
  let* uniqueId := getItem "uniqueId" in
  let* old := lift (ToNumber uniqueId) in
  let* uniqueId' := lift (plus_one old) in
  let* text := lift (String_of_number uniqueId') in
  setItem "uniqueId" text.

(** addToStore *)
Definition addToStore (task : string) : M unit :=
  let* s := getItem "uniqueId" in
  let* uniqueId := lift (ToNumber s) in
  let newTodoItem :=
    JObj [("id", JNum uniqueId); ("task", JStr task); ("completed", JBool false)] in
  let* t := getItem "todos" in
  let* todos := lift (JSON_parse t) in
  let* todos' := lift (array_push todos newTodoItem) in
  let* text := lift (JSON_stringify todos') in
  let* _ := setItem "todos" text in
  incrementUniqueId.

(** addNewListItem *)
Definition addNewListItem (value : string) : M unit :=
  let* s := getItem "uniqueId" in
  let* uniqueId := lift (ToNumber s) in
  let* x := lift (createListItem (JObj [("id", JNum uniqueId); ("task", JStr value)])) in
  let* el := appendChild x in
  let* _ := addToggleButton (Some (JNum uniqueId)) None in
  let* _ := addDeleteButton el (Some (JNum uniqueId)) in
  addToStore value.

(** toggleEventHandler: the view is updated before the store is
    written. *)
Definition toggleEventHandler (target : path) (id : jsval) : M unit :=
  let* isChecked := hasAttribute_checked target in
  let* sid := lift (ToString id) in
  let* todoText := getElementById ("todo-" ++ sid) in
  let* t := getItem "todos" in
  let* todos := lift (JSON_parse t) in
  let* updatedTodos := lift (array_map (toggle_callback id) todos) in
  let* _ := update_view target todoText isChecked in
  let* text := lift (JSON_stringify updatedTodos) in
  setItem "todos" text.

(** removeElement: the store is written first; then the list item is
    looked up, and if there is none [elem] is null and reading
    [elem.parentNode] throws. *)
Definition removeElement (id : jsval) : M unit :=
  let* t := getItem "todos" in
  let* todos := lift (JSON_parse t) in
  let* updatedTodos := lift (array_filter (remove_callback id) todos) in
  let* text := lift (JSON_stringify updatedTodos) in
  let* _ := setItem "todos" text in
  let* elem := querySelector_li id in
  match elem with
  | None => throw TypeError
  | Some i =>
      let* l := get_todoList in
      set_todoList (delete i l)
  end.

(** The listener of the field: Enter on a non-empty value. *)
Definition keydown (keyCode : Z) : M unit :=
  fun st =>
    let value := todoSubmit st in
    if ((keyCode =? 13) && negb (String.eqb value EmptyString))%bool then
      (let* _ := addNewListItem value in set_todoSubmit EmptyString) st
    else (Normal tt, st).

(** One event, handled to its end. *)
Definition handle (e : event) : M unit :=
  fun st =>
    match e with
    | Load => script (fresh_page st)
    | Input s => set_todoSubmit s st
    | KeyDown k => if listening st then keydown k st else (Normal tt, st)
    | Click i j =>
        match node_at (i, j) (todoList st) with
        | Some (Checkbox _ id) => toggleEventHandler (i, j) id st
        | Some (Button id) => removeElement id st
        | _ => (Normal tt, st)
        end
    end.

End Main.

Module Part000.

(** incrementUniqueId: [Number(...) + 1]; setItem stores the string of
    the sum. *)
Definition incrementUniqueId : M unit :=
  let* s := getItem "uniqueId" in
  let* n := lift (ToNumber s) in
  let* uniqueId := lift (plus_one n) in
  let* text := lift (String_of_number uniqueId) in
  setItem "uniqueId" text.

(** addToStore *)
Definition addToStore (task : string) : M unit :=
  let* s := getItem "uniqueId" in
  let* uniqueId := lift (ToNumber s) in
  let newTodoItem :=
    JObj [("id", JNum uniqueId); ("task", JStr task); ("completed", JBool false)] in
  let* t := getItem "todos" in
  let* todos := lift (JSON_parse t) in
  let* todos' := lift (array_push todos newTodoItem) in
  let* text := lift (JSON_stringify todos') in
  let* _ := setItem "todos" text in
  incrementUniqueId.

(** addNewListItem *)
Definition addNewListItem (value : string) : M unit :=
  let* s := getItem "uniqueId" in
  let* uniqueId := lift (ToNumber s) in
  let* x := lift (createListItem (JObj [("id", JNum uniqueId); ("task", JStr value)])) in
  let* el := appendChild x in
  let* _ := addToggleButton (Some (JNum uniqueId)) None in
  let* _ := addDeleteButton el (Some (JNum uniqueId)) in
  addToStore value.

(** toggleEventHandler: the store is written before the view is
    updated. *)
Definition toggleEventHandler (target : path) (id : jsval) : M unit :=
  let* t := getItem "todos" in
  let* todos := lift (JSON_parse t) in
  let* updatedTodos := lift (array_map (toggle_callback id) todos) in
  let* text := lift (JSON_stringify updatedTodos) in
  let* _ := setItem "todos" text in
  let* isChecked := hasAttribute_checked target in
  let* sid := lift (ToString id) in
  let* todoText := getElementById ("todo-" ++ sid) in
  update_view target todoText isChecked.

(** removeElement: the store is written first; then the list item is
    looked up, and if there is none [elem] is null and reading
    [elem.parentNode] throws. *)
Definition removeElement (id : jsval) : M unit :=
  let* t := getItem "todos" in
  let* todos := lift (JSON_parse t) in
  let* updatedTodos := lift (array_filter (remove_callback id) todos) in
  let* text := lift (JSON_stringify updatedTodos) in
  let* _ := setItem "todos" text in
  let* elem := querySelector_li id in
  match elem with
  | None => throw TypeError
  | Some i =>
      let* l := get_todoList in
      set_todoList (delete i l)
  end.

Definition keydown (keyCode : Z) : M unit :=
  fun st =>
    let value := todoSubmit st in
    if ((keyCode =? 13) && negb (String.eqb value EmptyString))%bool then
      (let* _ := addNewListItem value in set_todoSubmit EmptyString) st
    else (Normal tt, st).

Definition handle (e : event) : M unit :=
  fun st =>
    match e with
    | Load => script (fresh_page st)
    | Input s => set_todoSubmit s st
    | KeyDown k => if listening st then keydown k st else (Normal tt, st)
    | Click i j =>
        match node_at (i, j) (todoList st) with
        | Some (Checkbox _ id) => toggleEventHandler (i, j) id st
        | Some (Button id) => removeElement id st
        | _ => (Normal tt, st)
        end
    end.

End Part000.

(** ** Records, snapshots and what the storage holds *)

(** A task record, as the comment at the top of the script gives it:
    { id: uniqueId, task: "example task text", completed: false }. *)
Record todo : Type := Todo { id : Z; task : string; completed : bool }.

(** A store snapshot: the counter and the sequence of records. *)
Record snapshot : Type := Snapshot { nextId : Z; tasks : list todo }.

(** The object the script builds for a record, keys in the order of the
    object literal of [addToStore]. *)
Definition json_of_todo (t : todo) : json :=
  JObj [("id", JNum (id t)); ("task", JStr (task t)); ("completed", JBool (completed t))].

Definition json_of_todos (l : list todo) : json := JArr (List.map json_of_todo l).

(** The storage holds the snapshot: the text under 'todos' parses to the
    array of the records, and the text under 'uniqueId' (or its absence,
    which the script reads as 0) converts to the counter. *)
Definition persists (ls : gmap string string) (sn : snapshot) : Prop :=
  JSON_parse (ls !! "todos") = Normal (json_of_todos (tasks sn))
  /\ ToNumber (ls !! "uniqueId") = Normal (nextId sn).

Definition ids (l : list todo) : list Z := List.map id l.

(** The ids of the records are integers of the model. *)
Definition exact_todos (l : list todo) : bool := forallb (fun t => exact_int (id t)) l.

(** *** The operations of the store, in the words of the specification *)

(** append: the record {id: nextId, task, completed: false} is put last
    and the counter goes up by one. *)
Definition new_todo (sn : snapshot) (text : string) : todo :=
  Todo (nextId sn) text false.

Definition spec_append (text : string) (sn : snapshot) : snapshot :=
  Snapshot (nextId sn + 1) (tasks sn ++ [new_todo sn text])%list.

Definition flip (t : todo) : todo := Todo (id t) (task t) (negb (completed t)).

(** toggle: the record with the id has its flag flipped. *)
Definition spec_toggle (i : Z) (sn : snapshot) : snapshot :=
  Snapshot (nextId sn) (List.map (fun t => if id t =? i then flip t else t) (tasks sn)).

(** remove: the record with the id is taken out. *)
Definition spec_remove (i : Z) (sn : snapshot) : snapshot :=
  Snapshot (nextId sn) (List.filter (fun t => negb (id t =? i)) (tasks sn)).

(** *** The view of a sequence of records *)

(** The list item the script shows for a record: the checkbox, the text,
    the Delete button. *)
Definition render_item (t : todo) : li :=
  Li (decimal (id t))
     [Checkbox (completed t) (Some (JNum (id t)));
      Span ("todo-" ++ decimal (id t)) (task t) (completed t);
      Button (Some (JNum (id t)))].

Definition render (l : list todo) : list li := List.map render_item l.

(** *** Runs *)

(** A browser that never loaded the page: nothing stored, nothing shown. *)
Definition blank : state := State ∅ [] EmptyString false.

(** The storage right after the first load. *)
Definition initial_storage : gmap string string :=
  <["todos" := "[]"]> (<["uniqueId" := "0"]> ∅).

(** The record a key press is about to create: Enter, on a non-empty
    field, with the listener in place, creates the record that carries the
    stored counter and the text of the field. *)
Definition created_by (e : event) (st : state) : list todo :=
  match e with
  | KeyDown k =>
      if (listening st && (k =? 13) && negb (String.eqb (todoSubmit st) EmptyString))%bool
      then match ToNumber (localStorage st !! "uniqueId") with
           | Normal n => [Todo n (todoSubmit st) false]
           | Abrupt _ => []
           end
      else []
  | _ => []
  end.

(** The state after a list of events and the records created on the way,
    in the order of their creation. *)
Fixpoint run (handle : event -> M unit) (es : list event) (st : state)
  : state * list todo :=
  match es with
  | [] => (st, [])
  | e :: es' =>
      let (st', log) := run handle es' (snd (handle e st)) in
      (st', (created_by e st ++ log)%list)
  end.

(** The record without its flag: what does not change once created. *)
Definition label (t : todo) : Z * string := (id t, task t).

(** ** The state of a running page *)

(** Ids in the order of their creation, all of them below the counter. *)
Definition well_formed (sn : snapshot) : Prop :=
  StronglySorted Z.lt (ids (tasks sn))
  /\ Forall (fun k => k < nextId sn) (ids (tasks sn)).

(** The page is in step with the storage: the storage holds a well-formed
    snapshot, the list shows its records in their order, and the field
    listens. *)
Definition in_step (st : state) (sn : snapshot) : Prop :=
  persists (localStorage st) sn
  /\ well_formed sn
  /\ todoList st = render (tasks sn)
  /\ listening st = true.

(** A browser in which the page was never loaded. *)
Definition unloaded (st : state) : Prop :=
  localStorage st = ∅ /\ todoList st = [] /\ listening st = false.

(** ** Auxiliary notions of the proofs *)

(** The record [t] has the id [k]. *)
Definition has_id (k : Z) (t : todo) : bool := id t =? k.

(** The storage after the store update of a toggle and of a removal. *)
Definition toggled (i : Z) (ls : gmap string string) (sn : snapshot) : gmap string string :=
  <["todos" := json_text (json_of_todos (tasks (spec_toggle i sn)))]> ls.

Definition removed (i : Z) (ls : gmap string string) (sn : snapshot) : gmap string string :=
  <["todos" := json_text (json_of_todos (tasks (spec_remove i sn)))]> ls.

(** A text before which a number literal ends: it does not go on with a
    digit, a fraction or an exponent. *)
Definition ends_number (r : string) : bool :=
  match r with
  | EmptyString => true
  | String c _ =>
      (negb (is_digit c) && negb (Ascii.eqb c ".") && negb (Ascii.eqb c "e")
       && negb (Ascii.eqb c "E"))%bool
  end.

(** The texts of the records of a sequence. *)
Definition todo_texts (l : list todo) : list string :=
  List.map json_text (List.map json_of_todo l).

(** The storage after [addToStore text]: the sequence with the new record,
    then the counter after [n + 1]. *)
Definition appended (text : string) (ls : gmap string string) (sn : snapshot)
  : gmap string string :=
  <["uniqueId" := decimal (succ_number (nextId sn))]>
    (<["todos" := json_text (json_of_todos (tasks sn ++ [new_todo sn text]))]> ls).

(** The snapshot after an event, given the snapshot before it and the
    state in which the event arrives. *)
Definition after (e : event) (st : state) (sn : snapshot) : snapshot :=
  match e with
  | KeyDown k =>
      if ((k =? 13) && negb (String.eqb (todoSubmit st) EmptyString))%bool
      then spec_append (todoSubmit st) sn else sn
  | Click i j =>
      match tasks sn !! i, j with
      | Some t, O => spec_toggle (id t) sn
      | Some t, S (S O) => spec_remove (id t) sn
      | _, _ => sn
      end
  | _ => sn
  end.

(** The records of the snapshot are records of the log, in the order of
    the log: [log] lists every record the page created, oldest first. *)
Definition follows (sn : snapshot) (log : list todo) : Prop :=
  sublist (List.map label (tasks sn)) (List.map label log).

(** The states of a run: before the script has run nothing was created;
    afterwards the page is in step with a snapshot that follows the log.
    The counter is at most [m]. *)
Definition reached (m : Z) (st : state) (log : list todo) : Prop :=
  (unloaded st /\ log = [] /\ 0 <= m)
  \/ exists sn, in_step st sn /\ follows sn log /\ nextId sn <= m.

(** The records that successive appends create, the counter starting
    at [n]. *)
Fixpoint issued (n : Z) (texts : list string) : list todo :=
  match texts with
  | [] => []
  | x :: xs => Todo n x false :: issued (n + 1) xs
  end.

(** The storage the script leaves for a snapshot, and the running page
    that shows it. *)
Definition stored (sn : snapshot) : gmap string string :=
  <["uniqueId" := decimal (nextId sn)]>
    (<["todos" := json_text (json_of_todos (tasks sn))]> ∅).

Definition page_of (sn : snapshot) : state :=
  State (stored sn) (render (tasks sn)) EmptyString true.

(** The store of the scenarios of the specification: two records, ids 0
    and 1, counter 2. *)
Definition two_tasks : snapshot :=
  Snapshot 2 [Todo 0 "Buy milk" false; Todo 1 "Walk" true].

(** The page after the view update of a toggle. *)
Definition toggled_view (target p : path) (c : bool) (dom : list li) : list li :=
  update_node p (strike_out (negb c)) (update_node target (check (negb c)) dom).

(** The list after the script has shown an item for the record [t] on top
    of the items [dom]: the new item is put last with the text and the
    Delete button, and the checkbox goes to the first item that carries
    the data-id of the record, which is the new item only if no earlier
    item carries it. *)
Definition shown_with (t : todo) (dom : list li) : list li :=
  let d := decimal (id t) in
  let box := Checkbox (completed t) (Some (JNum (id t))) in
  let text := Span ("todo-" ++ d) (task t) (completed t) in
  let button := Button (Some (JNum (id t))) in
  match find_index (fun x => String.eqb (data_id x) d) dom with
  | Some i =>
      (alter (fun x => Li (data_id x) (box :: children x)) i dom ++ [Li d [text; button]])%list
  | None => (dom ++ [Li d [box; text; button]])%list
  end.

(** The completion of a store function that cannot read the sequence: the
    exception of JSON.parse, or the TypeError of calling an array method on
    a value that has none. *)
Definition unreadable (v : completion json) : abrupt :=
  match v with
  | Abrupt e => e
  | Normal _ => TypeError
  end.

(** The node [n] is one the script makes for the id [k]. *)
Definition node_of (k : Z) (n : node) : Prop :=
  match n with
  | Checkbox _ y => y = Some (JNum k)
  | Span i _ _ => i = "todo-" ++ decimal k
  | Button y => y = Some (JNum k)
  end.

(** The item [x] is one of the id [k]: it carries the data-id of [k], it
    holds a text element of [k], and the listeners of its checkboxes and
    buttons were made for [k]. *)
Definition item_of (k : Z) (x : li) : Prop :=
  data_id x = decimal k
  /\ Forall (node_of k) (children x)
  /\ exists j, find_index (is_span_with ("todo-" ++ decimal k)) (children x) = Some j.

Definition sound_item (x : li) : Prop := exists k, exact_int k = true /\ item_of k x.

(** A page in use: the storage holds a snapshot, every item of the list is
    the item of some id, and the field listens.  Unlike [in_step] this does
    not ask the list to show the stored sequence. *)
Definition in_use (st : state) : Prop :=
  (exists sn, persists (localStorage st) sn)
  /\ Forall sound_item (todoList st)
  /\ listening st = true.

(** The list after the startup has shown the records [l] on top of [dom]. *)
Definition shown_all (l : list todo) (dom : list li) : list li :=
  fold_left (fun d t => shown_with t d) l dom.

(** * Properties *)

#[local] Arguments String.append !s1 s2 : simpl nomatch.

(** ** Texts *)

Lemma read_uint_no_digit r :
  match r with String c _ => is_digit c = false | EmptyString => True end ->
  read_uint r = (Nil, r).
Proof.
  destruct r as [|c r]; simpl; [reflexivity|].
  unfold is_digit. destruct (digit_of_char c); [discriminate|reflexivity].
Qed.

Lemma ends_number_no_digit r :
  ends_number r = true ->
  match r with String c _ => is_digit c = false | EmptyString => True end.
Proof.
  destruct r as [|c r]; simpl; [trivial|].
  destruct (is_digit c); simpl; [discriminate|reflexivity].
Qed.

Lemma read_uint_string_of_uint u r :
  match r with String c _ => is_digit c = false | EmptyString => True end ->
  read_uint (NilEmpty.string_of_uint u ++ r) = (u, r).
Proof.
  intros Hr. induction u; simpl; try (rewrite IHu; reflexivity).
  apply read_uint_no_digit, Hr.
Qed.

Lemma to_uint_no_leading_zero p u : Pos.to_uint p <> D0 u.
Proof.
  intros E.
  pose proof (DecimalPos.Unsigned.to_of (Pos.to_uint p)) as H.
  rewrite DecimalPos.Unsigned.of_to in H. simpl in H.
  rewrite E in H. unfold unorm in H. rewrite nzhead_D0 in H.
  destruct (nzhead u) eqn:En;
    try (apply (nzhead_nonzero u u); rewrite En; symmetry; exact H).
  apply (DecimalPos.Unsigned.to_uint_nonzero p). rewrite E. exact H.
Qed.

Lemma append_nil_r (s : string) : s ++ EmptyString = s.
Proof. induction s as [|c s IH]; simpl; [reflexivity | rewrite IH; reflexivity]. Qed.

Lemma append_assoc (a b c : string) : (a ++ b) ++ c = a ++ (b ++ c).
Proof. induction a as [|x a IH]; simpl; [reflexivity | rewrite IH; reflexivity]. Qed.

Lemma length_append (a b : string) :
  String.length (a ++ b) = (String.length a + String.length b)%nat.
Proof. induction a as [|x a IH]; simpl; [reflexivity | rewrite IH; reflexivity]. Qed.

Lemma exact_int_opp n : exact_int (- n) = exact_int n.
Proof.
  unfold exact_int. destruct (Z.leb_spec (- two53) n), (Z.leb_spec n two53),
    (Z.leb_spec (- two53) (- n)), (Z.leb_spec (- n) two53); simpl; try reflexivity; lia.
Qed.

Lemma exact_int_bounds n : exact_int n = true <-> - two53 <= n <= two53.
Proof.
  unfold exact_int. rewrite Bool.andb_true_iff, !Z.leb_le. tauto.
Qed.

Lemma number_exact n : exact_int n = true -> number n = Normal n.
Proof. intros H. unfold number. rewrite H. reflexivity. Qed.

Lemma number_Normal n m : number n = Normal m -> m = n /\ exact_int n = true.
Proof.
  unfold number. destruct (exact_int n); [|discriminate].
  intros E. injection E as <-. split; reflexivity.
Qed.

Lemma digits_to_end_to_uint p :
  digits_to_end (NilEmpty.string_of_uint (Pos.to_uint p)) = number (Z.pos p).
Proof.
  unfold digits_to_end.
  rewrite <- (append_nil_r (NilEmpty.string_of_uint (Pos.to_uint p))).
  rewrite read_uint_string_of_uint by exact I.
  pose proof (DecimalPos.Unsigned.to_uint_nonnil p) as Hn.
  pose proof (DecimalPos.Unsigned.of_to p) as Hp.
  destruct (Pos.to_uint p) eqn:E; try congruence; simpl;
    unfold Z.of_uint; rewrite Hp; reflexivity.
Qed.

Lemma string_of_uint_head u :
  u <> Nil -> exists c r, NilEmpty.string_of_uint u = String c r /\ is_digit c = true.
Proof.
  destruct u; try congruence; intros _; simpl; eexists _, _; split; reflexivity.
Qed.

Lemma StringToNumber_digits s c r :
  s = String c r -> is_digit c = true -> StringToNumber s = digits_to_end s.
Proof.
  intros -> H. unfold StringToNumber.
  destruct c as [[] [] [] [] [] [] [] []]; try discriminate H; reflexivity.
Qed.

Lemma ToNumber_decimal n : exact_int n = true -> ToNumber (Some (decimal n)) = Normal n.
Proof.
  intros Hn. unfold ToNumber, decimal. destruct n as [|p|p]; simpl.
  - reflexivity.
  - destruct (string_of_uint_head (Pos.to_uint p)) as (c & r & E & Hc).
    { apply DecimalPos.Unsigned.to_uint_nonnil. }
    rewrite (StringToNumber_digits _ c r E Hc), digits_to_end_to_uint.
    apply number_exact, Hn.
  - unfold StringToNumber. simpl. rewrite digits_to_end_to_uint.
    change (Z.neg p) with (- Z.pos p) in Hn. rewrite exact_int_opp in Hn.
    rewrite (number_exact _ Hn). reflexivity.
Qed.

Lemma digits_to_end_exact s n : digits_to_end s = Normal n -> exact_int n = true.
Proof.
  unfold digits_to_end. destruct (read_uint s) as [u r].
  destruct (skip_str_ws r); destruct u; try discriminate;
    intros E; apply number_Normal in E as [-> E]; exact E.
Qed.

Lemma ToNumber_exact v n : ToNumber v = Normal n -> exact_int n = true.
Proof.
  destruct v as [s|]; simpl; [|intros E; injection E as <-; reflexivity].
  unfold StringToNumber. destruct (skip_str_ws s) as [|c r].
  - intros E. injection E as <-. reflexivity.
  - destruct c as [[] [] [] [] [] [] [] []];
      try (apply digits_to_end_exact);
      destruct (digits_to_end r) as [m|e] eqn:E; simpl; try discriminate;
      intros H; injection H as <-; try rewrite exact_int_opp;
      apply (digits_to_end_exact r m E).
Qed.

Lemma parse_chars_escape_char c r :
  parse_chars (escape_char c ++ r)
  = cbind (parse_chars r) (fun p => Normal (String c (fst p), snd p)).
Proof. destruct c as [[] [] [] [] [] [] [] []]; reflexivity. Qed.

Lemma parse_chars_escape s r :
  parse_chars (escape s ++ String dquote r) = Normal (s, r).
Proof.
  induction s as [|c s IH]; [reflexivity|].
  simpl escape. rewrite append_assoc, parse_chars_escape_char, IH. reflexivity.
Qed.

Lemma number_tail_end r : ends_number r = true -> number_tail r = Normal r.
Proof.
  destruct r as [|c r]; [reflexivity|].
  destruct c as [[] [] [] [] [] [] [] []]; simpl; try discriminate; reflexivity.
Qed.

Lemma parse_number_digit c s :
  is_digit c = true ->
  parse_number (String c s)
  = cbind (parse_int_part (String c s)) (fun p =>
    cbind (number_tail (snd p)) (fun r =>
    cbind (number (fst p)) (fun n => Normal (n, r)))).
Proof. destruct c as [[] [] [] [] [] [] [] []]; simpl; try discriminate; reflexivity. Qed.

Lemma parse_int_part_to_uint p r :
  ends_number r = true ->
  parse_int_part (NilEmpty.string_of_uint (Pos.to_uint p) ++ r) = Normal (Z.pos p, r).
Proof.
  intros Hr. unfold parse_int_part.
  rewrite read_uint_string_of_uint by (apply ends_number_no_digit, Hr).
  pose proof (DecimalPos.Unsigned.to_uint_nonnil p) as Hn.
  pose proof (to_uint_no_leading_zero p) as Hz.
  pose proof (DecimalPos.Unsigned.of_to p) as Hp.
  destruct (Pos.to_uint p) eqn:E; try congruence;
    try (unfold Z.of_uint; rewrite Hp; reflexivity).
Qed.

Lemma parse_unsigned_to_uint p r :
  exact_int (Z.pos p) = true ->
  ends_number r = true ->
  parse_number (NilEmpty.string_of_uint (Pos.to_uint p) ++ r) = Normal (Z.pos p, r).
Proof.
  intros Hp Hr.
  destruct (string_of_uint_head (Pos.to_uint p)) as (c & s & E & Hc).
  { apply DecimalPos.Unsigned.to_uint_nonnil. }
  pose proof (parse_int_part_to_uint p r Hr) as H.
  rewrite E in *. change (String c s ++ r) with (String c (s ++ r)) in *.
  rewrite (parse_number_digit c _ Hc), H. simpl.
  rewrite (number_tail_end r Hr). simpl. rewrite (number_exact _ Hp). reflexivity.
Qed.

Lemma parse_number_decimal n r :
  exact_int n = true ->
  ends_number r = true ->
  parse_number (decimal n ++ r) = Normal (n, r).
Proof.
  intros Hn Hr. unfold decimal. destruct n as [|p|p]; simpl.
  - unfold parse_number, parse_int_part. simpl.
    rewrite read_uint_no_digit by (apply ends_number_no_digit, Hr). simpl.
    rewrite (number_tail_end r Hr). reflexivity.
  - apply parse_unsigned_to_uint; assumption.
  - change (Z.neg p) with (- Z.pos p) in Hn. rewrite exact_int_opp in Hn.
    pose proof (parse_unsigned_to_uint p r Hn Hr) as H.
    destruct (string_of_uint_head (Pos.to_uint p)) as (c & s & E & Hc).
    { apply DecimalPos.Unsigned.to_uint_nonnil. }
    rewrite E in *. change (String c s ++ r) with (String c (s ++ r)) in *.
    rewrite (parse_number_digit c _ Hc) in H. rewrite H. reflexivity.
Qed.

Lemma parse_value_number_head f c s :
  is_digit c = true \/ c = "-"%char ->
  parse_value (S f) (String c s)
  = cbind (parse_number (String c s)) (fun p => Normal (JNum (fst p), snd p)).
Proof.
  intros [H | ->]; [|reflexivity].
  destruct c as [[] [] [] [] [] [] [] []]; try discriminate H; reflexivity.
Qed.

Lemma decimal_head n :
  exists c s, decimal n = String c s /\ (is_digit c = true \/ c = "-"%char).
Proof.
  unfold decimal. destruct n as [|p|p]; simpl.
  - eexists _, _. split; [reflexivity | left; reflexivity].
  - destruct (string_of_uint_head (Pos.to_uint p)) as (c & s & E & Hc).
    { apply DecimalPos.Unsigned.to_uint_nonnil. }
    exists c, s. split; [exact E | left; exact Hc].
  - eexists _, _. split; [reflexivity | right; reflexivity].
Qed.

Lemma parse_value_number f n r :
  exact_int n = true ->
  ends_number r = true ->
  parse_value (S f) (decimal n ++ r) = Normal (JNum n, r).
Proof.
  intros Hn Hr. pose proof (parse_number_decimal n r Hn Hr) as H.
  destruct (decimal_head n) as (c & s & E & Hc).
  rewrite E in *. change (String c s ++ r) with (String c (s ++ r)) in *.
  rewrite (parse_value_number_head f c _ Hc), H. reflexivity.
Qed.

Lemma parse_value_quoted f s r :
  parse_value (S f) (String dquote (escape s ++ String dquote r)) = Normal (JStr s, r).
Proof.
  change (parse_value (S f) (String dquote (escape s ++ String dquote r)))
    with (cbind (parse_chars (escape s ++ String dquote r))
            (fun p => Normal (JStr (fst p), snd p))).
  rewrite parse_chars_escape. reflexivity.
Qed.

Lemma parse_value_todo f t r :
  exact_int (id t) = true ->
  parse_value (S (S (S (S (S f))))) (json_text (json_of_todo t) ++ r)
  = Normal (json_of_todo t, r).
Proof.
  intros Hn. destruct t as [n s b]. unfold json_of_todo. simpl id in Hn.
  remember (S f) as f4 eqn:H4. remember (S f4) as f3 eqn:H3. remember (S f3) as f2 eqn:H2.
  remember (S (S f2)) as f0 eqn:H0.
  simpl json_text. unfold quote. simpl. repeat (rewrite append_assoc; simpl).
  rewrite H0. simpl.
  rewrite H2. rewrite (parse_value_number _ _ _ Hn) by reflexivity. simpl.
  rewrite H3. rewrite parse_value_quoted. simpl.
  rewrite H4. destruct b; reflexivity.
Qed.

Lemma parse_elements_step f t rest :
  exact_int (id t) = true ->
  parse_elements (S (S (S (S (S (S f)))))) (json_text (json_of_todo t) ++ rest)
  = match skip_ws rest with
    | String "," r =>
        cbind (parse_elements (S (S (S (S (S f))))) r)
          (fun q => Normal (json_of_todo t :: fst q, snd q))
    | String "]" r => Normal ([json_of_todo t], r)
    | _ => Abrupt SyntaxError
    end.
Proof.
  intros Hn.
  change (parse_elements (S (S (S (S (S (S f)))))) (json_text (json_of_todo t) ++ rest))
    with (cbind (parse_value (S (S (S (S (S f))))) (json_text (json_of_todo t) ++ rest))
            (fun p => match skip_ws (snd p) with
                      | String "," r =>
                          cbind (parse_elements (S (S (S (S (S f))))) r)
                            (fun q => Normal (fst p :: fst q, snd q))
                      | String "]" r => Normal ([fst p], r)
                      | _ => Abrupt SyntaxError
                      end)).
  rewrite (parse_value_todo _ _ _ Hn). reflexivity.
Qed.

Lemma parse_elements_todos l : forall t f r,
  exact_todos (t :: l) = true ->
  parse_elements (S (S (S (S (S (S (List.length l + f)))))))
    (join "," (todo_texts (t :: l)) ++ String "]" r)
  = Normal (List.map json_of_todo (t :: l), r).
Proof.
  induction l as [|t' l IH]; intros t f r Hx;
    apply Bool.andb_true_iff in Hx as [Ht Hl].
  - change (join "," (todo_texts [t])) with (json_text (json_of_todo t)).
    rewrite (parse_elements_step _ _ _ Ht). reflexivity.
  - change (join "," (todo_texts (t :: t' :: l)))
      with (json_text (json_of_todo t) ++ "," ++ join "," (todo_texts (t' :: l))).
    rewrite !append_assoc.
    change (List.length (t' :: l) + f)%nat with (S (List.length l + f)).
    rewrite (parse_elements_step _ _ _ Ht).
    change (skip_ws ("," ++ join "," (todo_texts (t' :: l)) ++ String "]" r))
      with (String "," (join "," (todo_texts (t' :: l)) ++ String "]" r)).
    cbv iota beta. rewrite (IH _ _ _ Hl). reflexivity.
Qed.

Lemma todo_texts_length l t :
  (S (List.length l) <= String.length (join "," (todo_texts (t :: l))))%nat.
Proof.
  revert t. induction l as [|t' l IH]; intros t.
  - simpl. lia.
  - change (join "," (todo_texts (t :: t' :: l)))
      with (json_text (json_of_todo t) ++ "," ++ join "," (todo_texts (t' :: l))).
    rewrite !length_append. specialize (IH t'). simpl List.length. simpl String.length at 2. lia.
Qed.

Lemma parse_value_array f x r :
  parse_value (S f) (String "[" (String "{" x ++ r))
  = cbind (parse_elements f (String "{" x ++ r)) (fun p => Normal (JArr (fst p), snd p)).
Proof. reflexivity. Qed.

Lemma todo_texts_head t l :
  exists x, join "," (todo_texts (t :: l)) = String "{" x.
Proof.
  destruct l as [|t' l].
  - eexists. reflexivity.
  - eexists. change (join "," (todo_texts (t :: t' :: l)))
      with (json_text (json_of_todo t) ++ "," ++ join "," (todo_texts (t' :: l))).
    reflexivity.
Qed.

Lemma exact_json_todos l : exact_json (json_of_todos l) = exact_todos l.
Proof.
  unfold json_of_todos, exact_todos. simpl. induction l as [|t l IH]; [reflexivity|].
  simpl. rewrite IH, Bool.andb_true_r. reflexivity.
Qed.

Lemma JSON_parse_text_todos l :
  exact_todos l = true ->
  JSON_parse_text (json_text (json_of_todos l)) = Normal (json_of_todos l).
Proof.
  intros Hx. destruct l as [|t l]; [reflexivity|].
  pose proof (exact_json_todos (t :: l)) as Hj. rewrite Hx in Hj.
  unfold JSON_parse_text, json_of_todos in *.
  change (json_text (JArr (List.map json_of_todo (t :: l))))
    with (String "[" (join "," (todo_texts (t :: l)) ++ String "]" EmptyString)).
  pose proof (todo_texts_length l t) as Hlen.
  remember (join "," (todo_texts (t :: l))) as body eqn:Hb.
  assert (exists f, (2 * String.length (String "[" (body ++ String "]" EmptyString)))%nat
                    = S (S (S (S (S (S (List.length l + f))))))) as [f Hf].
  { exists (2 * String.length (String "[" (body ++ String "]" EmptyString)) - 6 - List.length l)%nat.
    simpl String.length. rewrite length_append. simpl String.length. lia. }
  rewrite Hf.
  destruct (todo_texts_head t l) as [x Hy]. rewrite <- Hb in Hy.
  rewrite Hy at 1. rewrite parse_value_array. rewrite <- Hy. rewrite Hb.
  rewrite (parse_elements_todos _ _ _ _ Hx). cbn [cbind fst snd skip_ws]. rewrite Hj.
  reflexivity.
Qed.

Lemma JSON_parse_stringify_todos l :
  exact_todos l = true ->
  JSON_parse (Some (json_text (json_of_todos l))) = Normal (json_of_todos l).
Proof. apply JSON_parse_text_todos. Qed.

Lemma JSON_stringify_todos l :
  exact_todos l = true -> JSON_stringify (json_of_todos l) = Normal (json_text (json_of_todos l)).
Proof.
  intros Hx. unfold JSON_stringify. rewrite exact_json_todos, Hx. reflexivity.
Qed.

Lemma JSON_parse_exact v j : JSON_parse v = Normal j -> exact_json j = true.
Proof.
  assert (forall s, JSON_parse_text s = Normal j -> exact_json j = true) as H.
  { intros s. unfold JSON_parse_text.
    destruct (parse_value _ s) as [[x r]|e]; simpl; [|discriminate].
    destruct (skip_ws r); [|discriminate].
    destruct (exact_json x) eqn:E; [|discriminate].
    intros Hx. injection Hx as <-. exact E. }
  destruct v as [s|]; apply H.
Qed.

Lemma String_of_number_exact n : exact_int n = true -> String_of_number n = Normal (decimal n).
Proof. intros H. unfold String_of_number. rewrite H. reflexivity. Qed.

#[local] Arguments json_text : simpl never.
#[local] Arguments JSON_parse : simpl never.
#[local] Arguments ToNumber : simpl never.
#[local] Arguments decimal : simpl never.
#[local] Arguments JSON_stringify : simpl never.
#[local] Arguments String_of_number : simpl never.
#[local] Arguments exact_int : simpl never.

(** ** The text of a number *)

Lemma plain_text_string_of_uint u : plain_text (NilEmpty.string_of_uint u) = true.
Proof. induction u; simpl; try exact IHu; reflexivity. Qed.

Lemma plain_text_decimal n : plain_text (decimal n) = true.
Proof.
  unfold decimal. destruct n as [|p|p]; simpl;
    [reflexivity | apply plain_text_string_of_uint | apply plain_text_string_of_uint].
Qed.

Lemma decimal_inj n m : decimal n = decimal m -> n = m.
Proof.
  unfold decimal. intros E.
  assert (Some (Z.to_int n) = Some (Z.to_int m)) as H
    by (rewrite <- !NilEmpty.isi, E; reflexivity).
  injection H as H. rewrite <- (DecimalZ.of_to n), <- (DecimalZ.of_to m), H. reflexivity.
Qed.

Lemma decimal_eqb n m :
  String.eqb (decimal n) (decimal m) = (n =? m).
Proof.
  destruct (Z.eqb_spec n m) as [->|Hne].
  - apply String.eqb_refl.
  - apply String.eqb_neq. intros E. apply Hne, decimal_inj, E.
Qed.

(** ** The callbacks on records *)

Lemma toggle_callback_todo i t :
  toggle_callback (Some (JNum i)) (json_of_todo t)
  = Normal (json_of_todo (if id t =? i then flip t else t)).
Proof.
  destruct t as [n s b]. unfold toggle_callback. simpl.
  destruct (n =? i); reflexivity.
Qed.

Lemma mapM_toggle i l :
  mapM (toggle_callback (Some (JNum i))) (List.map json_of_todo l)
  = Normal (List.map json_of_todo (List.map (fun t => if id t =? i then flip t else t) l)).
Proof.
  induction l as [|t l IH]; [reflexivity|].
  simpl. rewrite toggle_callback_todo. simpl. rewrite IH. reflexivity.
Qed.

Lemma filterM_remove i l :
  filterM (remove_callback (Some (JNum i))) (List.map json_of_todo l)
  = Normal (List.map json_of_todo (List.filter (fun t => negb (id t =? i)) l)).
Proof.
  induction l as [|t l IH]; [reflexivity|].
  simpl. rewrite IH. simpl. destruct (id t =? i); reflexivity.
Qed.

(** ** What the storage holds after a write *)

Lemma persists_exact ls sn :
  persists ls sn -> exact_int (nextId sn) = true /\ exact_todos (tasks sn) = true.
Proof.
  intros [Ht Hn]. split.
  - apply (ToNumber_exact _ _ Hn).
  - rewrite <- exact_json_todos. apply (JSON_parse_exact _ _ Ht).
Qed.

Lemma exact_todos_app l l' : exact_todos (l ++ l') = (exact_todos l && exact_todos l')%bool.
Proof. apply forallb_app. Qed.

Lemma exact_todos_toggle k l :
  exact_todos (List.map (fun t => if id t =? k then flip t else t) l) = exact_todos l.
Proof.
  unfold exact_todos. induction l as [|t l IH]; [reflexivity|].
  simpl. rewrite IH. destruct (id t =? k); reflexivity.
Qed.

Lemma exact_todos_filter (p : todo -> bool) l :
  exact_todos l = true -> exact_todos (List.filter p l) = true.
Proof.
  unfold exact_todos. induction l as [|t l IH]; [reflexivity|].
  simpl. intros H. apply Bool.andb_true_iff in H as [Ht Hl].
  destruct (p t); simpl; [rewrite Ht|]; apply IH, Hl.
Qed.

Lemma exact_todos_In l t : exact_todos l = true -> In t l -> exact_int (id t) = true.
Proof.
  unfold exact_todos. rewrite forallb_forall. intros H Hin. apply (H t Hin).
Qed.

Lemma exact_todos_lookup l i t :
  exact_todos l = true -> l !! i = Some t -> exact_int (id t) = true.
Proof.
  intros H Hi. apply (exact_todos_In l t H).
  apply list_elem_of_In. eapply list_elem_of_lookup_2, Hi.
Qed.

Lemma persists_exact_id ls sn k :
  persists ls sn -> In k (ids (tasks sn)) -> exact_int k = true.
Proof.
  intros Hp Hin. apply in_map_iff in Hin as (t & <- & Ht).
  apply (exact_todos_In _ t (proj2 (persists_exact ls sn Hp)) Ht).
Qed.

Lemma persists_todos ls sn l :
  persists ls sn ->
  exact_todos l = true ->
  persists (<["todos" := json_text (json_of_todos l)]> ls) (Snapshot (nextId sn) l).
Proof.
  intros [_ Hn] Hx. split; simpl.
  - rewrite lookup_insert_eq. apply JSON_parse_stringify_todos, Hx.
  - rewrite lookup_insert_ne by discriminate. exact Hn.
Qed.

Lemma persists_counter ls sn n :
  persists ls sn ->
  exact_int n = true ->
  persists (<["uniqueId" := decimal n]> ls) (Snapshot n (tasks sn)).
Proof.
  intros [Ht _] Hx. split; simpl.
  - rewrite lookup_insert_ne by discriminate. exact Ht.
  - rewrite lookup_insert_eq. apply ToNumber_decimal, Hx.
Qed.

Lemma succ_number_below n : n < two53 -> succ_number n = n + 1.
Proof. intros H. unfold succ_number. destruct (Z.ltb_spec n two53); [reflexivity | lia]. Qed.

Lemma exact_int_succ n : exact_int n = true -> exact_int (succ_number n) = true.
Proof.
  rewrite !exact_int_bounds. unfold succ_number.
  destruct (Z.ltb_spec n two53); unfold two53 in *; lia.
Qed.

Lemma plus_one_exact n : exact_int n = true -> plus_one n = Normal (succ_number n).
Proof. intros Hx. unfold plus_one. rewrite Hx. reflexivity. Qed.

Lemma json_of_todos_inj l l' : json_of_todos l = json_of_todos l' -> l = l'.
Proof.
  unfold json_of_todos. intros E. injection E as E. revert l' E.
  induction l as [|[a b c] l IH]; intros [|[a' b' c'] l'] E; try discriminate.
  - reflexivity.
  - simpl in E. injection E as -> -> -> E. f_equal. apply IH, E.
Qed.

Lemma persists_inj ls sn sn' : persists ls sn -> persists ls sn' -> sn = sn'.
Proof.
  intros [Ht Hn] [Ht' Hn']. rewrite Ht in Ht'. rewrite Hn in Hn'.
  injection Hn' as En. injection Ht' as Et.
  destruct sn as [n l], sn' as [n' l']. simpl in *. f_equal; [exact En|].
  apply json_of_todos_inj. unfold json_of_todos. f_equal. exact Et.
Qed.

Lemma exact_todos_append sn text :
  exact_int (nextId sn) = true -> exact_todos (tasks sn) = true ->
  exact_todos (tasks sn ++ [new_todo sn text]) = true.
Proof.
  intros Hn Hl. rewrite exact_todos_app, Hl. unfold exact_todos. simpl. rewrite Hn.
  reflexivity.
Qed.

Lemma persists_appended ls sn text :
  persists ls sn ->
  persists (appended text ls sn)
    (Snapshot (succ_number (nextId sn)) (tasks sn ++ [new_todo sn text])).
Proof.
  intros H. destruct (persists_exact ls sn H) as [Hn Hl].
  unfold appended. apply (persists_counter _ (Snapshot (nextId sn) _)).
  - apply persists_todos; [exact H | apply exact_todos_append; assumption].
  - apply exact_int_succ; assumption.
Qed.

Lemma persists_append ls sn text :
  persists ls sn ->
  nextId sn < two53 ->
  persists (appended text ls sn) (spec_append text sn).
Proof.
  intros H Hlt. unfold spec_append. rewrite <- (succ_number_below _ Hlt).
  apply persists_appended, H.
Qed.

Lemma persists_stored sn :
  exact_int (nextId sn) = true -> exact_todos (tasks sn) = true -> persists (stored sn) sn.
Proof.
  intros Hn Hl. unfold stored. apply (persists_counter _ (Snapshot 0 (tasks sn))); [|exact Hn].
  split; [|reflexivity]. simpl. rewrite lookup_insert_eq. apply JSON_parse_stringify_todos, Hl.
Qed.

(** ** The handlers on a storage that holds a snapshot, in any page *)

#[local] Arguments node_at : simpl never.
#[local] Arguments update_node : simpl never.
#[local] Arguments find_span : simpl never.
#[local] Arguments find_index : simpl never.

Ltac step :=
  cbv beta iota zeta delta
    [bind ret lift throw getItem setItem get_todoList set_todoList appendChild
     querySelector_li getElementById hasAttribute_checked set_checked classList_strike
     update_view set_todoSubmit register_keydown cbind array_map array_filter array_push
     array_forEach localStorage todoList todoSubmit listening].

Lemma toggleEventHandler_main_other ls dom v b target x :
  (forall c y, node_at target dom <> Some (Checkbox c y)) ->
  Main.toggleEventHandler target x (State ls dom v b)
  = (Abrupt OutsideModel, State ls dom v b).
Proof.
  intros Hn. unfold Main.toggleEventHandler. step.
  destruct (node_at target dom) as [[c y| |]|]; try reflexivity.
  exfalso. apply (Hn c y). reflexivity.
Qed.

Lemma ToString_number n :
  exact_int n = true -> ToString (Some (JNum n)) = Normal (decimal n).
Proof. apply String_of_number_exact. Qed.

#[local] Arguments ToString : simpl never.

(** In this section the storage [ls] holds the snapshot [sn]; the page [dom], the
    text [v] of the input field and the flag [b] are arbitrary. *)

Section Handlers.

Variables (ls : gmap string string) (dom : list li) (v : string) (b : bool).
Variable sn : snapshot.
Hypothesis Hp : persists ls sn.

Lemma addToStore_main text :
  Main.addToStore text (State ls dom v b)
  = (Normal tt, State (appended text ls sn) dom v b).
Proof.
  pose proof Hp as [Ht Hn]. destruct (persists_exact ls sn Hp) as [Hxn Hxl].
  unfold appended, Main.addToStore, Main.incrementUniqueId.
  step. rewrite Hn. step. rewrite Ht. unfold json_of_todos. step.
  change [JObj [("id", JNum (nextId sn)); ("task", JStr text); ("completed", JBool false)]]
    with (List.map json_of_todo [new_todo sn text]).
  rewrite <- List.map_app. fold (json_of_todos (tasks sn ++ [new_todo sn text])).
  rewrite (JSON_stringify_todos _ (exact_todos_append sn text Hxn Hxl)). step.
  rewrite lookup_insert_ne by discriminate. rewrite Hn. step.
  rewrite (plus_one_exact _ Hxn). step.
  rewrite (String_of_number_exact _ (exact_int_succ _ Hxn)). reflexivity.
Qed.

Lemma addToStore_part text :
  Part000.addToStore text (State ls dom v b)
  = (Normal tt, State (appended text ls sn) dom v b).
Proof.
  pose proof Hp as [Ht Hn]. destruct (persists_exact ls sn Hp) as [Hxn Hxl].
  unfold appended, Part000.addToStore, Part000.incrementUniqueId.
  step. rewrite Hn. step. rewrite Ht. unfold json_of_todos. step.
  change [JObj [("id", JNum (nextId sn)); ("task", JStr text); ("completed", JBool false)]]
    with (List.map json_of_todo [new_todo sn text]).
  rewrite <- List.map_app. fold (json_of_todos (tasks sn ++ [new_todo sn text])).
  rewrite (JSON_stringify_todos _ (exact_todos_append sn text Hxn Hxl)). step.
  rewrite lookup_insert_ne by discriminate. rewrite Hn. step.
  rewrite (plus_one_exact _ Hxn). step.
  rewrite (String_of_number_exact _ (exact_int_succ _ Hxn)). reflexivity.
Qed.

Lemma stringify_toggled i :
  JSON_stringify
    (JArr (List.map json_of_todo
             (List.map (fun t => if id t =? i then flip t else t) (tasks sn))))
  = Normal (json_text (json_of_todos (tasks (spec_toggle i sn)))).
Proof.
  destruct (persists_exact ls sn Hp) as [_ Hxl].
  apply (JSON_stringify_todos (tasks (spec_toggle i sn))).
  unfold spec_toggle. simpl tasks. rewrite exact_todos_toggle. exact Hxl.
Qed.

Lemma stringify_removed i :
  JSON_stringify
    (JArr (List.map json_of_todo (List.filter (fun t => negb (id t =? i)) (tasks sn))))
  = Normal (json_text (json_of_todos (tasks (spec_remove i sn)))).
Proof.
  destruct (persists_exact ls sn Hp) as [_ Hxl].
  apply (JSON_stringify_todos (tasks (spec_remove i sn))).
  unfold spec_remove. simpl tasks. apply exact_todos_filter, Hxl.
Qed.

Lemma toggleEventHandler_main target c x i :
  exact_int i = true ->
  node_at target dom = Some (Checkbox c x) ->
  Main.toggleEventHandler target (Some (JNum i)) (State ls dom v b)
  = match find_span ("todo-" ++ decimal i) dom O with
    | Some p =>
        (Normal tt,
         State (toggled i ls sn)
               (update_node p (strike_out (negb c)) (update_node target (check (negb c)) dom)) v b)
    | None =>
        (Abrupt TypeError, State ls (update_node target (check (negb c)) dom) v b)
    end.
Proof.
  pose proof Hp as [Ht Hn]. intros Hi Hc.
  unfold Main.toggleEventHandler, toggled.
  step. rewrite Hc. step. rewrite (ToString_number i Hi). step.
  rewrite Ht. unfold json_of_todos. step. rewrite mapM_toggle. step.
  destruct (find_span _ dom 0) as [p|]; destruct c; step;
    try rewrite stringify_toggled; reflexivity.
Qed.

Lemma toggleEventHandler_part target c x i :
  exact_int i = true ->
  node_at target dom = Some (Checkbox c x) ->
  Part000.toggleEventHandler target (Some (JNum i)) (State ls dom v b)
  = match find_span ("todo-" ++ decimal i) dom O with
    | Some p =>
        (Normal tt,
         State (toggled i ls sn)
               (update_node p (strike_out (negb c)) (update_node target (check (negb c)) dom)) v b)
    | None =>
        (Abrupt TypeError,
         State (toggled i ls sn) (update_node target (check (negb c)) dom) v b)
    end.
Proof.
  pose proof Hp as [Ht Hn]. intros Hi Hc.
  unfold Part000.toggleEventHandler, toggled.
  step. rewrite Ht. unfold json_of_todos. step. rewrite mapM_toggle. step.
  rewrite stringify_toggled. step. rewrite Hc. step. rewrite (ToString_number i Hi). step.
  destruct (find_span _ dom 0) as [p|]; destruct c; reflexivity.
Qed.

Lemma toggleEventHandler_part_other target i :
  (forall c y, node_at target dom <> Some (Checkbox c y)) ->
  Part000.toggleEventHandler target (Some (JNum i)) (State ls dom v b)
  = (Abrupt OutsideModel, State (toggled i ls sn) dom v b).
Proof.
  pose proof Hp as [Ht _]. intros Hn.
  unfold Part000.toggleEventHandler, toggled.
  step. rewrite Ht. unfold json_of_todos. step. rewrite mapM_toggle. step.
  rewrite stringify_toggled. step.
  destruct (node_at target dom) as [[c y| |]|]; try reflexivity.
  exfalso. apply (Hn c y). reflexivity.
Qed.

Lemma toggleEventHandler_completes target c x k p :
  exact_int k = true ->
  node_at target dom = Some (Checkbox c x) ->
  find_span ("todo-" ++ decimal k) dom O = Some p ->
  Main.toggleEventHandler target (Some (JNum k)) (State ls dom v b)
  = (Normal tt, State (toggled k ls sn) (toggled_view target p c dom) v b)
  /\ Part000.toggleEventHandler target (Some (JNum k)) (State ls dom v b)
     = (Normal tt, State (toggled k ls sn) (toggled_view target p c dom) v b).
Proof.
  intros Hk Hc Hs.
  rewrite (toggleEventHandler_main target c x k Hk Hc).
  rewrite (toggleEventHandler_part target c x k Hk Hc).
  rewrite Hs. split; reflexivity.
Qed.

Lemma removeElement_main i :
  exact_int i = true ->
  Main.removeElement (Some (JNum i)) (State ls dom v b)
  = match find_index (fun x => String.eqb (data_id x) (decimal i)) dom with
    | Some k => (Normal tt, State (removed i ls sn) (delete k dom) v b)
    | None => (Abrupt TypeError, State (removed i ls sn) dom v b)
    end.
Proof.
  pose proof Hp as [Ht Hn]. intros Hi.
  unfold Main.removeElement, removed.
  step. rewrite Ht. unfold json_of_todos. step. rewrite filterM_remove. step.
  rewrite stringify_removed. step. rewrite (ToString_number i Hi). step.
  rewrite plain_text_decimal. step.
  destruct (find_index _ dom); reflexivity.
Qed.

End Handlers.

(** ** Sequences with distinct ids *)

Lemma find_index_cons {A : Type} (p : A -> bool) x l :
  find_index p (x :: l) = if p x then Some O else option_map S (find_index p l).
Proof. reflexivity. Qed.

Lemma find_index_absent k l :
  ~ In k (ids l) -> find_index (has_id k) l = None.
Proof.
  induction l as [|t l IH]; intros H; [reflexivity|].
  rewrite find_index_cons. unfold has_id at 1. destruct (Z.eqb_spec (id t) k) as [E|E].
  - exfalso. apply H. left. exact E.
  - rewrite IH; [reflexivity|]. intros Hin. apply H. right. exact Hin.
Qed.

Lemma find_index_present l : forall i t,
  NoDup (ids l) -> l !! i = Some t -> find_index (has_id (id t)) l = Some i.
Proof.
  induction l as [|t' l IH]; intros i t Hnd Hi; [discriminate|].
  apply NoDup_cons in Hnd as [Hnot Hnd]. rewrite find_index_cons. unfold has_id at 1.
  destruct i as [|i]; simpl in Hi.
  - injection Hi as ->. rewrite Z.eqb_refl. reflexivity.
  - destruct (Z.eqb_spec (id t') (id t)) as [E|E].
    + exfalso. apply Hnot. rewrite E. apply list_elem_of_In.
      apply in_map. apply list_elem_of_In. eapply list_elem_of_lookup_2, Hi.
    + rewrite (IH i t Hnd Hi). reflexivity.
Qed.

Lemma toggle_absent k l :
  ~ In k (ids l) -> List.map (fun t => if id t =? k then flip t else t) l = l.
Proof.
  induction l as [|t l IH]; intros H; [reflexivity|]. simpl.
  destruct (Z.eqb_spec (id t) k) as [E|E].
  - exfalso. apply H. left. exact E.
  - rewrite IH; [reflexivity|]. intros Hin. apply H. right. exact Hin.
Qed.

Lemma remove_absent k l :
  ~ In k (ids l) -> List.filter (fun t => negb (id t =? k)) l = l.
Proof.
  induction l as [|t l IH]; intros H; [reflexivity|]. simpl.
  destruct (Z.eqb_spec (id t) k) as [E|E].
  - exfalso. apply H. left. exact E.
  - simpl. rewrite IH; [reflexivity|]. intros Hin. apply H. right. exact Hin.
Qed.

Lemma toggle_present l : forall i t,
  NoDup (ids l) -> l !! i = Some t ->
  List.map (fun t' => if id t' =? id t then flip t' else t') l = <[i := flip t]> l.
Proof.
  induction l as [|t' l IH]; intros i t Hnd Hi; [discriminate|].
  apply NoDup_cons in Hnd as [Hnot Hnd]. simpl.
  destruct i as [|i]; simpl in Hi.
  - injection Hi as ->. rewrite Z.eqb_refl. simpl. f_equal. apply toggle_absent.
    intros H. apply Hnot. apply list_elem_of_In. exact H.
  - destruct (Z.eqb_spec (id t') (id t)) as [E|E].
    + exfalso. apply Hnot. rewrite E. apply list_elem_of_In.
      apply in_map. apply list_elem_of_In. eapply list_elem_of_lookup_2, Hi.
    + simpl. f_equal. apply IH; assumption.
Qed.

Lemma remove_present l : forall i t,
  NoDup (ids l) -> l !! i = Some t ->
  List.filter (fun t' => negb (id t' =? id t)) l = delete i l.
Proof.
  induction l as [|t' l IH]; intros i t Hnd Hi; [discriminate|].
  apply NoDup_cons in Hnd as [Hnot Hnd]. simpl.
  destruct i as [|i]; simpl in Hi.
  - injection Hi as ->. rewrite Z.eqb_refl. simpl. apply remove_absent.
    intros H. apply Hnot. apply list_elem_of_In. exact H.
  - destruct (Z.eqb_spec (id t') (id t)) as [E|E].
    + exfalso. apply Hnot. rewrite E. apply list_elem_of_In.
      apply in_map. apply list_elem_of_In. eapply list_elem_of_lookup_2, Hi.
    + simpl. f_equal. apply IH; assumption.
Qed.

(** ** The view of a sequence of records *)

Lemma find_index_ext {A : Type} (p q : A -> bool) l :
  (forall x, In x l -> p x = q x) -> find_index p l = find_index q l.
Proof.
  induction l as [|x l IH]; intros H; [reflexivity|].
  rewrite !find_index_cons, (H x (or_introl eq_refl)), IH; [reflexivity|].
  intros y Hy. apply H. right. exact Hy.
Qed.

Lemma find_index_map {A B : Type} (f : A -> B) (p : B -> bool) l :
  find_index p (List.map f l) = find_index (fun x => p (f x)) l.
Proof.
  induction l as [|x l IH]; [reflexivity|].
  simpl List.map. rewrite !find_index_cons, IH. reflexivity.
Qed.

Lemma find_index_render k l :
  find_index (fun x => String.eqb (data_id x) (decimal k)) (render l)
  = find_index (has_id k) l.
Proof.
  unfold render. rewrite find_index_map. apply find_index_ext.
  intros t _. apply decimal_eqb.
Qed.

Lemma find_span_cons sid x l i :
  find_span sid (x :: l) i
  = match find_index (is_span_with sid) (children x) with
    | Some j => Some (i, j)
    | None => find_span sid l (S i)
    end.
Proof. reflexivity. Qed.

Lemma find_span_render_item k t :
  find_index (is_span_with ("todo-" ++ decimal k)) (children (render_item t))
  = if has_id k t then Some 1%nat else None.
Proof.
  unfold render_item, has_id. simpl children. rewrite !find_index_cons. simpl.
  rewrite decimal_eqb. destruct (id t =? k); reflexivity.
Qed.

Lemma find_span_render k l : forall i,
  find_span ("todo-" ++ decimal k) (render l) i
  = option_map (fun j => ((i + j)%nat, 1%nat)) (find_index (has_id k) l).
Proof.
  induction l as [|t l IH]; intros i; [reflexivity|].
  unfold render in *. simpl List.map. rewrite find_span_cons, find_span_render_item, find_index_cons.
  destruct (has_id k t).
  - simpl. rewrite Nat.add_0_r. reflexivity.
  - rewrite IH. destruct (find_index (has_id k) l) as [j|]; simpl; [|reflexivity].
    rewrite Nat.add_succ_r. reflexivity.
Qed.

Lemma render_lookup l i : render l !! i = render_item <$> (l !! i).
Proof. unfold render. revert i. induction l as [|t l IH]; intros [|i]; simpl; auto. Qed.

Lemma node_at_render l i j t :
  l !! i = Some t -> node_at (i, j) (render l) = children (render_item t) !! j.
Proof. intros H. unfold node_at. simpl fst. simpl snd. rewrite render_lookup, H. reflexivity. Qed.

Lemma node_at_render_None l i j :
  l !! i = None -> node_at (i, j) (render l) = None.
Proof. intros H. unfold node_at. simpl fst. rewrite render_lookup, H. reflexivity. Qed.

Lemma render_insert l i t : render (<[i := t]> l) = <[i := render_item t]> (render l).
Proof.
  unfold render. revert i. induction l as [|t' l IH]; intros [|i]; simpl; auto.
  f_equal. apply IH.
Qed.

Lemma render_delete l i : render (delete i l) = delete i (render l).
Proof.
  unfold render. revert i. induction l as [|t' l IH]; intros [|i]; simpl; auto.
  f_equal. apply IH.
Qed.

Lemma render_app l l' : render (l ++ l') = (render l ++ render l')%list.
Proof. apply List.map_app. Qed.

Lemma update_render l i t b :
  l !! i = Some t ->
  update_node (i, 1%nat) (strike_out b) (update_node (i, 0%nat) (check b) (render l))
  = render (<[i := Todo (id t) (task t) b]> l).
Proof.
  intros H. rewrite render_insert. unfold update_node. simpl fst. simpl snd.
  rewrite render_lookup, H. simpl.
  rewrite list_lookup_insert_eq.
  2:{ unfold render. rewrite length_map. eapply lookup_lt_Some, H. }
  simpl. rewrite list_insert_insert_eq. reflexivity.
Qed.

(** ** Updates of one node *)

Lemma node_at_update p q f l :
  node_at q (update_node p f l)
  = if decide (p = q) then f <$> node_at q l else node_at q l.
Proof.
  destruct p as [i j], q as [i' j']. unfold node_at, update_node. simpl fst. simpl snd.
  destruct (l !! i) as [x|] eqn:Hi.
  - destruct (children x !! j) as [n|] eqn:Hj.
    + destruct (decide (i = i')) as [<-|Hne].
      * rewrite list_lookup_insert_eq by (eapply lookup_lt_Some, Hi). simpl. rewrite Hi.
        destruct (decide (j = j')) as [<-|Hne'].
        -- rewrite list_lookup_insert_eq by (eapply lookup_lt_Some, Hj).
           rewrite decide_True by reflexivity. rewrite Hj. reflexivity.
        -- rewrite list_lookup_insert_ne by exact Hne'.
           rewrite decide_False by congruence. reflexivity.
      * rewrite list_lookup_insert_ne by exact Hne.
        rewrite decide_False by congruence. reflexivity.
    + case_decide as E; [|reflexivity].
      injection E as <- <-. rewrite Hi, Hj. reflexivity.
  - case_decide as E; [|reflexivity].
    injection E as <- <-. rewrite Hi. reflexivity.
Qed.

Lemma find_index_insert {A : Type} (p : A -> bool) (l : list A) : forall j x y,
  l !! j = Some x -> p y = p x -> find_index p (<[j := y]> l) = find_index p l.
Proof.
  induction l as [|z l IH]; intros [|j] x y Hj Hp; try discriminate Hj; simpl.
  - injection Hj as ->. rewrite !find_index_cons, Hp. reflexivity.
  - rewrite !find_index_cons, (IH j x y Hj Hp). reflexivity.
Qed.

Lemma find_span_update sid p f l :
  (forall n, is_span_with sid (f n) = is_span_with sid n) ->
  forall i, find_span sid (update_node p f l) i = find_span sid l i.
Proof.
  intros Hf. destruct p as [k j]. unfold update_node. simpl fst. simpl snd.
  destruct (l !! k) as [x|] eqn:Hk; [|reflexivity].
  destruct (children x !! j) as [n|] eqn:Hj; [|reflexivity].
  revert k Hk. induction l as [|y l IH]; intros [|k] Hk i; try discriminate Hk; simpl.
  - injection Hk as ->. rewrite !find_span_cons. simpl children.
    rewrite (find_index_insert _ _ j n (f n) Hj (Hf n)). reflexivity.
  - rewrite !find_span_cons. rewrite (IH k Hk). reflexivity.
Qed.

Lemma is_span_with_check sid b n : is_span_with sid (check b n) = is_span_with sid n.
Proof. destruct n; reflexivity. Qed.

Lemma is_span_with_strike_out sid b n : is_span_with sid (strike_out b n) = is_span_with sid n.
Proof. destruct n; reflexivity. Qed.

Lemma find_index_Some {A : Type} (p : A -> bool) (l : list A) : forall i,
  find_index p l = Some i -> exists x, l !! i = Some x /\ p x = true.
Proof.
  induction l as [|y l IH]; intros i H; [discriminate H|].
  rewrite find_index_cons in H. destruct (p y) eqn:Hy.
  - injection H as <-. exists y. split; [reflexivity | exact Hy].
  - destruct (find_index p l) as [k|]; [|discriminate H]. injection H as <-.
    apply (IH k eq_refl).
Qed.

(** ** Showing one more item *)

Lemma find_index_last {A : Type} (p : A -> bool) l x :
  find_index p l = None -> p x = true -> find_index p (l ++ [x])%list = Some (List.length l).
Proof.
  induction l as [|y l IH]; intros Hl Hx.
  - simpl app. rewrite find_index_cons, Hx. reflexivity.
  - simpl app. rewrite find_index_cons in *. destruct (p y); [discriminate|].
    destruct (find_index p l); [discriminate|]. rewrite IH by trivial. reflexivity.
Qed.

Lemma alter_last {A : Type} (f : A -> A) (l : list A) x :
  alter f (List.length l) (l ++ [x])%list = (l ++ [f x])%list.
Proof. induction l as [|y l IH]; simpl; [reflexivity | f_equal; exact IH]. Qed.

Lemma below_not_in n l : Forall (fun k => k < n) l -> ~ In n l.
Proof.
  intros H Hin. rewrite Forall_forall in H. apply list_elem_of_In in Hin.
  specialize (H n Hin). simpl in H. lia.
Qed.

Lemma get_prop_id t : get_prop (json_of_todo t) "id" = Normal (Some (JNum (id t))).
Proof. reflexivity. Qed.

Lemma get_prop_completed t :
  get_prop (json_of_todo t) "completed" = Normal (Some (JBool (completed t))).
Proof. reflexivity. Qed.

Lemma createListItem_todo t :
  exact_int (id t) = true ->
  createListItem (json_of_todo t)
  = Normal (Li (decimal (id t))
              [Span ("todo-" ++ decimal (id t)) (task t) (completed t)]).
Proof.
  intros Hx.
  change (createListItem (json_of_todo t))
    with (cbind (ToString (Some (JNum (id t)))) (fun d =>
          cbind (ToString (Some (JStr (task t)))) (fun text =>
          Normal (Li d [Span ("todo-" ++ d) text (completed t)])))).
  rewrite (ToString_number _ Hx). reflexivity.
Qed.

Lemma displayExistingListItem_fresh ls l v b t :
  exact_int (id t) = true ->
  ~ In (id t) (ids l) ->
  displayExistingListItem (json_of_todo t) (State ls (render l) v b)
  = (Normal tt, State ls (render (l ++ [t])%list) v b).
Proof.
  intros Hx Hfresh. unfold displayExistingListItem, addToggleButton, addDeleteButton.
  step. rewrite (createListItem_todo t Hx), get_prop_id, get_prop_completed. step.
  rewrite (ToString_number _ Hx). step.
  rewrite plain_text_decimal. step.
  rewrite (find_index_last _ (render l)).
  2:{ rewrite find_index_render. apply find_index_absent, Hfresh. }
  2:{ apply String.eqb_refl. }
  step. rewrite alter_last. simpl. rewrite alter_last. simpl.
  rewrite render_app. destruct t as [n s c]. destruct c; reflexivity.
Qed.

Lemma sorted_NoDup l : StronglySorted Z.lt l -> NoDup l.
Proof.
  induction 1 as [|k l Hs IH Hall]; constructor; [|exact IH].
  intros Hin. rewrite Forall_forall in Hall. specialize (Hall k Hin). lia.
Qed.

Lemma well_formed_NoDup sn : well_formed sn -> NoDup (ids (tasks sn)).
Proof. intros [Hs _]. apply sorted_NoDup, Hs. Qed.

Lemma ids_app l l' : ids (l ++ l')%list = (ids l ++ ids l')%list.
Proof. apply List.map_app. Qed.

Lemma forEachM_display ls v b l2 : forall l1,
  exact_todos l2 = true ->
  NoDup (ids (l1 ++ l2)%list) ->
  forEachM displayExistingListItem (List.map json_of_todo l2) (State ls (render l1) v b)
  = (Normal tt, State ls (render (l1 ++ l2)%list) v b).
Proof.
  induction l2 as [|t l2 IH]; intros l1 Hx Hnd.
  - rewrite app_nil_r. reflexivity.
  - apply Bool.andb_true_iff in Hx as [Ht Hl].
    simpl List.map. simpl forEachM. unfold bind.
    rewrite (displayExistingListItem_fresh _ _ _ _ _ Ht).
    + rewrite (IH _ Hl).
      * rewrite <- app_assoc. reflexivity.
      * rewrite <- app_assoc. exact Hnd.
    + rewrite ids_app in Hnd. apply NoDup_app in Hnd as (_ & Hdisj & _).
      intros Hin. apply (Hdisj (id t)); apply list_elem_of_In; [exact Hin|].
      left. reflexivity.
Qed.

Lemma array_not_item v items : JSON_parse v = Normal (JArr items) -> not_item v = false.
Proof.
  intros Ht. destruct v as [s|].
  - destruct s; [discriminate Ht | reflexivity].
  - discriminate Ht.
Qed.

Lemma persists_not_item ls sn : persists ls sn -> not_item (ls !! "todos") = false.
Proof. intros [Ht _]. apply (array_not_item _ _ Ht). Qed.

Lemma script_shows_todos ls l :
  JSON_parse (ls !! "todos") = Normal (json_of_todos l) -> NoDup (ids l) ->
  script (State ls [] EmptyString false)
  = (Normal tt, State ls (render l) EmptyString true).
Proof.
  intros Ht Hnd. unfold script, startup.
  step. rewrite (array_not_item _ _ Ht). step. rewrite Ht. step.
  unfold json_of_todos. step.
  change (State ls [] EmptyString false) with (State ls (render []) EmptyString false).
  rewrite (forEachM_display ls EmptyString false l []); [reflexivity | | exact Hnd].
  rewrite <- exact_json_todos. apply (JSON_parse_exact _ _ Ht).
Qed.

Lemma script_shows ls sn :
  persists ls sn -> NoDup (ids (tasks sn)) ->
  script (State ls [] EmptyString false)
  = (Normal tt, State ls (render (tasks sn)) EmptyString true).
Proof. intros [Ht _] Hnd. apply script_shows_todos; assumption. Qed.

Lemma script_first :
  script (State ∅ [] EmptyString false)
  = (Normal tt, State initial_storage [] EmptyString true).
Proof. reflexivity. Qed.

Lemma persists_initial : persists initial_storage (Snapshot 0 []).
Proof. split; reflexivity. Qed.

(** ** The listeners on a page in step with the storage *)

Lemma createListItem_new n value :
  exact_int n = true ->
  createListItem (JObj [("id", JNum n); ("task", JStr value)])
  = Normal (Li (decimal n) [Span ("todo-" ++ decimal n) value false]).
Proof.
  intros Hx.
  change (createListItem (JObj [("id", JNum n); ("task", JStr value)]))
    with (cbind (ToString (Some (JNum n))) (fun d =>
          cbind (ToString (Some (JStr value))) (fun text =>
          Normal (Li d [Span ("todo-" ++ d) text false])))).
  rewrite (ToString_number _ Hx). reflexivity.
Qed.

Lemma show_new_item ls l v b sn value :
  persists ls sn -> Forall (fun k => k < nextId sn) (ids (tasks sn)) -> l = tasks sn ->
  (let* s := getItem "uniqueId" in
   let* uniqueId := lift (ToNumber s) in
   let* x := lift (createListItem (JObj [("id", JNum uniqueId); ("task", JStr value)])) in
   let* el := appendChild x in
   let* _ := addToggleButton (Some (JNum uniqueId)) None in
   addDeleteButton el (Some (JNum uniqueId))) (State ls (render l) v b)
  = (Normal tt, State ls (render (l ++ [new_todo sn value])%list) v b).
Proof.
  intros Hp Hlt ->. pose proof Hp as [Ht Hn]. destruct (persists_exact ls sn Hp) as [Hx _].
  unfold addToggleButton, addDeleteButton.
  step. rewrite Hn. step. rewrite (createListItem_new _ _ Hx). step.
  rewrite (ToString_number _ Hx). step.
  rewrite plain_text_decimal. step.
  rewrite (find_index_last _ (render (tasks sn))).
  2:{ rewrite find_index_render. apply find_index_absent, below_not_in, Hlt. }
  2:{ apply String.eqb_refl. }
  step. rewrite alter_last. simpl. rewrite alter_last. simpl.
  rewrite render_app. reflexivity.
Qed.

Lemma addNewListItem_main ls v b sn value :
  persists ls sn -> Forall (fun k => k < nextId sn) (ids (tasks sn)) ->
  Main.addNewListItem value (State ls (render (tasks sn)) v b)
  = (Normal tt, State (appended value ls sn) (render (tasks (spec_append value sn))) v b).
Proof.
  intros Hp Hlt. pose proof (show_new_item ls (tasks sn) v b sn value Hp Hlt eq_refl) as H.
  unfold Main.addNewListItem.
  unfold bind in *.
  destruct (getItem "uniqueId" _) as [[s|e] st1] eqn:E1; [|discriminate H].
  destruct (lift (ToNumber s) st1) as [[n|e] st2] eqn:E2; [|discriminate H].
  destruct (lift (createListItem _) st2) as [[x|e] st3] eqn:E3; [|discriminate H].
  destruct (appendChild x st3) as [[el|e] st4] eqn:E4; [|discriminate H].
  destruct (addToggleButton _ _ st4) as [[?|e] st5] eqn:E5; [|discriminate H].
  destruct (addDeleteButton _ _ st5) as [[[]|e] st6] eqn:E6; [|discriminate H].
  injection H as H. rewrite H. apply (addToStore_main ls _ v b sn Hp value).
Qed.

(** ** Well-formed snapshots *)

Lemma ids_toggle k l : ids (List.map (fun t => if id t =? k then flip t else t) l) = ids l.
Proof.
  unfold ids. rewrite List.map_map. apply List.map_ext.
  intros t. destruct (id t =? k); reflexivity.
Qed.

Lemma labels_toggle k l :
  List.map label (List.map (fun t => if id t =? k then flip t else t) l) = List.map label l.
Proof.
  rewrite List.map_map. apply List.map_ext.
  intros t. destruct (id t =? k); reflexivity.
Qed.

Lemma well_formed_toggle k sn : well_formed sn -> well_formed (spec_toggle k sn).
Proof. unfold well_formed, spec_toggle. simpl. rewrite ids_toggle. trivial. Qed.

Lemma sublist_filter_map {A B : Type} (f : A -> B) (p : A -> bool) l :
  sublist (List.map f (List.filter p l)) (List.map f l).
Proof.
  induction l as [|x l IH]; simpl; [constructor|].
  destruct (p x); simpl; [apply sublist_skip | apply sublist_cons]; exact IH.
Qed.

Lemma sorted_sublist l l' : sublist l l' -> StronglySorted Z.lt l' -> StronglySorted Z.lt l.
Proof.
  induction 1 as [|x l1 l2 Hs IH|x l1 l2 Hs IH]; intros H; [constructor| |].
  - apply StronglySorted_inv in H as [H1 H2]. constructor; [apply IH, H1|].
    rewrite Forall_forall in *. intros y Hy. apply H2. eapply elem_of_sublist; eauto.
  - apply StronglySorted_inv in H as [H1 _]. apply IH, H1.
Qed.

Lemma well_formed_remove k sn : well_formed sn -> well_formed (spec_remove k sn).
Proof.
  intros [Hs Hb]. unfold well_formed, spec_remove. simpl.
  pose proof (sublist_filter_map id (fun t => negb (id t =? k)) (tasks sn)) as Hsub.
  split.
  - eapply sorted_sublist; [exact Hsub | exact Hs].
  - rewrite Forall_forall in *. intros y Hy. apply Hb. eapply elem_of_sublist; eauto.
Qed.

Lemma sorted_snoc l n :
  StronglySorted Z.lt l -> Forall (fun k => k < n) l -> StronglySorted Z.lt (l ++ [n])%list.
Proof.
  induction 1 as [|k l Hs IH Hall]; intros Hb; simpl.
  - constructor; constructor.
  - apply Forall_cons in Hb as [Hk Hb]. constructor; [apply IH, Hb|].
    apply Forall_app. split; [exact Hall|]. constructor; [exact Hk | constructor].
Qed.

Lemma well_formed_append text sn : well_formed sn -> well_formed (spec_append text sn).
Proof.
  intros [Hs Hb]. unfold well_formed, spec_append. simpl. rewrite ids_app. simpl. split.
  - apply sorted_snoc; assumption.
  - apply Forall_app. split.
    + eapply Forall_impl; [exact Hb|]. simpl. intros; lia.
    + constructor; [lia | constructor].
Qed.

Lemma well_formed_initial : well_formed (Snapshot 0 []).
Proof. split; constructor. Qed.

(** ** One event on a page in step *)

Lemma in_step_state st sn :
  in_step st sn ->
  st = State (localStorage st) (render (tasks sn)) (todoSubmit st) true.
Proof. intros (_ & _ & Hd & Hl). destruct st; simpl in *. subst. reflexivity. Qed.

Lemma click_checkbox ls v sn i t :
  persists ls sn -> well_formed sn -> tasks sn !! i = Some t ->
  Main.toggleEventHandler (i, 0%nat) (Some (JNum (id t))) (State ls (render (tasks sn)) v true)
  = (Normal tt,
     State (toggled (id t) ls sn) (render (tasks (spec_toggle (id t) sn))) v true).
Proof.
  intros Hp Hwf Hi. pose proof (well_formed_NoDup sn Hwf) as Hnd.
  pose proof (exact_todos_lookup _ i t (proj2 (persists_exact ls sn Hp)) Hi) as Hx.
  rewrite (toggleEventHandler_main ls _ v true sn Hp (i, 0%nat)
             (completed t) (Some (JNum (id t))) (id t) Hx).
  2:{ rewrite (node_at_render _ _ _ t Hi). reflexivity. }
  rewrite find_span_render, (find_index_present _ i t Hnd Hi). cbn [option_map Nat.add].
  rewrite (update_render _ _ t _ Hi).
  unfold spec_toggle. simpl tasks. rewrite (toggle_present _ i t Hnd Hi). reflexivity.
Qed.

Lemma click_button ls v sn i t :
  persists ls sn -> well_formed sn -> tasks sn !! i = Some t ->
  Main.removeElement (Some (JNum (id t))) (State ls (render (tasks sn)) v true)
  = (Normal tt,
     State (removed (id t) ls sn) (render (tasks (spec_remove (id t) sn))) v true).
Proof.
  intros Hp Hwf Hi. pose proof (well_formed_NoDup sn Hwf) as Hnd.
  pose proof (exact_todos_lookup _ i t (proj2 (persists_exact ls sn Hp)) Hi) as Hx.
  rewrite (removeElement_main ls _ v true sn Hp (id t) Hx).
  rewrite find_index_render, (find_index_present _ i t Hnd Hi).
  unfold spec_remove. simpl tasks. rewrite (remove_present _ i t Hnd Hi), render_delete.
  reflexivity.
Qed.

Lemma persists_toggled k ls sn : persists ls sn -> persists (toggled k ls sn) (spec_toggle k sn).
Proof.
  intros H. apply (persists_todos ls sn _ H). simpl tasks.
  rewrite exact_todos_toggle. apply (persists_exact ls sn H).
Qed.

Lemma persists_removed k ls sn : persists ls sn -> persists (removed k ls sn) (spec_remove k sn).
Proof.
  intros H. apply (persists_todos ls sn _ H). simpl tasks.
  apply exact_todos_filter, (persists_exact ls sn H).
Qed.

Lemma in_step_intro ls v sn :
  persists ls sn -> well_formed sn -> in_step (State ls (render (tasks sn)) v true) sn.
Proof. intros Hp Hwf. repeat split; try apply Hp; try apply Hwf. Qed.

Lemma handle_in_step_when e st sn :
  in_step st sn ->
  (forall k, e = KeyDown k -> nextId sn < two53) ->
  fst (Main.handle e st) = Normal tt /\ in_step (snd (Main.handle e st)) (after e st sn).
Proof.
  intros Hin Hb. pose proof Hin as (Hp & Hwf & Hd & Hl).
  rewrite (in_step_state st sn Hin). destruct st as [ls dom v b]. simpl in Hp, Hd, Hl |- *.
  clear Hd Hl Hin. destruct e as [|s|k|i j]; simpl Main.handle; simpl after.
  - unfold fresh_page. simpl localStorage. rewrite (script_shows ls sn Hp (well_formed_NoDup sn Hwf)).
    split; [reflexivity | apply in_step_intro; assumption].
  - split; [reflexivity | apply in_step_intro; assumption].
  - unfold Main.keydown. simpl todoSubmit.
    destruct ((k =? 13) && negb (String.eqb v EmptyString))%bool.
    + unfold bind. rewrite (addNewListItem_main ls v true sn v Hp (proj2 Hwf)).
      split; [reflexivity | apply in_step_intro].
      * apply (persists_append ls sn v Hp (Hb k eq_refl)).
      * apply well_formed_append, Hwf.
    + split; [reflexivity | apply in_step_intro; assumption].
  - simpl todoList. destruct (tasks sn !! i) as [t|] eqn:Hi.
    + rewrite (node_at_render _ _ _ t Hi). simpl children.
      destruct j as [|[|[|j]]]; simpl lookup; cbv iota.
      * rewrite (click_checkbox ls v sn i t Hp Hwf Hi).
        split; [reflexivity | apply in_step_intro].
        -- apply persists_toggled, Hp.
        -- apply well_formed_toggle, Hwf.
      * split; [reflexivity | apply in_step_intro; assumption].
      * rewrite (click_button ls v sn i t Hp Hwf Hi).
        split; [reflexivity | apply in_step_intro].
        -- apply persists_removed, Hp.
        -- apply well_formed_remove, Hwf.
      * split; [reflexivity | apply in_step_intro; assumption].
    + rewrite (node_at_render_None _ _ _ Hi).
      destruct j as [|[|[|j]]]; (split; [reflexivity | apply in_step_intro; assumption]).
Qed.

Lemma handle_in_step e st sn :
  in_step st sn ->
  nextId sn < two53 ->
  fst (Main.handle e st) = Normal tt /\ in_step (snd (Main.handle e st)) (after e st sn).
Proof. intros Hin Hb. apply handle_in_step_when; [exact Hin | intros k _; exact Hb]. Qed.

Lemma handle_click_in_step i j st sn :
  in_step st sn ->
  fst (Main.handle (Click i j) st) = Normal tt
  /\ in_step (snd (Main.handle (Click i j) st)) (after (Click i j) st sn).
Proof. intros Hin. apply handle_in_step_when; [exact Hin | intros k Hk; discriminate Hk]. Qed.

Lemma created_in_step e st sn :
  in_step st sn ->
  created_by e st
  = match e with
    | KeyDown k =>
        if ((k =? 13) && negb (String.eqb (todoSubmit st) EmptyString))%bool
        then [new_todo sn (todoSubmit st)] else []
    | _ => []
    end.
Proof.
  intros ([_ Hn] & _ & _ & Hl). destruct e as [|s|k|i j]; try reflexivity.
  unfold created_by. rewrite Hl, Hn. reflexivity.
Qed.

Lemma follows_step e st sn log :
  in_step st sn -> follows sn log ->
  follows (after e st sn) (log ++ created_by e st)%list.
Proof.
  intros Hin Hf. rewrite (created_in_step e st sn Hin). unfold follows in *.
  destruct e as [|s|k|i j]; simpl after; try (rewrite app_nil_r; exact Hf).
  - destruct ((k =? 13) && negb (String.eqb (todoSubmit st) EmptyString))%bool;
      [|rewrite app_nil_r; exact Hf].
    unfold spec_append. simpl tasks. rewrite !List.map_app.
    apply sublist_app; [exact Hf | reflexivity].
  - rewrite app_nil_r.
    destruct (tasks sn !! i) as [t|]; [|exact Hf].
    destruct j as [|[|[|j]]]; try exact Hf.
    + unfold spec_toggle. simpl tasks. rewrite labels_toggle. exact Hf.
    + unfold spec_remove. simpl tasks.
      etransitivity; [apply sublist_filter_map | exact Hf].
Qed.

Lemma handle_unloaded e st :
  unloaded st ->
  fst (Main.handle e st) = Normal tt
  /\ created_by e st = []
  /\ (unloaded (snd (Main.handle e st))
      \/ in_step (snd (Main.handle e st)) (Snapshot 0 [])).
Proof.
  intros (Hs & Hd & Hl). destruct st as [ls dom v b]. simpl in *. subst.
  destruct e as [|s|k|i j]; simpl.
  - repeat split; try reflexivity. right. unfold fresh_page. simpl localStorage.
    rewrite script_first. apply (in_step_intro initial_storage EmptyString (Snapshot 0 [])).
    + apply persists_initial.
    + apply well_formed_initial.
  - repeat split; try reflexivity. left. repeat split.
  - repeat split; try reflexivity. left. repeat split.
  - repeat split; try reflexivity. left. repeat split.
Qed.

Lemma after_counter_step e st sn :
  nextId sn <= nextId (after e st sn) <= nextId sn + 1.
Proof.
  destruct e as [|s|k|i j]; simpl; try lia.
  - destruct ((k =? 13) && negb (String.eqb (todoSubmit st) EmptyString))%bool; simpl; lia.
  - destruct (tasks sn !! i) as [t|]; [|lia].
    destruct j as [|[|[|j]]]; simpl; lia.
Qed.

Lemma reached_step e st log m :
  reached m st log ->
  m < two53 ->
  fst (Main.handle e st) = Normal tt
  /\ reached (m + 1) (snd (Main.handle e st)) (log ++ created_by e st)%list.
Proof.
  intros [[Hu [-> Hm]] | (sn & Hin & Hf & Hm)] Hb.
  - destruct (handle_unloaded e st Hu) as (Hn & Hc & [Hu' | Hin]).
    + split; [exact Hn|]. left. rewrite Hc. split; [exact Hu' | split; [reflexivity | lia]].
    + split; [exact Hn|]. right. exists (Snapshot 0 []). split; [exact Hin|].
      split; [apply sublist_nil_l | simpl; lia].
  - destruct (handle_in_step e st sn Hin ltac:(lia)) as [Hn Hin'].
    split; [exact Hn|]. right. exists (after e st sn). split; [exact Hin'|].
    split; [apply follows_step; assumption|].
    pose proof (after_counter_step e st sn). lia.
Qed.

Lemma run_reached es : forall st log m,
  reached m st log ->
  m + Z.of_nat (List.length es) <= two53 ->
  reached (m + Z.of_nat (List.length es)) (fst (run Main.handle es st))
    (log ++ snd (run Main.handle es st))%list.
Proof.
  induction es as [|e es IH]; intros st log m Hr Hb.
  - simpl. rewrite app_nil_r, Z.add_0_r. exact Hr.
  - simpl List.length in *. rewrite Nat2Z.inj_succ in *.
    destruct (reached_step e st log m Hr ltac:(lia)) as [_ Hr'].
    specialize (IH _ _ _ Hr' ltac:(lia)). simpl run.
    destruct (run Main.handle es (snd (Main.handle e st))) as [st' log'].
    simpl in *. rewrite app_assoc.
    replace (m + Z.succ (Z.of_nat (List.length es)))
      with (m + 1 + Z.of_nat (List.length es)) by lia.
    exact IH.
Qed.

Lemma reached_blank : reached 0 blank [].
Proof. left. split; [repeat split | split; [reflexivity | lia]]. Qed.

(** ** The two files on a running page *)

Lemma handle_agree_in_step e st sn :
  in_step st sn -> Part000.handle e st = Main.handle e st.
Proof.
  intros Hin. pose proof Hin as (Hp & Hwf & Hd & Hl).
  rewrite (in_step_state st sn Hin). destruct st as [ls dom v b]. simpl in Hp, Hd, Hl |- *.
  clear Hd Hl Hin. destruct e as [|s|k|i j]; simpl Main.handle; simpl Part000.handle;
    try reflexivity.
  simpl todoList. destruct (node_at (i, j) (render (tasks sn))) as [[c x| |x]|] eqn:Hn;
    try reflexivity.
    destruct (tasks sn !! i) as [t|] eqn:Hi.
    2:{ rewrite (node_at_render_None _ _ _ Hi) in Hn. discriminate Hn. }
    rewrite (node_at_render _ _ _ t Hi) in Hn.
    assert (j = O /\ c = completed t /\ x = Some (JNum (id t))) as (-> & -> & ->).
    { destruct j as [|[|[|j]]]; simpl in Hn; try discriminate Hn.
      injection Hn as <- <-. repeat split. }
    pose proof (well_formed_NoDup sn Hwf) as Hnd.
    rewrite (click_checkbox ls v sn i t Hp Hwf Hi).
    pose proof (exact_todos_lookup _ i t (proj2 (persists_exact ls sn Hp)) Hi) as Hx.
    rewrite (toggleEventHandler_part ls _ v true sn Hp (i, 0%nat)
               (completed t) (Some (JNum (id t))) (id t) Hx).
    2:{ rewrite (node_at_render _ _ _ t Hi). reflexivity. }
    rewrite find_span_render, (find_index_present _ i t Hnd Hi). cbn [option_map Nat.add].
    rewrite (update_render _ _ t _ Hi).
    unfold spec_toggle. simpl tasks. rewrite (toggle_present _ i t Hnd Hi). reflexivity.
Qed.

(** ** A page in use *)

Lemma find_index_app_l {A : Type} (p : A -> bool) (l l' : list A) : forall i,
  find_index p l = Some i ->
  find_index p (l ++ l')%list = Some i /\ (i < List.length l)%nat.
Proof.
  induction l as [|x l IH]; intros i H; [discriminate H|].
  simpl app. rewrite find_index_cons in *. destruct (p x).
  - injection H as <-. split; [reflexivity | simpl; lia].
  - destruct (find_index p l) as [j|]; [|discriminate H]. injection H as <-.
    destruct (IH j eq_refl) as [E Hlt]. rewrite E. split; [reflexivity | simpl; lia].
Qed.

Lemma show_item ls dom v b (t : todo) el :
  exact_int (id t) = true ->
  el = List.length dom ->
  (let* _ := addToggleButton (Some (JNum (id t))) (Some (JBool (completed t))) in
   addDeleteButton el (Some (JNum (id t))))
    (State ls (dom ++ [Li (decimal (id t))
                         [Span ("todo-" ++ decimal (id t)) (task t) (completed t)]])
           v b)
  = (Normal tt, State ls (shown_with t dom) v b).
Proof.
  intros Hx ->. unfold addToggleButton, addDeleteButton, shown_with. step.
  rewrite (ToString_number _ Hx). step.
  rewrite plain_text_decimal. step.
  destruct (find_index (fun x => String.eqb (data_id x) (decimal (id t))) dom)
    as [i|] eqn:E.
  - destruct (find_index_app_l _ dom
                [Li (decimal (id t))
                   [Span ("todo-" ++ decimal (id t)) (task t) (completed t)]] i E)
      as [E' Hlt].
    rewrite E'. step. rewrite (alter_app_l _ dom _ i Hlt).
    rewrite <- (length_alter (fun x => Li (data_id x)
                   (Checkbox (ToBoolean (Some (JBool (completed t)))) (Some (JNum (id t)))
                    :: children x)) dom i) at 1.
    rewrite alter_last. reflexivity.
  - rewrite (find_index_last _ dom _ E) by apply String.eqb_refl.
    step. rewrite alter_last. simpl. rewrite alter_last. reflexivity.
Qed.

Lemma show_new_item_any ls dom v b n value :
  ToNumber (ls !! "uniqueId") = Normal n ->
  (let* s := getItem "uniqueId" in
   let* uniqueId := lift (ToNumber s) in
   let* x := lift (createListItem (JObj [("id", JNum uniqueId); ("task", JStr value)])) in
   let* el := appendChild x in
   let* _ := addToggleButton (Some (JNum uniqueId)) None in
   addDeleteButton el (Some (JNum uniqueId))) (State ls dom v b)
  = (Normal tt, State ls (shown_with (Todo n value false) dom) v b).
Proof.
  intros Hn. pose proof (ToNumber_exact _ _ Hn) as Hx.
  pose proof (show_item ls dom v b (Todo n value false) (List.length dom) Hx eq_refl)
    as Hshow.
  simpl id in Hshow. simpl task in Hshow. simpl completed in Hshow.
  rewrite <- Hshow. unfold addToggleButton, addDeleteButton. step.
  rewrite Hn. step. rewrite (createListItem_new _ _ Hx). reflexivity.
Qed.

Lemma item_of_sound k x : sound_item x -> data_id x = decimal k -> item_of k x.
Proof.
  intros (k' & _ & Hd & Hn & Hs) E. rewrite Hd in E. apply decimal_inj in E. subst k'.
  split; [exact Hd|]. split; assumption.
Qed.

Lemma item_of_checkbox k c x :
  item_of k x -> item_of k (Li (data_id x) (Checkbox c (Some (JNum k)) :: children x)).
Proof.
  intros (Hd & Hn & j & Hs). split; [exact Hd|]. split.
  - constructor; [reflexivity | exact Hn].
  - exists (S j). simpl children. rewrite find_index_cons. cbn [is_span_with].
    rewrite Hs. reflexivity.
Qed.

Lemma item_of_button k x :
  item_of k x -> item_of k (Li (data_id x) (children x ++ [Button (Some (JNum k))])).
Proof.
  intros (Hd & Hn & j & Hs). split; [exact Hd|]. split.
  - apply Forall_app. split; [exact Hn|]. constructor; [reflexivity | constructor].
  - exists j. simpl children. apply (find_index_app_l _ _ _ j Hs).
Qed.

Lemma item_of_new k text c :
  item_of k (Li (decimal k) [Span ("todo-" ++ decimal k) text c]).
Proof.
  split; [reflexivity|]. split.
  - constructor; [reflexivity | constructor].
  - exists O. simpl children. rewrite find_index_cons. cbn [is_span_with].
    rewrite String.eqb_refl. reflexivity.
Qed.

Lemma sound_shown_with t dom :
  exact_int (id t) = true -> Forall sound_item dom -> Forall sound_item (shown_with t dom).
Proof.
  intros Hx Hdom. unfold shown_with.
  destruct (find_index _ dom) as [i|] eqn:E.
  - apply Forall_app. split.
    + apply Forall_alter; [exact Hdom|]. intros x Hi Hs.
      destruct (find_index_Some _ _ _ E) as (x' & Hi' & Hd).
      rewrite Hi in Hi'. injection Hi' as <-. apply String.eqb_eq in Hd.
      exists (id t). split; [exact Hx|]. apply item_of_checkbox, (item_of_sound _ _ Hs Hd).
    + constructor; [|constructor]. exists (id t). split; [exact Hx|].
      apply (item_of_button (id t) (Li _ [_])), item_of_new.
  - apply Forall_app. split; [exact Hdom|]. constructor; [|constructor].
    exists (id t). split; [exact Hx|].
    apply (item_of_button (id t) (Li _ [_; _])).
    apply (item_of_checkbox (id t) _ (Li _ [_])), item_of_new.
Qed.

Lemma sound_shown_all l : forall dom,
  exact_todos l = true -> Forall sound_item dom -> Forall sound_item (shown_all l dom).
Proof.
  induction l as [|t l IH]; intros dom Hx Hdom; [exact Hdom|].
  simpl in Hx. apply andb_prop in Hx as [Ht Hl].
  apply (IH _ Hl). apply sound_shown_with; assumption.
Qed.

Lemma displayExistingListItem_shown ls dom v b t :
  exact_int (id t) = true ->
  displayExistingListItem (json_of_todo t) (State ls dom v b)
  = (Normal tt, State ls (shown_with t dom) v b).
Proof.
  intros Hx. unfold displayExistingListItem. step.
  rewrite (createListItem_todo t Hx), get_prop_id, get_prop_completed. step.
  apply (show_item ls dom v b t (List.length dom) Hx eq_refl).
Qed.

Lemma forEachM_shown ls v b l : forall dom,
  exact_todos l = true ->
  forEachM displayExistingListItem (List.map json_of_todo l) (State ls dom v b)
  = (Normal tt, State ls (shown_all l dom) v b).
Proof.
  induction l as [|t l IH]; intros dom Hx; [reflexivity|].
  simpl in Hx. apply andb_prop in Hx as [Ht Hl].
  simpl. unfold bind. rewrite (displayExistingListItem_shown ls dom v b t Ht).
  apply (IH _ Hl).
Qed.

Lemma script_in_use ls sn :
  persists ls sn ->
  script (State ls [] EmptyString false)
  = (Normal tt, State ls (shown_all (tasks sn) []) EmptyString true).
Proof.
  intros Hp. pose proof Hp as [Ht _]. unfold script, startup.
  step. rewrite (persists_not_item ls sn Hp). step. rewrite Ht. step.
  unfold json_of_todos. step.
  rewrite (forEachM_shown ls EmptyString false (tasks sn) []); [reflexivity|].
  apply (persists_exact ls sn Hp).
Qed.

Lemma addNewListItem_in_use ls dom v b sn value :
  persists ls sn ->
  Main.addNewListItem value (State ls dom v b)
  = (Normal tt, State (appended value ls sn) (shown_with (new_todo sn value) dom) v b).
Proof.
  intros Hp. pose proof Hp as [_ Hn].
  pose proof (show_new_item_any ls dom v b (nextId sn) value Hn) as H.
  unfold Main.addNewListItem.
  unfold bind in *.
  destruct (getItem "uniqueId" _) as [[s|e] st1] eqn:E1; [|discriminate H].
  destruct (lift (ToNumber s) st1) as [[m|e] st2] eqn:E2; [|discriminate H].
  destruct (lift (createListItem _) st2) as [[x|e] st3] eqn:E3; [|discriminate H].
  destruct (appendChild x st3) as [[el|e] st4] eqn:E4; [|discriminate H].
  destruct (addToggleButton _ _ st4) as [[?|e] st5] eqn:E5; [|discriminate H].
  destruct (addDeleteButton _ _ st5) as [[[]|e] st6] eqn:E6; [|discriminate H].
  injection H as H. rewrite H. apply (addToStore_main ls _ v b sn Hp value).
Qed.

Lemma find_span_present sid l : forall i n x j,
  l !! i = Some x ->
  find_index (is_span_with sid) (children x) = Some j ->
  exists p, find_span sid l n = Some p.
Proof.
  induction l as [|y l IH]; intros [|i] n x j Hi Hj; try discriminate Hi;
    rewrite find_span_cons.
  - injection Hi as ->. rewrite Hj. eauto.
  - destruct (find_index _ (children y)) as [j'|]; [eauto|].
    apply (IH i (S n) x j Hi Hj).
Qed.

Lemma find_index_present_any {A : Type} (p : A -> bool) (l : list A) : forall i x,
  l !! i = Some x -> p x = true -> exists i', find_index p l = Some i'.
Proof.
  induction l as [|y l IH]; intros [|i] x Hi Hx; try discriminate Hi;
    rewrite find_index_cons.
  - injection Hi as ->. rewrite Hx. eauto.
  - destruct (p y); [eauto|]. destruct (IH i x Hi Hx) as [i' ->]. simpl. eauto.
Qed.

Lemma sound_node_at dom i j n :
  Forall sound_item dom ->
  node_at (i, j) dom = Some n ->
  exists x k, dom !! i = Some x /\ exact_int k = true /\ item_of k x /\ node_of k n.
Proof.
  intros Hdom Hn. unfold node_at in Hn. simpl in Hn.
  destruct (dom !! i) as [x|] eqn:Hi; [|discriminate Hn].
  rewrite Forall_forall in Hdom.
  destruct (Hdom x) as (k & Hk & Hit); [eapply list_elem_of_lookup_2, Hi|].
  exists x, k. split; [reflexivity|]. split; [exact Hk|]. split; [exact Hit|].
  destruct Hit as (_ & Hall & _). rewrite Forall_forall in Hall.
  apply Hall. eapply list_elem_of_lookup_2, Hn.
Qed.

Lemma node_of_check k b n : node_of k n -> node_of k (check b n).
Proof. destruct n; intros H; exact H. Qed.

Lemma node_of_strike_out k b n : node_of k n -> node_of k (strike_out b n).
Proof. destruct n; intros H; exact H. Qed.

Lemma sound_update_node p f dom :
  (forall k n, node_of k n -> node_of k (f n)) ->
  (forall sid n, is_span_with sid (f n) = is_span_with sid n) ->
  Forall sound_item dom -> Forall sound_item (update_node p f dom).
Proof.
  intros Hf Hs Hdom. unfold update_node.
  destruct (dom !! fst p) as [x|] eqn:Hi; [|exact Hdom].
  destruct (children x !! snd p) as [n|] eqn:Hj; [|exact Hdom].
  apply Forall_insert; [exact Hdom|].
  rewrite Forall_forall in Hdom.
  destruct (Hdom x) as (k & Hk & Hd & Hall & j & Hsp);
    [eapply list_elem_of_lookup_2, Hi|].
  exists k. split; [exact Hk|]. split; [exact Hd|]. split.
  - simpl children. apply Forall_insert; [exact Hall|]. apply Hf.
    rewrite Forall_forall in Hall. apply Hall. eapply list_elem_of_lookup_2, Hj.
  - exists j. simpl children. rewrite (find_index_insert _ _ _ n (f n) Hj (Hs _ n)). exact Hsp.
Qed.

Lemma sound_render l : exact_todos l = true -> Forall sound_item (render l).
Proof.
  induction l as [|t l IH]; intros Hx; [constructor|].
  simpl in Hx. apply andb_prop in Hx as [Ht Hl].
  change (render (t :: l)) with (render_item t :: render l).
  constructor; [|apply IH, Hl]. exists (id t). split; [exact Ht|].
  apply (item_of_button (id t) (Li _ [_; _])).
  apply (item_of_checkbox (id t) _ (Li _ [_])), item_of_new.
Qed.

Lemma in_step_in_use st sn : in_step st sn -> in_use st.
Proof.
  intros (Hp & _ & Hd & Hl). split; [exists sn; exact Hp|]. split; [|exact Hl].
  rewrite Hd. apply sound_render, (persists_exact _ _ Hp).
Qed.

Lemma addNewListItem_agree value st :
  Main.addNewListItem value st = Part000.addNewListItem value st.
Proof.
  unfold Main.addNewListItem, Part000.addNewListItem, bind.
  destruct (getItem "uniqueId" st) as [[x|err] s1]; [|reflexivity].
  destruct (lift (ToNumber x) s1) as [[m|err] s2]; [|reflexivity].
  destruct (lift (createListItem _) s2) as [[y|err] s3]; [|reflexivity].
  destruct (appendChild y s3) as [[el|err] s4]; [|reflexivity].
  destruct (addToggleButton _ _ s4) as [[?|err] s5]; [|reflexivity].
  destruct (addDeleteButton _ _ s5) as [[?|err] s6]; [|reflexivity].
  reflexivity.
Qed.

Lemma keydown_agree k st : Main.keydown k st = Part000.keydown k st.
Proof.
  unfold Main.keydown, Part000.keydown.
  destruct ((k =? 13) && negb (String.eqb (todoSubmit st) EmptyString))%bool; [|reflexivity].
  unfold bind. rewrite addNewListItem_agree. reflexivity.
Qed.

Lemma handle_in_use e st :
  in_use st ->
  fst (Main.handle e st) = Normal tt
  /\ in_use (snd (Main.handle e st))
  /\ Part000.handle e st = Main.handle e st.
Proof.
  intros ((sn & Hp) & Hdom & Hl). destruct st as [ls dom v b].
  simpl localStorage in Hp. simpl todoList in Hdom. simpl listening in Hl. subst b.
  destruct e as [|s|k|i j].
  - simpl Main.handle. simpl Part000.handle. unfold fresh_page. simpl localStorage.
    rewrite (script_in_use ls sn Hp). split; [reflexivity|]. split; [|reflexivity].
    split; [exists sn; exact Hp|]. split; [|reflexivity].
    apply sound_shown_all; [apply (persists_exact ls sn Hp) | constructor].
  - split; [reflexivity|]. split; [|reflexivity].
    split; [exists sn; exact Hp|]. split; [exact Hdom | reflexivity].
  - assert (Part000.handle (KeyDown k) (State ls dom v true)
            = Main.handle (KeyDown k) (State ls dom v true)) as ->
      by (simpl; symmetry; apply keydown_agree).
    simpl Main.handle. unfold Main.keydown. simpl todoSubmit.
    destruct ((k =? 13) && negb (String.eqb v EmptyString))%bool.
    + unfold bind. rewrite (addNewListItem_in_use ls dom v true sn v Hp).
      split; [reflexivity|]. split; [|reflexivity].
      split; [eexists; apply (persists_appended ls sn v Hp)|]. split; [|reflexivity].
      apply sound_shown_with; [apply (persists_exact ls sn Hp) | exact Hdom].
    + split; [reflexivity|]. split; [|reflexivity].
      split; [exists sn; exact Hp|]. split; [exact Hdom | reflexivity].
  - simpl Main.handle. simpl Part000.handle. simpl todoList.
    destruct (node_at (i, j) dom) as [[c y|sid txt s|y]|] eqn:Hn.
    + destruct (sound_node_at dom i j _ Hdom Hn) as (x & k & Hi & Hk & Hit & Hy).
      simpl in Hy. subst y. destruct Hit as (_ & _ & j' & Hsp).
      destruct (find_span_present _ dom i O x j' Hi Hsp) as [p Hfs].
      destruct (toggleEventHandler_completes ls dom v true sn Hp (i, j) c _ k p Hk Hn Hfs)
        as [Em Ep].
      rewrite Em, Ep. split; [reflexivity|]. split; [|reflexivity].
      split; [eexists; apply (persists_toggled k ls sn Hp)|]. split; [|reflexivity].
      unfold toggled_view.
      apply sound_update_node;
        [intros; apply node_of_strike_out; assumption
        | intros; apply is_span_with_strike_out |].
      apply sound_update_node;
        [intros; apply node_of_check; assumption
        | intros; apply is_span_with_check | exact Hdom].
    + split; [reflexivity|]. split; [|reflexivity].
      split; [exists sn; exact Hp|]. split; [exact Hdom | reflexivity].
    + destruct (sound_node_at dom i j _ Hdom Hn) as (x & k & Hi & Hk & Hit & Hy).
      simpl in Hy. subst y. destruct Hit as (Hd & _ & _).
      destruct (find_index_present_any (fun x => String.eqb (data_id x) (decimal k)) dom i x Hi)
        as [i' Hfi]; [rewrite Hd; apply String.eqb_refl|].
      change (Part000.removeElement (Some (JNum k)) (State ls dom v true))
        with (Main.removeElement (Some (JNum k)) (State ls dom v true)).
      rewrite (removeElement_main ls dom v true sn Hp k Hk), Hfi.
      split; [reflexivity|]. split; [|reflexivity].
      split; [eexists; apply (persists_removed k ls sn Hp)|]. split; [|reflexivity].
      apply Forall_delete, Hdom.
    + split; [reflexivity|]. split; [|reflexivity].
      split; [exists sn; exact Hp|]. split; [exact Hdom | reflexivity].
Qed.

Lemma handle_loaded_or_not e st :
  unloaded st \/ in_use st ->
  fst (Main.handle e st) = Normal tt
  /\ (unloaded (snd (Main.handle e st)) \/ in_use (snd (Main.handle e st)))
  /\ Part000.handle e st = Main.handle e st.
Proof.
  intros [Hu | Hin].
  - destruct (handle_unloaded e st Hu) as (Hn & _ & H).
    split; [exact Hn|]. split.
    + destruct H as [H | H]; [left; exact H | right; apply (in_step_in_use _ _ H)].
    + destruct Hu as (Hs & Hd & Hl). destruct st as [ls dom v b]. simpl in *. subst.
      destruct e as [|s|k|i j]; reflexivity.
  - destruct (handle_in_use e st Hin) as (Hn & H & E).
    split; [exact Hn|]. split; [right; exact H | exact E].
Qed.

Lemma run_loaded_or_not es : forall st,
  unloaded st \/ in_use st ->
  (unloaded (fst (run Main.handle es st)) \/ in_use (fst (run Main.handle es st)))
  /\ run Part000.handle es st = run Main.handle es st.
Proof.
  induction es as [|e es IH]; intros st H; [split; [exact H | reflexivity]|].
  destruct (handle_loaded_or_not e st H) as (_ & H' & E).
  destruct (IH _ H') as [Hr Er]. simpl. rewrite E, Er.
  destruct (run Main.handle es (snd (Main.handle e st))) as [st' log].
  split; [exact Hr | reflexivity].
Qed.

(** ** Successive appends *)

Lemma issued_ids_range texts : forall n,
  Forall (fun k => n <= k < n + Z.of_nat (List.length texts)) (ids (issued n texts)).
Proof.
  induction texts as [|x xs IH]; intros n; simpl; constructor.
  - simpl. lia.
  - eapply Forall_impl; [apply IH|]. simpl. intros; lia.
Qed.

Lemma issued_ids_sorted texts : forall n, StronglySorted Z.lt (ids (issued n texts)).
Proof.
  induction texts as [|x xs IH]; intros n; simpl; constructor; [apply IH|].
  eapply Forall_impl; [apply issued_ids_range|]. simpl. intros; lia.
Qed.

Lemma issued_tasks texts : forall n, List.map task (issued n texts) = texts.
Proof. induction texts as [|x xs IH]; intros n; simpl; [reflexivity | rewrite IH; reflexivity]. Qed.

Lemma appends_from texts : forall st sn,
  persists (localStorage st) sn ->
  nextId sn + Z.of_nat (List.length texts) <= two53 ->
  exists ls',
    forEachM Main.addToStore texts st
    = (Normal tt, State ls' (todoList st) (todoSubmit st) (listening st))
    /\ persists ls' (Snapshot (nextId sn + Z.of_nat (List.length texts))
                      (tasks sn ++ issued (nextId sn) texts)).
Proof.
  induction texts as [|x xs IH]; intros [ls dom v b] [n l] Hp Hb; simpl in Hp.
  - exists ls. split; [reflexivity|]. simpl. rewrite Z.add_0_r, app_nil_r. exact Hp.
  - simpl List.length in Hb. rewrite Nat2Z.inj_succ in Hb. simpl nextId in Hb.
    destruct (IH (State (appended x ls (Snapshot n l)) dom v b) (spec_append x (Snapshot n l)))
      as (ls' & Hrun & Hp').
    { apply persists_append; [exact Hp | simpl; lia]. }
    { simpl. lia. }
    exists ls'. split.
    + simpl forEachM. unfold bind. rewrite (addToStore_main ls dom v b (Snapshot n l) Hp x).
      exact Hrun.
    + simpl in Hp'. rewrite <- app_assoc in Hp'. simpl in Hp'.
      assert (n + Z.of_nat (List.length (x :: xs)) = n + 1 + Z.of_nat (List.length xs)) as E
        by (simpl List.length; lia).
      simpl nextId. simpl tasks. rewrite E. exact Hp'.
Qed.

(** C1. Whatever texts, at most 2^53 of them, are appended one after the
    other to a storage that holds the initial snapshot {nextId: 0, tasks:
    []}, every call of [addToStore] completes, and the storage then holds
    exactly the records created, in the order of the calls: their ids are
    pairwise distinct and strictly increasing, and the persisted counter is
    strictly greater than each of them.  As the texts are arbitrary, this
    holds after each append.  (The bound is that of the numbers of the
    platform: the counter is exact up to 2^53.) *)
Theorem append_ids_distinct_increasing (texts : list string) (st : state) :
  persists (localStorage st) (Snapshot 0 []) ->
  Z.of_nat (List.length texts) <= two53 ->
  exists ls' created,
    forEachM Main.addToStore texts st
    = (Normal tt, State ls' (todoList st) (todoSubmit st) (listening st))
    /\ persists ls' (Snapshot (Z.of_nat (List.length texts)) created)
    /\ List.map task created = texts
    /\ NoDup (ids created)
    /\ StronglySorted Z.lt (ids created)
    /\ Forall (fun k => k < Z.of_nat (List.length texts)) (ids created).
Proof.
  intros Hp Hb.
  destruct (appends_from texts st (Snapshot 0 []) Hp Hb) as (ls' & Hrun & Hp').
  exists ls', (issued 0 texts). simpl in Hp'. repeat split.
  - exact Hrun.
  - apply Hp'.
  - apply Hp'.
  - apply issued_tasks.
  - apply sorted_NoDup, issued_ids_sorted.
  - apply issued_ids_sorted.
  - eapply Forall_impl; [apply issued_ids_range|]. simpl. intros; lia.
Qed.

Lemma append_ids_distinct_increasing_witness :
  exists ls' created,
    forEachM Main.addToStore ["a"; "b"; "a"] (State initial_storage [] EmptyString true)
    = (Normal tt, State ls' [] EmptyString true)
    /\ persists ls' (Snapshot 3 created)
    /\ List.map task created = ["a"; "b"; "a"]
    /\ NoDup (ids created)
    /\ StronglySorted Z.lt (ids created)
    /\ Forall (fun k => k < 3) (ids created).
Proof.
  apply (append_ids_distinct_increasing ["a"; "b"; "a"]
           (State initial_storage [] EmptyString true)).
  - split; reflexivity.
  - unfold two53. simpl. lia.
Defined.

(** C2, as the specification states it, fails at the end of the range of
    the counter: on a storage whose counter is 2^53 (and whose sequence is
    empty), [addToStore] of either file gives the new record the id 2^53
    and leaves the counter at 2^53, because 2^53 + 1 is no Number and the
    sum rounds back; the counter is not incremented. *)
Lemma addToStore_at_two53_keeps_counter :
  let ls := <["todos" := "[]"]> (<["uniqueId" := "9007199254740992"]> ∅) in
  persists ls (Snapshot two53 [])
  /\ persists (localStorage (snd (Main.addToStore "a" (State ls [] EmptyString true))))
       (Snapshot two53 [Todo two53 "a" false])
  /\ persists (localStorage (snd (Part000.addToStore "a" (State ls [] EmptyString true))))
       (Snapshot two53 [Todo two53 "a" false])
  /\ ~ persists (localStorage (snd (Main.addToStore "a" (State ls [] EmptyString true))))
         (Snapshot (two53 + 1) [Todo two53 "a" false]).
Proof.
  intros ls.
  assert (persists (localStorage (snd (Main.addToStore "a" (State ls [] EmptyString true))))
            (Snapshot two53 [Todo two53 "a" false])) as H
    by (split; vm_compute; reflexivity).
  split; [split; vm_compute; reflexivity|]. split; [exact H|]. split; [exact H|].
  intros H'. pose proof (persists_inj _ _ _ H H') as E. discriminate E.
Qed.

(** C2, amended.  On a storage that holds any snapshot whose counter is
    below 2^53, and for any text, [addToStore] (of either file) completes,
    leaves the page alone, and leaves a storage that holds the snapshot
    whose counter is one more and whose sequence is the old sequence,
    unchanged, followed by the record {id: old counter, task: the text,
    completed: false}. *)
Theorem addToStore_appends_record (st : state) (sn : snapshot) (text : string) :
  persists (localStorage st) sn ->
  nextId sn < two53 ->
  exists ls',
    Main.addToStore text st
    = (Normal tt, State ls' (todoList st) (todoSubmit st) (listening st))
    /\ Part000.addToStore text st
       = (Normal tt, State ls' (todoList st) (todoSubmit st) (listening st))
    /\ persists ls'
         (Snapshot (nextId sn + 1) (tasks sn ++ [Todo (nextId sn) text false])).
Proof.
  intros Hp Hb. destruct st as [ls dom v b]. simpl in Hp.
  exists (appended text ls sn). split; [|split].
  - apply (addToStore_main ls dom v b sn Hp text).
  - apply (addToStore_part ls dom v b sn Hp text).
  - apply (persists_append ls sn text Hp Hb).
Qed.

(** The scenario of the specification: on the empty initial store,
    append("Buy milk") leaves one record, {id: 0, task: "Buy milk",
    completed: false}, and the counter 1. *)
Lemma addToStore_appends_record_witness :
  persists initial_storage (Snapshot 0 [])
  /\ exists ls',
       Main.addToStore "Buy milk" (State initial_storage [] EmptyString true)
       = (Normal tt, State ls' [] EmptyString true)
       /\ Part000.addToStore "Buy milk" (State initial_storage [] EmptyString true)
          = (Normal tt, State ls' [] EmptyString true)
       /\ persists ls' (Snapshot 1 [Todo 0 "Buy milk" false]).
Proof.
  split; [split; reflexivity|].
  apply (addToStore_appends_record (State initial_storage [] EmptyString true)
           (Snapshot 0 []) "Buy milk").
  - split; reflexivity.
  - reflexivity.
Defined.

(** ** Removal *)

Lemma in_ids_split k l :
  In k (ids l) -> exists l1 t l2, l = (l1 ++ t :: l2)%list /\ id t = k.
Proof.
  unfold ids. intros H. apply in_map_iff in H as (t & Ht & Hin).
  apply in_split in Hin as (l1 & l2 & ->). exists l1, t, l2. split; [reflexivity | exact Ht].
Qed.

Lemma NoDup_ids_split l1 t l2 :
  NoDup (ids (l1 ++ t :: l2)%list) -> ~ In (id t) (ids l1) /\ ~ In (id t) (ids l2).
Proof.
  rewrite ids_app. simpl. intros H. apply NoDup_app in H as (_ & Hd & H2).
  apply NoDup_cons in H2 as [Hn _]. split.
  - intros Hin. apply (Hd (id t)); apply list_elem_of_In; [exact Hin | left; reflexivity].
  - intros Hin. apply Hn, list_elem_of_In, Hin.
Qed.

Lemma remove_split l1 t l2 :
  NoDup (ids (l1 ++ t :: l2)%list) ->
  List.filter (fun t' => negb (id t' =? id t)) (l1 ++ t :: l2)%list = (l1 ++ l2)%list.
Proof.
  intros H. apply NoDup_ids_split in H as [H1 H2].
  rewrite List.filter_app. simpl. rewrite Z.eqb_refl. simpl.
  rewrite (remove_absent _ _ H1), (remove_absent _ _ H2). reflexivity.
Qed.

Lemma toggle_split l1 t l2 :
  NoDup (ids (l1 ++ t :: l2)%list) ->
  List.map (fun t' => if id t' =? id t then flip t' else t') (l1 ++ t :: l2)%list
  = (l1 ++ flip t :: l2)%list.
Proof.
  intros H. apply NoDup_ids_split in H as [H1 H2].
  rewrite List.map_app. simpl. rewrite Z.eqb_refl.
  rewrite (toggle_absent _ _ H1), (toggle_absent _ _ H2). reflexivity.
Qed.

Lemma removeElement_storage st sn k :
  persists (localStorage st) sn ->
  exact_int k = true ->
  localStorage (snd (Main.removeElement (Some (JNum k)) st)) = removed k (localStorage st) sn.
Proof.
  intros Hp Hk. destruct st as [ls dom v b]. simpl in Hp |- *.
  rewrite (removeElement_main ls dom v b sn Hp k Hk).
  destruct (find_index _ dom); reflexivity.
Qed.

(** C3. On a storage that holds a sequence with distinct ids,
    [removeElement], in whatever page it runs and for whatever id, leaves
    a storage that holds the same counter and: if the id occurs, the
    sequence without that one record, one shorter, the other records as
    they were and in their order; if the id does not occur, the same
    sequence.  The text under 'uniqueId' is not touched, so the next
    [addToStore] gives its record the unchanged counter as id.  (Ids and
    counter are Numbers of the model: integers from -2^53 to 2^53.) *)
Theorem removeElement_removes_one (st : state) (sn : snapshot) (k : Z) (text : string) :
  persists (localStorage st) sn ->
  NoDup (ids (tasks sn)) ->
  exact_int k = true ->
  let st' := snd (Main.removeElement (Some (JNum k)) st) in
  exists l',
    persists (localStorage st') (Snapshot (nextId sn) l')
    /\ (In k (ids (tasks sn)) ->
        exists l1 t l2,
          tasks sn = (l1 ++ t :: l2)%list /\ id t = k /\ l' = (l1 ++ l2)%list
          /\ S (List.length l') = List.length (tasks sn))
    /\ (~ In k (ids (tasks sn)) -> l' = tasks sn)
    /\ localStorage st' !! "uniqueId" = localStorage st !! "uniqueId"
    /\ exists ls'' n',
         Main.addToStore text st'
         = (Normal tt, State ls'' (todoList st') (todoSubmit st') (listening st'))
         /\ persists ls'' (Snapshot n' (l' ++ [Todo (nextId sn) text false])).
Proof.
  intros Hp Hnd Hk st'.
  assert (persists (localStorage st') (spec_remove k sn)) as Hp'.
  { unfold st'. rewrite (removeElement_storage st sn k Hp Hk). apply persists_removed, Hp. }
  exists (tasks (spec_remove k sn)). split; [exact Hp'|]. split; [|split; [|split]].
  - intros Hin. destruct (in_ids_split k (tasks sn) Hin) as (l1 & t & l2 & E & Ht).
    exists l1, t, l2. rewrite E in Hnd. repeat split; trivial.
    + unfold spec_remove. simpl tasks. rewrite E, <- Ht. apply remove_split, Hnd.
    + unfold spec_remove. simpl tasks. rewrite E, <- Ht, (remove_split _ _ _ Hnd).
      rewrite !length_app. simpl. lia.
  - intros Hnot. apply remove_absent, Hnot.
  - unfold st'. rewrite (removeElement_storage st sn k Hp Hk). unfold removed.
    apply lookup_insert_ne. discriminate.
  - destruct st' as [ls' dom' v' b'] eqn:E. simpl in Hp'.
    exists (appended text ls' (spec_remove k sn)), (succ_number (nextId sn)). split.
    + apply (addToStore_main ls' dom' v' b' _ Hp' text).
    + apply (persists_appended ls' _ text Hp').
Qed.

Lemma removeElement_removes_one_witness :
  persists (localStorage (page_of two_tasks)) two_tasks
  /\ NoDup (ids (tasks two_tasks))
  /\ let st' := snd (Main.removeElement (Some (JNum 0)) (page_of two_tasks)) in
     exists l',
       persists (localStorage st') (Snapshot 2 l')
       /\ (In 0 (ids (tasks two_tasks)) ->
           exists l1 t l2,
             tasks two_tasks = (l1 ++ t :: l2)%list /\ id t = 0 /\ l' = (l1 ++ l2)%list
             /\ S (List.length l') = List.length (tasks two_tasks))
       /\ (~ In 0 (ids (tasks two_tasks)) -> l' = tasks two_tasks)
       /\ localStorage st' !! "uniqueId" = localStorage (page_of two_tasks) !! "uniqueId"
       /\ exists ls'' n',
            Main.addToStore "Tea" st'
            = (Normal tt, State ls'' (todoList st') (todoSubmit st') (listening st'))
            /\ persists ls'' (Snapshot n' (l' ++ [Todo 2 "Tea" false])).
Proof.
  assert (persists (localStorage (page_of two_tasks)) two_tasks) as Hp
    by (split; reflexivity).
  assert (NoDup (ids (tasks two_tasks))) as Hnd
    by (apply sorted_NoDup; repeat constructor).
  split; [exact Hp|]. split; [exact Hnd|].
  exact (removeElement_removes_one (page_of two_tasks) two_tasks 0 "Tea" Hp Hnd eq_refl).
Defined.

Lemma spec_remove_idempotent k sn : spec_remove k (spec_remove k sn) = spec_remove k sn.
Proof.
  unfold spec_remove. simpl. f_equal.
  induction (tasks sn) as [|t l IH]; [reflexivity|]. simpl.
  destruct (negb (id t =? k)) eqn:E; simpl; [rewrite E, IH; reflexivity | exact IH].
Qed.

Lemma spec_remove_absent k sn : ~ In k (ids (tasks sn)) -> spec_remove k sn = sn.
Proof.
  intros H. destruct sn as [n l]. unfold spec_remove. simpl in *.
  rewrite (remove_absent k l H). reflexivity.
Qed.

(** C4, as the specification states it, fails: in a page that shows no
    item with the id, [removeElement] raises a TypeError (reading
    [elem.parentNode] of null), on an empty store as well; and removing
    the same id a second time raises where the first call completed. *)
Lemma removeElement_without_item_throws :
  persists initial_storage (Snapshot 0 [])
  /\ fst (Main.removeElement (Some (JNum 0)) (State initial_storage [] EmptyString true))
     = Abrupt TypeError
  /\ fst (Part000.removeElement (Some (JNum 0)) (State initial_storage [] EmptyString true))
     = Abrupt TypeError
  /\ fst (Main.removeElement (Some (JNum 0)) (page_of two_tasks)) = Normal tt
  /\ fst (Main.removeElement (Some (JNum 0))
            (snd (Main.removeElement (Some (JNum 0)) (page_of two_tasks))))
     = Abrupt TypeError.
Proof. repeat split; vm_compute; reflexivity. Qed.

(** C4, amended.  On a storage that holds a snapshot, the store update of
    [removeElement] never raises and is idempotent: the storage then holds
    the sequence without the records of the id, which is the same sequence
    when the id is absent, and which a second removal leaves as it is.
    The call completes without an error when the page has a list item
    with that data-id, which it takes out; when the page has none, the
    call raises a TypeError, after the store has been written.  Both files
    behave alike.  (Ids and counter are Numbers of the model: integers
    from -2^53 to 2^53.) *)
Theorem removeElement_completes_iff_item_shown (st : state) (sn : snapshot) (k : Z) :
  persists (localStorage st) sn ->
  exact_int k = true ->
  let r := Main.removeElement (Some (JNum k)) st in
  let shown :=
    find_index (fun x => String.eqb (data_id x) (decimal k)) (todoList st) in
  Part000.removeElement (Some (JNum k)) st = r
  /\ persists (localStorage (snd r)) (spec_remove k sn)
  /\ (~ In k (ids (tasks sn)) -> spec_remove k sn = sn)
  /\ spec_remove k (spec_remove k sn) = spec_remove k sn
  /\ (forall i, shown = Some i ->
        fst r = Normal tt /\ todoList (snd r) = delete i (todoList st))
  /\ (shown = None -> fst r = Abrupt TypeError /\ todoList (snd r) = todoList st).
Proof.
  intros Hp Hk r shown. split; [reflexivity|]. split; [|split; [|split; [|split]]].
  - unfold r. rewrite (removeElement_storage st sn k Hp Hk). apply persists_removed, Hp.
  - apply spec_remove_absent.
  - apply spec_remove_idempotent.
  - intros i Hi. unfold r, shown in *. destruct st as [ls dom v b]. simpl in Hp, Hi |- *.
    rewrite (removeElement_main ls dom v b sn Hp k Hk), Hi. split; reflexivity.
  - intros Hi. unfold r, shown in *. destruct st as [ls dom v b]. simpl in Hp, Hi |- *.
    rewrite (removeElement_main ls dom v b sn Hp k Hk), Hi. split; reflexivity.
Qed.

Lemma removeElement_completes_iff_item_shown_witness :
  persists (localStorage (page_of two_tasks)) two_tasks
  /\ let r := Main.removeElement (Some (JNum 1)) (page_of two_tasks) in
     let shown :=
       find_index (fun x => String.eqb (data_id x) (decimal 1))
         (todoList (page_of two_tasks)) in
     Part000.removeElement (Some (JNum 1)) (page_of two_tasks) = r
     /\ persists (localStorage (snd r)) (spec_remove 1 two_tasks)
     /\ (~ In 1 (ids (tasks two_tasks)) -> spec_remove 1 two_tasks = two_tasks)
     /\ spec_remove 1 (spec_remove 1 two_tasks) = spec_remove 1 two_tasks
     /\ (forall i, shown = Some i ->
           fst r = Normal tt /\ todoList (snd r) = delete i (todoList (page_of two_tasks)))
     /\ (shown = None ->
           fst r = Abrupt TypeError /\ todoList (snd r) = todoList (page_of two_tasks)).
Proof.
  assert (persists (localStorage (page_of two_tasks)) two_tasks) as Hp
    by (split; reflexivity).
  split; [exact Hp|].
  exact (removeElement_completes_iff_item_shown (page_of two_tasks) two_tasks 1 Hp eq_refl).
Defined.

(** ** Startup *)

Lemma not_item_false s : s <> EmptyString -> not_item (Some s) = false.
Proof. intros H. simpl. apply String.eqb_neq. exact H. Qed.

(** C5, as the specification states it, fails, in both of its parts.
    With a text under 'todos' that is not JSON, loading the page raises
    the SyntaxError of JSON.parse; the storage keeps the text, nothing is
    shown, and the script ends before the listener of the field is
    registered.  And data that is not well-formed is displayed all the
    same: over the text [1], an array whose element is no record, the
    script shows one item, with the text undefined, and goes on. *)
Lemma startup_unparseable_throws :
  JSON_parse_text "oops" = Abrupt SyntaxError
  /\ Main.handle Load (State {["todos" := "oops"]} [] EmptyString false)
     = (Abrupt SyntaxError, State {["todos" := "oops"]} [] EmptyString false)
  /\ Main.handle Load (State {["todos" := "[1]"]} [] EmptyString false)
     = (Normal tt,
        State {["todos" := "[1]"]}
          [Li "undefined"
             [Checkbox false None; Span "todo-undefined" "undefined" false; Button None]]
          EmptyString true).
Proof. repeat split; vm_compute; reflexivity. Qed.

(** C5, amended.  When the page is loaded: if the key 'todos' is absent,
    or holds the empty text, the script stores an empty sequence and the
    counter 0, shows nothing, and goes on without an error; if the key
    holds a non-empty text that JSON.parse rejects, the script raises that
    SyntaxError and changes nothing; if the key holds the text of an array
    of records with distinct ids, the script shows the records, in their
    order, and goes on without an error, whatever is under 'uniqueId'; and
    an array element that is a number, a string or a boolean is shown too,
    as an item with the text undefined. *)
Theorem startup_cases (st : state) :
  let ls := localStorage st in
  let r := Main.handle Load st in
  (not_item (ls !! "todos") = true ->
     r = (Normal tt, State (<["todos" := "[]"]> (<["uniqueId" := "0"]> ls)) [] EmptyString true)
     /\ persists (<["todos" := "[]"]> (<["uniqueId" := "0"]> ls)) (Snapshot 0 []))
  /\ (forall s, ls !! "todos" = Some s -> s <> EmptyString ->
        JSON_parse_text s = Abrupt SyntaxError ->
        r = (Abrupt SyntaxError, State ls [] EmptyString false))
  /\ (forall l, JSON_parse (ls !! "todos") = Normal (json_of_todos l) -> NoDup (ids l) ->
        r = (Normal tt, State ls (render l) EmptyString true))
  /\ (forall j, JSON_parse (ls !! "todos") = Normal (JArr [j]) ->
        match j with JNum _ | JStr _ | JBool _ => True | _ => False end ->
        r = (Normal tt,
             State ls
               [Li "undefined"
                  [Checkbox false None; Span "todo-undefined" "undefined" false; Button None]]
               EmptyString true)).
Proof.
  intros ls r. unfold r, ls. destruct st as [ls0 dom v b]. simpl localStorage.
  simpl Main.handle. unfold fresh_page. simpl localStorage. split; [|split; [|split]].
  - intros Hn. split.
    + unfold script, startup. step. rewrite Hn. reflexivity.
    + split; simpl.
      * rewrite lookup_insert_eq. reflexivity.
      * rewrite lookup_insert_ne by discriminate. rewrite lookup_insert_eq. reflexivity.
  - intros s Hs Hne Hparse. unfold script, startup. step.
    rewrite Hs, (not_item_false s Hne). unfold JSON_parse. step.
    rewrite Hs, Hparse. reflexivity.
  - intros l Ht Hnd. apply script_shows_todos; assumption.
  - intros j Ht Hj. unfold script, startup. step.
    rewrite (array_not_item _ _ Ht). step. rewrite Ht.
    destruct j; try contradiction; reflexivity.
Qed.

(** ** Toggling *)

Lemma flip_flip t : flip (flip t) = t.
Proof. destruct t as [n s b]. unfold flip. simpl. rewrite Bool.negb_involutive. reflexivity. Qed.

Lemma spec_toggle_involutive k sn : spec_toggle k (spec_toggle k sn) = sn.
Proof.
  destruct sn as [n l]. unfold spec_toggle. simpl. f_equal.
  rewrite List.map_map. rewrite <- (List.map_id l) at 2. apply List.map_ext.
  intros t. destruct (id t =? k) eqn:E; simpl; rewrite E; [apply flip_flip | reflexivity].
Qed.

Lemma spec_toggle_absent k sn : ~ In k (ids (tasks sn)) -> spec_toggle k sn = sn.
Proof.
  intros H. destruct sn as [n l]. unfold spec_toggle. simpl in *.
  rewrite (toggle_absent k l H). reflexivity.
Qed.

Lemma toggled_view_checkbox target p c x dom :
  node_at target dom = Some (Checkbox c x) ->
  node_at target (toggled_view target p c dom) = Some (Checkbox (negb c) x).
Proof.
  intros Hc. unfold toggled_view. rewrite !node_at_update, Hc.
  rewrite (decide_True (P := target = target)) by reflexivity.
  case_decide; reflexivity.
Qed.

Lemma toggled_view_span target p c x sid txt s dom :
  node_at target dom = Some (Checkbox c x) ->
  node_at p dom = Some (Span sid txt s) ->
  node_at p (toggled_view target p c dom) = Some (Span sid txt (negb c)).
Proof.
  intros Hc Hs. unfold toggled_view. rewrite !node_at_update.
  rewrite (decide_True (P := p = p)) by reflexivity.
  rewrite decide_False by (intros ->; congruence).
  rewrite Hs. reflexivity.
Qed.

Lemma toggled_view_find_span sid target p c dom i :
  find_span sid (toggled_view target p c dom) i = find_span sid dom i.
Proof.
  unfold toggled_view.
  rewrite find_span_update by (intros n; apply is_span_with_strike_out).
  apply find_span_update. intros n. apply is_span_with_check.
Qed.

Lemma node_at_cases target dom :
  (exists c x, node_at target dom = Some (Checkbox c x))
  \/ (forall c x, node_at target dom <> Some (Checkbox c x)).
Proof.
  destruct (node_at target dom) as [[c x| |]|]; [left; eauto | right; congruence ..].
Qed.

Lemma toggle_storage_main st sn target k :
  persists (localStorage st) sn ->
  exact_int k = true ->
  let r := Main.toggleEventHandler target (Some (JNum k)) st in
  (fst r = Normal tt /\ localStorage (snd r) = toggled k (localStorage st) sn)
  \/ ((fst r = Abrupt TypeError \/ fst r = Abrupt OutsideModel)
      /\ localStorage (snd r) = localStorage st).
Proof.
  intros Hp Hk r. unfold r. destruct st as [ls dom v b]. simpl localStorage in *.
  destruct (node_at_cases target dom) as [(c & x & Hc) | Hn].
  - rewrite (toggleEventHandler_main ls dom v b sn Hp target c x k Hk Hc).
    destruct (find_span _ dom 0); [left | right]; simpl; auto.
  - rewrite (toggleEventHandler_main_other ls dom v b target _ Hn). right. simpl. auto.
Qed.

Lemma toggle_storage_part st sn target k :
  persists (localStorage st) sn ->
  exact_int k = true ->
  let q := Part000.toggleEventHandler target (Some (JNum k)) st in
  localStorage (snd q) = toggled k (localStorage st) sn
  /\ (fst q = Normal tt \/ fst q = Abrupt TypeError \/ fst q = Abrupt OutsideModel).
Proof.
  intros Hp Hk q. unfold q. destruct st as [ls dom v b]. simpl localStorage in *.
  destruct (node_at_cases target dom) as [(c & x & Hc) | Hn].
  - rewrite (toggleEventHandler_part ls dom v b sn Hp target c x k Hk Hc).
    destruct (find_span _ dom 0); simpl; auto.
  - rewrite (toggleEventHandler_part_other ls dom v b sn Hp target k Hn). simpl. auto.
Qed.

Lemma toggle_twice_main st sn target k :
  persists (localStorage st) sn ->
  exact_int k = true ->
  let st1 := snd (Main.toggleEventHandler target (Some (JNum k)) st) in
  let st2 := snd (Main.toggleEventHandler target (Some (JNum k)) st1) in
  (persists (localStorage st1) (spec_toggle k sn) \/ persists (localStorage st1) sn)
  /\ persists (localStorage st2) sn.
Proof.
  intros Hp Hk st1 st2. destruct st as [ls dom v b]. simpl localStorage in Hp.
  destruct (node_at_cases target dom) as [(c & x & Hc) | Hn].
  - destruct (find_span ("todo-" ++ decimal k) dom O) as [p|] eqn:Hs.
    + destruct (toggleEventHandler_completes ls dom v b sn Hp target c x k p Hk Hc Hs)
        as [Hm1 _].
      pose proof (persists_toggled k ls sn Hp) as Hp1.
      pose proof (toggled_view_checkbox target p c x dom Hc) as Hc1.
      pose proof (toggled_view_find_span ("todo-" ++ decimal k) target p c dom O) as Hs1.
      rewrite Hs in Hs1.
      destruct (toggleEventHandler_completes (toggled k ls sn) (toggled_view target p c dom) v b
                  (spec_toggle k sn) Hp1 target (negb c) x k p Hk Hc1 Hs1) as [Hm2 _].
      unfold st2, st1. rewrite Hm1. simpl snd. rewrite Hm2. simpl. split; [left; exact Hp1|].
      pose proof (persists_toggled k _ _ Hp1) as Hp2.
      rewrite spec_toggle_involutive in Hp2. exact Hp2.
    + assert (Main.toggleEventHandler target (Some (JNum k)) (State ls dom v b)
              = (Abrupt TypeError, State ls (update_node target (check (negb c)) dom) v b)) as Hm1.
      { rewrite (toggleEventHandler_main ls dom v b sn Hp target c x k Hk Hc), Hs.
        reflexivity. }
      assert (node_at target (update_node target (check (negb c)) dom)
              = Some (Checkbox (negb c) x)) as Hc1.
      { rewrite node_at_update, Hc. rewrite decide_True by reflexivity. reflexivity. }
      assert (find_span ("todo-" ++ decimal k)
                (update_node target (check (negb c)) dom) O = None) as Hs1.
      { rewrite find_span_update by (intros n; apply is_span_with_check). exact Hs. }
      unfold st2, st1. rewrite Hm1. simpl snd.
      rewrite (toggleEventHandler_main ls _ v b sn Hp target (negb c) x k Hk Hc1), Hs1.
      simpl. split; [right|]; exact Hp.
  - unfold st2, st1. rewrite (toggleEventHandler_main_other ls dom v b target _ Hn). simpl snd.
    rewrite (toggleEventHandler_main_other ls dom v b target _ Hn). simpl.
    split; [right|]; exact Hp.
Qed.

Lemma toggle_twice_part st sn target k :
  persists (localStorage st) sn ->
  exact_int k = true ->
  let pt1 := snd (Part000.toggleEventHandler target (Some (JNum k)) st) in
  let pt2 := snd (Part000.toggleEventHandler target (Some (JNum k)) pt1) in
  persists (localStorage pt1) (spec_toggle k sn) /\ persists (localStorage pt2) sn.
Proof.
  intros Hp Hk pt1 pt2.
  destruct (toggle_storage_part st sn target k Hp Hk) as [E1 _]. fold pt1 in E1.
  assert (persists (localStorage pt1) (spec_toggle k sn)) as Hp1
    by (rewrite E1; apply persists_toggled, Hp).
  destruct (toggle_storage_part pt1 (spec_toggle k sn) target k Hp1 Hk) as [E2 _].
  fold pt2 in E2.
  split; [exact Hp1|]. rewrite E2.
  pose proof (persists_toggled k _ _ Hp1) as Hp2.
  rewrite spec_toggle_involutive in Hp2. exact Hp2.
Qed.

(** C6. On a storage that holds a sequence with distinct ids, and for an
    id that occurs in it: a run of [toggleEventHandler] leaves a storage
    that holds the same counter and the same sequence except, at most,
    for the flag of the one record with the id; two runs leave a storage
    that holds the original snapshot again.  This is so in any page and
    for both files.  The second file always flips the flag in the first
    run, and so does src/main.js when the click reaches a checkbox and the
    text of the id is shown, where the two files end in the same state.
    (A storage holds a snapshot when its ids and counter are Numbers of
    the model, integers from -2^53 to 2^53.) *)
Theorem toggle_twice_restores (st : state) (sn : snapshot) (k : Z) (target : path) :
  persists (localStorage st) sn ->
  NoDup (ids (tasks sn)) ->
  In k (ids (tasks sn)) ->
  let st1 := snd (Main.toggleEventHandler target (Some (JNum k)) st) in
  let st2 := snd (Main.toggleEventHandler target (Some (JNum k)) st1) in
  let pt1 := snd (Part000.toggleEventHandler target (Some (JNum k)) st) in
  let pt2 := snd (Part000.toggleEventHandler target (Some (JNum k)) pt1) in
  exists l1 t l2,
    tasks sn = (l1 ++ t :: l2)%list /\ id t = k
    /\ persists (localStorage pt1) (Snapshot (nextId sn) (l1 ++ flip t :: l2))
    /\ persists (localStorage pt2) sn
    /\ (persists (localStorage st1) (Snapshot (nextId sn) (l1 ++ flip t :: l2))
        \/ persists (localStorage st1) sn)
    /\ persists (localStorage st2) sn
    /\ (forall c x p,
          node_at target (todoList st) = Some (Checkbox c x) ->
          find_span ("todo-" ++ decimal k) (todoList st) O = Some p ->
          st1 = pt1 /\ st2 = pt2).
Proof.
  intros Hp Hnd Hin st1 st2 pt1 pt2.
  pose proof (persists_exact_id _ sn k Hp Hin) as Hx.
  destruct (in_ids_split k (tasks sn) Hin) as (l1 & t & l2 & E & Hk).
  assert (spec_toggle k sn = Snapshot (nextId sn) (l1 ++ flip t :: l2)) as Et.
  { unfold spec_toggle. rewrite E in Hnd |- *. rewrite <- Hk, (toggle_split l1 t l2 Hnd).
    reflexivity. }
  destruct (toggle_twice_main st sn target k Hp Hx) as [Hm1 Hm2].
  destruct (toggle_twice_part st sn target k Hp Hx) as [Hq1 Hq2].
  fold st1 in Hm1. fold st2 in Hm2. fold pt1 in Hq1. fold pt2 in Hq2.
  rewrite Et in Hm1, Hq1.
  exists l1, t, l2. split; [exact E|]. split; [exact Hk|]. split; [exact Hq1|].
  split; [exact Hq2|]. split; [exact Hm1|]. split; [exact Hm2|].
  intros c x p Hc Hs. destruct st as [ls dom v b].
  simpl localStorage in Hp. simpl todoList in Hc, Hs.
  destruct (toggleEventHandler_completes ls dom v b sn Hp target c x k p Hx Hc Hs)
    as [Hy Hz].
  assert (st1 = pt1) as F1 by (unfold st1, pt1; rewrite Hy, Hz; reflexivity).
  split; [exact F1|]. unfold st2, pt2. rewrite <- F1. unfold st1. rewrite Hy. simpl snd.
  pose proof (persists_toggled k ls sn Hp) as Hp1.
  pose proof (toggled_view_checkbox target p c x dom Hc) as Hc1.
  pose proof (toggled_view_find_span ("todo-" ++ decimal k) target p c dom O) as Hs1.
  rewrite Hs in Hs1.
  destruct (toggleEventHandler_completes (toggled k ls sn) (toggled_view target p c dom) v b
              (spec_toggle k sn) Hp1 target (negb c) x k p Hx Hc1 Hs1) as [-> ->].
  reflexivity.
Qed.

Lemma toggle_twice_restores_witness :
  persists (localStorage (page_of two_tasks)) two_tasks
  /\ NoDup (ids (tasks two_tasks))
  /\ In 0 (ids (tasks two_tasks))
  /\ persists
       (localStorage
          (snd (Main.toggleEventHandler (0%nat, 0%nat) (Some (JNum 0))
                  (snd (Main.toggleEventHandler (0%nat, 0%nat) (Some (JNum 0))
                          (page_of two_tasks))))))
       two_tasks.
Proof.
  assert (persists (localStorage (page_of two_tasks)) two_tasks) as Hp
    by (split; reflexivity).
  assert (NoDup (ids (tasks two_tasks))) as Hnd
    by (apply sorted_NoDup; repeat constructor).
  assert (In 0 (ids (tasks two_tasks))) as Hin by (left; reflexivity).
  repeat (split; [assumption|]).
  destruct (toggle_twice_restores (page_of two_tasks) two_tasks 0 (0%nat, 0%nat) Hp Hnd Hin)
    as (l1 & t & l2 & _ & _ & _ & _ & _ & H2 & _).
  exact H2.
Defined.

Lemma toggled_flags k c sn :
  (forall t, In t (tasks sn) -> id t = k -> completed t = c) ->
  forall t', In t' (tasks (spec_toggle k sn)) -> id t' = k -> completed t' = negb c.
Proof.
  intros H t' Hin Hk. unfold spec_toggle in Hin. simpl in Hin.
  apply in_map_iff in Hin as (t & Et & Hin').
  destruct (id t =? k) eqn:E.
  - subst t'. simpl. f_equal. apply (H t Hin'). apply Z.eqb_eq, E.
  - subst t'. apply Z.eqb_neq in E. contradiction.
Qed.

Lemma ids_spec_toggle k sn : ids (tasks (spec_toggle k sn)) = ids (tasks sn).
Proof. apply ids_toggle. Qed.

(** C7. A click on a checkbox whose listener holds an id that occurs in
    the store, in a page that shows the text of that id, is handled
    without an error; and if before the click the checkbox carried the
    checked attribute exactly when the persisted records of the id were
    completed, then after it the checkbox carries the attribute, and the
    text the class strike, exactly when the persisted records of the id
    are completed.  (A storage holds a snapshot when its ids and counter
    are Numbers of the model, integers from -2^53 to 2^53.) *)
Theorem toggle_click_view_agrees_with_store (st : state) (sn : snapshot) (k : Z)
    (i j : nat) (p : path) (c s : bool) (sid txt : string) :
  persists (localStorage st) sn ->
  In k (ids (tasks sn)) ->
  node_at (i, j) (todoList st) = Some (Checkbox c (Some (JNum k))) ->
  find_span ("todo-" ++ decimal k) (todoList st) O = Some p ->
  node_at p (todoList st) = Some (Span sid txt s) ->
  (forall t, In t (tasks sn) -> id t = k -> completed t = c) ->
  let r := Main.handle (Click i j) st in
  fst r = Normal tt
  /\ exists sn',
       persists (localStorage (snd r)) sn'
       /\ In k (ids (tasks sn'))
       /\ forall t', In t' (tasks sn') -> id t' = k ->
            node_at (i, j) (todoList (snd r)) = Some (Checkbox (completed t') (Some (JNum k)))
            /\ find_span ("todo-" ++ decimal k) (todoList (snd r)) O = Some p
            /\ node_at p (todoList (snd r)) = Some (Span sid txt (completed t')).
Proof.
  intros Hp Hin Hc Hs Hn Hagree r.
  destruct st as [ls dom v b]. simpl localStorage in Hp. simpl todoList in Hc, Hs, Hn.
  assert (r = (Normal tt, State (toggled k ls sn) (toggled_view (i, j) p c dom) v b)) as Er.
  { unfold r. simpl Main.handle. simpl todoList. rewrite Hc.
    apply (toggleEventHandler_completes ls dom v b sn Hp (i, j) c _ k p
             (persists_exact_id _ sn k Hp Hin) Hc Hs). }
  rewrite Er. split; [reflexivity|]. exists (spec_toggle k sn). simpl snd. simpl todoList.
  simpl localStorage. split; [apply persists_toggled, Hp|]. split.
  - rewrite ids_spec_toggle. exact Hin.
  - intros t' Hin' Hk. rewrite (toggled_flags k c sn Hagree t' Hin' Hk). split; [|split].
    + apply toggled_view_checkbox, Hc.
    + rewrite toggled_view_find_span. exact Hs.
    + apply (toggled_view_span (i, j) p c _ sid txt s dom Hc Hn).
Qed.

Lemma toggle_click_view_agrees_with_store_witness :
  persists (localStorage (page_of two_tasks)) two_tasks
  /\ In 1 (ids (tasks two_tasks))
  /\ node_at (1%nat, 0%nat) (todoList (page_of two_tasks))
     = Some (Checkbox true (Some (JNum 1)))
  /\ find_span ("todo-" ++ decimal 1) (todoList (page_of two_tasks)) O
     = Some (1%nat, 1%nat)
  /\ node_at (1%nat, 1%nat) (todoList (page_of two_tasks)) = Some (Span "todo-1" "Walk" true)
  /\ (forall t, In t (tasks two_tasks) -> id t = 1 -> completed t = true)
  /\ fst (Main.handle (Click 1 0) (page_of two_tasks)) = Normal tt.
Proof.
  assert (persists (localStorage (page_of two_tasks)) two_tasks) as Hp
    by (split; reflexivity).
  assert (In 1 (ids (tasks two_tasks))) as Hin by (right; left; reflexivity).
  assert (node_at (1%nat, 0%nat) (todoList (page_of two_tasks))
          = Some (Checkbox true (Some (JNum 1)))) as Hc by reflexivity.
  assert (find_span ("todo-" ++ decimal 1) (todoList (page_of two_tasks)) O
          = Some (1%nat, 1%nat)) as Hs by reflexivity.
  assert (node_at (1%nat, 1%nat) (todoList (page_of two_tasks))
          = Some (Span "todo-1" "Walk" true)) as Hn by reflexivity.
  assert (forall t, In t (tasks two_tasks) -> id t = 1 -> completed t = true) as Ha.
  { intros t [<-|[<-|[]]] E; [discriminate E | reflexivity]. }
  repeat (split; [assumption|]).
  exact (proj1 (toggle_click_view_agrees_with_store (page_of two_tasks) two_tasks 1 1 0
                  (1%nat, 1%nat) true true "todo-1" "Walk" Hp Hin Hc Hs Hn Ha)).
Defined.

(** C8, as the specification states it, fails: the toggle of an id that
    matches no record is not silent.  In the page that shows the stored
    sequence there is no text element for such an id, so both files raise
    a TypeError (reading [classList] of null), src/main.js after it has
    flipped the checkbox that was clicked. *)
Lemma toggle_absent_id_throws :
  persists (localStorage (page_of two_tasks)) two_tasks
  /\ ~ In 7 (ids (tasks two_tasks))
  /\ node_at (0%nat, 0%nat) (todoList (page_of two_tasks))
     = Some (Checkbox false (Some (JNum 0)))
  /\ fst (Main.toggleEventHandler (0%nat, 0%nat) (Some (JNum 7)) (page_of two_tasks))
     = Abrupt TypeError
  /\ node_at (0%nat, 0%nat)
       (todoList (snd (Main.toggleEventHandler (0%nat, 0%nat) (Some (JNum 7))
                         (page_of two_tasks))))
     = Some (Checkbox true (Some (JNum 0)))
  /\ fst (Part000.toggleEventHandler (0%nat, 0%nat) (Some (JNum 7)) (page_of two_tasks))
     = Abrupt TypeError.
Proof.
  split; [split; reflexivity|].
  split; [simpl; intros [H|[H|[]]]; discriminate H|].
  repeat split; vm_compute; reflexivity.
Qed.

(** C8, amended.  On a storage that holds a sequence in which the id does
    not occur, the store update of [toggleEventHandler] (of either file),
    in whatever page it runs, leaves a storage that holds the same
    snapshot.  The handler as a whole is not silent: where the click
    reaches a checkbox, it completes when the page holds a text element
    todo-id, and otherwise raises a TypeError, src/main.js after flipping
    the checkbox; and a page that shows the stored sequence holds no such
    element.  (Ids and counter are Numbers of the model: integers from
    -2^53 to 2^53.) *)
Theorem toggle_absent_id_keeps_sequence (st : state) (sn : snapshot) (k : Z) (target : path) :
  persists (localStorage st) sn ->
  ~ In k (ids (tasks sn)) ->
  exact_int k = true ->
  let r := Main.toggleEventHandler target (Some (JNum k)) st in
  let q := Part000.toggleEventHandler target (Some (JNum k)) st in
  persists (localStorage (snd r)) sn
  /\ persists (localStorage (snd q)) sn
  /\ (forall c x,
        node_at target (todoList st) = Some (Checkbox c x) ->
        (forall p, find_span ("todo-" ++ decimal k) (todoList st) O = Some p ->
           fst r = Normal tt /\ fst q = Normal tt)
        /\ (find_span ("todo-" ++ decimal k) (todoList st) O = None ->
            fst r = Abrupt TypeError /\ fst q = Abrupt TypeError
            /\ node_at target (todoList (snd r)) = Some (Checkbox (negb c) x)))
  /\ (todoList st = render (tasks sn) ->
      find_span ("todo-" ++ decimal k) (todoList st) O = None).
Proof.
  intros Hp Hnot Hk r q.
  pose proof (persists_toggled k _ _ Hp) as Hp'. rewrite (spec_toggle_absent k sn Hnot) in Hp'.
  destruct (toggle_storage_part st sn target k Hp Hk) as [Hl' Hq]. fold q in Hl', Hq.
  split; [|split; [rewrite Hl'; exact Hp' | split]].
  - destruct (toggle_storage_main st sn target k Hp Hk) as [[Hr Hl] | [Hr Hl]];
      fold r in Hr, Hl; rewrite Hl; [exact Hp' | exact Hp].
  - intros c x Hc. unfold r, q. destruct st as [ls dom v b].
    simpl todoList in *. simpl localStorage in *. split.
    + intros p Hs.
      destruct (toggleEventHandler_completes ls dom v b sn Hp target c x k p Hk Hc Hs)
        as [-> ->].
      split; reflexivity.
    + intros Hs.
      rewrite (toggleEventHandler_main ls dom v b sn Hp target c x k Hk Hc), Hs.
      rewrite (toggleEventHandler_part ls dom v b sn Hp target c x k Hk Hc), Hs.
      split; [reflexivity|]. split; [reflexivity|]. simpl snd. simpl todoList.
      rewrite node_at_update, Hc. rewrite decide_True by reflexivity. reflexivity.
  - intros Hd. rewrite Hd, find_span_render, (find_index_absent k _ Hnot). reflexivity.
Qed.

Lemma toggle_absent_id_keeps_sequence_witness :
  persists (localStorage (page_of two_tasks)) two_tasks
  /\ ~ In 7 (ids (tasks two_tasks))
  /\ persists
       (localStorage
          (snd (Main.toggleEventHandler (0%nat, 0%nat) (Some (JNum 7)) (page_of two_tasks))))
       two_tasks.
Proof.
  assert (persists (localStorage (page_of two_tasks)) two_tasks) as Hp
    by (split; reflexivity).
  assert (~ In 7 (ids (tasks two_tasks))) as Hnot
    by (simpl; intros [H|[H|[]]]; discriminate H).
  split; [exact Hp|]. split; [exact Hnot|].
  exact (proj1 (toggle_absent_id_keeps_sequence (page_of two_tasks) two_tasks 7
                  (0%nat, 0%nat) Hp Hnot eq_refl)).
Defined.

(** ** Order *)

Lemma sublist_filter_todos (p : todo -> bool) l : sublist (List.filter p l) l.
Proof.
  induction l as [|x l IH]; simpl; [constructor|].
  destruct (p x); [apply sublist_skip | apply sublist_cons]; exact IH.
Qed.

(** C9. Every operation keeps the order of the persisted sequence, and so
    does every run of the page.  On a storage that holds a snapshot:
    [addToStore] leaves the old sequence followed by the new record;
    [toggleEventHandler] leaves the same ids and texts at the same places;
    [removeElement] leaves a subsequence.  And after any events (at most
    2^53 of them, the range in which the counter is exact) on a page that
    starts in a browser with nothing stored, either the page was never
    loaded, or the storage holds a snapshot whose records are, in their
    order, among the records created, in the order of their creation,
    with strictly increasing ids, and the list in the page shows exactly
    these records in this order.  (Ids and counter are Numbers of the
    model: integers from -2^53 to 2^53.) *)
Theorem insertion_order_kept (es : list event) (st0 : state) (sn0 : snapshot)
    (text : string) (k : Z) (target : path) :
  persists (localStorage st0) sn0 ->
  exact_int k = true ->
  Z.of_nat (List.length es) <= two53 ->
  (exists t n',
     persists (localStorage (snd (Main.addToStore text st0)))
       (Snapshot n' (tasks sn0 ++ [t])))
  /\ (exists l',
        persists (localStorage (snd (Main.toggleEventHandler target (Some (JNum k)) st0)))
          (Snapshot (nextId sn0) l')
        /\ List.map label l' = List.map label (tasks sn0))
  /\ (exists l',
        persists (localStorage (snd (Main.removeElement (Some (JNum k)) st0)))
          (Snapshot (nextId sn0) l')
        /\ sublist l' (tasks sn0))
  /\ let st := fst (run Main.handle es blank) in
     let created := snd (run Main.handle es blank) in
     (unloaded st /\ created = [])
     \/ exists sn,
          persists (localStorage st) sn
          /\ sublist (List.map label (tasks sn)) (List.map label created)
          /\ StronglySorted Z.lt (ids (tasks sn))
          /\ todoList st = render (tasks sn).
Proof.
  intros Hp Hk Hb. split; [|split; [|split]].
  - exists (new_todo sn0 text), (succ_number (nextId sn0)).
    destruct st0 as [ls dom v b]. simpl localStorage in Hp.
    rewrite (addToStore_main ls dom v b sn0 Hp text). apply (persists_appended ls sn0 text Hp).
  - destruct (toggle_storage_main st0 sn0 target k Hp Hk) as [[_ Hl] | [_ Hl]]; rewrite Hl.
    + exists (tasks (spec_toggle k sn0)). split; [apply persists_toggled, Hp|].
      apply labels_toggle.
    + exists (tasks sn0). split; [|reflexivity]. destruct sn0; exact Hp.
  - exists (tasks (spec_remove k sn0)). rewrite (removeElement_storage st0 sn0 k Hp Hk).
    split; [apply persists_removed, Hp | apply sublist_filter_todos].
  - intros st created.
    pose proof (run_reached es blank [] 0 reached_blank ltac:(lia)) as Hr. simpl app in Hr.
    fold st created in Hr.
    destruct Hr as [(Hu & Hc & _) | (sn & (Hps & Hwf & Hd & _) & Hf & _)].
    + left. split; assumption.
    + right. exists sn. split; [exact Hps|]. split; [exact Hf|]. split; [apply Hwf | exact Hd].
Qed.

Lemma insertion_order_kept_witness :
  persists (localStorage (page_of two_tasks)) two_tasks
  /\ let st := fst (run Main.handle
                      [Load; Input "a"; KeyDown 13; Input "b"; KeyDown 13; Click 0 2] blank) in
     let created := snd (run Main.handle
                           [Load; Input "a"; KeyDown 13; Input "b"; KeyDown 13; Click 0 2]
                           blank) in
     (unloaded st /\ created = [])
     \/ exists sn,
          persists (localStorage st) sn
          /\ sublist (List.map label (tasks sn)) (List.map label created)
          /\ StronglySorted Z.lt (ids (tasks sn))
          /\ todoList st = render (tasks sn).
Proof.
  assert (persists (localStorage (page_of two_tasks)) two_tasks) as Hp
    by (split; reflexivity).
  split; [exact Hp|].
  exact (proj2 (proj2 (proj2
    (insertion_order_kept [Load; Input "a"; KeyDown 13; Input "b"; KeyDown 13; Click 0 2]
       (page_of two_tasks) two_tasks "c" 0 (0%nat, 0%nat) Hp eq_refl
       ltac:(unfold two53; simpl; lia))))).
Defined.

(** ** The two files *)

Lemma incrementUniqueId_agree st : Main.incrementUniqueId st = Part000.incrementUniqueId st.
Proof. reflexivity. Qed.

Lemma classic_in (k : Z) (l : list Z) : In k l \/ ~ In k l.
Proof. destruct (In_dec Z.eq_dec k l); [left | right]; assumption. Qed.

Lemma find_index_In k l : In k (ids l) -> exists i, find_index (has_id k) l = Some i.
Proof.
  induction l as [|t l IH]; intros H; [contradiction|].
  rewrite find_index_cons. unfold has_id at 1. destruct (Z.eqb_spec (id t) k) as [E|E].
  - exists O. reflexivity.
  - destruct H as [H|H]; [contradiction|]. destruct (IH H) as [i ->]. exists (S i). reflexivity.
Qed.

(** C10. The two files implement the same store contract.  [addToStore],
    [incrementUniqueId] and [removeElement] give the same completion and
    the same state in every state.  The store part of [toggleEventHandler]
    is the same in both files: on a storage that holds a snapshot, the
    second file writes the sequence with the records of the id flipped,
    and src/main.js writes that same storage or, where its update of the
    view, which comes first, does not complete, writes nothing.  In every
    page that shows the stored sequence, whatever the id, a click that
    reaches a checkbox leaves, in both files, storages that hold the same
    snapshot; where the page holds the text element of the id the two
    files give the same completion and the same state; and every run of
    the page from a browser with nothing stored gives the same state in
    both files.  (The id is a Number of the model: an integer from -2^53
    to 2^53.) *)
Theorem files_agree (st : state) (sn : snapshot) (text : string) (x : jsval) (k : Z)
    (target : path) (es : list event) :
  persists (localStorage st) sn ->
  exact_int k = true ->
  let r := Main.toggleEventHandler target (Some (JNum k)) st in
  let q := Part000.toggleEventHandler target (Some (JNum k)) st in
  Main.addToStore text st = Part000.addToStore text st
  /\ Main.incrementUniqueId st = Part000.incrementUniqueId st
  /\ Main.removeElement x st = Part000.removeElement x st
  /\ persists (localStorage (snd q)) (spec_toggle k sn)
  /\ (localStorage (snd r) = localStorage (snd q)
      \/ (fst r <> Normal tt /\ localStorage (snd r) = localStorage st))
  /\ (forall c y,
        todoList st = render (tasks sn) ->
        node_at target (todoList st) = Some (Checkbox c y) ->
        persists (localStorage (snd r)) (spec_toggle k sn)
        /\ persists (localStorage (snd q)) (spec_toggle k sn))
  /\ (forall c y p,
        node_at target (todoList st) = Some (Checkbox c y) ->
        find_span ("todo-" ++ decimal k) (todoList st) O = Some p ->
        r = q)
  /\ run Part000.handle es blank = run Main.handle es blank.
Proof.
  intros Hp Hk r q.
  destruct (toggle_storage_part st sn target k Hp Hk) as [Hq _]. fold q in Hq.
  assert (persists (localStorage (snd q)) (spec_toggle k sn)) as Hpq
    by (rewrite Hq; apply persists_toggled, Hp).
  split; [reflexivity|]. split; [reflexivity|]. split; [reflexivity|].
  split; [exact Hpq|]. split; [|split; [|split]].
  - destruct (toggle_storage_main st sn target k Hp Hk) as [[Hr Hl] | [Hr Hl]];
      fold r in Hr, Hl.
    + left. rewrite Hl, Hq. reflexivity.
    + right. split; [|exact Hl]. destruct Hr as [-> | ->]; discriminate.
  - intros c y Hd Hc. split; [|exact Hpq].
    unfold r. destruct st as [ls dom v b]. simpl localStorage in *. simpl todoList in *.
    rewrite (toggleEventHandler_main ls dom v b sn Hp target c y k Hk Hc).
    rewrite Hd at 1. rewrite find_span_render.
    destruct (classic_in k (ids (tasks sn))) as [Hin | Hnot].
    + destruct (find_index_In k _ Hin) as [i ->]. simpl. apply persists_toggled, Hp.
    + rewrite (find_index_absent k _ Hnot). simpl.
      rewrite (spec_toggle_absent k sn Hnot). exact Hp.
  - intros c y p Hc Hs. unfold r, q. destruct st as [ls dom v b].
    simpl localStorage in Hp. simpl todoList in Hc, Hs.
    destruct (toggleEventHandler_completes ls dom v b sn Hp target c y k p Hk Hc Hs)
      as [-> ->].
    reflexivity.
  - apply (run_loaded_or_not es blank). left. repeat split.
Qed.

Lemma files_agree_witness :
  persists (localStorage (page_of two_tasks)) two_tasks
  /\ run Part000.handle [Load; Input "a"; KeyDown 13; Click 0 0] blank
     = run Main.handle [Load; Input "a"; KeyDown 13; Click 0 0] blank.
Proof.
  assert (persists (localStorage (page_of two_tasks)) two_tasks) as Hp
    by (split; reflexivity).
  split; [exact Hp|].
  apply (files_agree (page_of two_tasks) two_tasks "c" (Some (JNum 0)) 0 (0%nat, 0%nat)
           [Load; Input "a"; KeyDown 13; Click 0 0] Hp eq_refl).
Defined.

(** * Further properties of the script *)

(** ** The listeners on a running page *)

Lemma handle_keydown_in_step st sn k :
  in_step st sn ->
  Main.handle (KeyDown k) st
  = if ((k =? 13) && negb (String.eqb (todoSubmit st) EmptyString))%bool
    then (Normal tt,
          State (appended (todoSubmit st) (localStorage st) sn)
                (render (tasks (spec_append (todoSubmit st) sn))) EmptyString true)
    else (Normal tt, st).
Proof.
  intros Hin. pose proof Hin as (Hp & Hwf & Hd & Hl).
  rewrite (in_step_state st sn Hin) at 1. destruct st as [ls dom v b].
  simpl in Hp, Hd, Hl |- *. unfold Main.keydown. simpl todoSubmit.
  destruct ((k =? 13) && negb (String.eqb v EmptyString))%bool.
  - unfold bind. rewrite (addNewListItem_main ls v true sn v Hp (proj2 Hwf)). reflexivity.
  - subst. reflexivity.
Qed.

(** X1. In a running page, the listener of the field acts on Enter over a
    non-empty field and on nothing else.  On Enter over the text [v] it
    completes, puts at the end of the list one item made of an unchecked
    checkbox, the text [v] without the class strike under the id todo-n,
    and the Delete button, n being the stored counter; it leaves the items
    shown before as they were, empties the field, and leaves a storage
    that holds the old sequence followed by {id: n, task: v, completed:
    false} and the counter n + 1.  Any other key, and Enter over an empty
    field, changes nothing.  Both files behave so.  (The counter n is
    below 2^53: there n + 1 is again a Number that is exact.) *)
Theorem enter_adds_item (st : state) (sn : snapshot) :
  in_step st sn ->
  nextId sn < two53 ->
  let n := nextId sn in
  let v := todoSubmit st in
  let item :=
    Li (decimal n)
       [Checkbox false (Some (JNum n)); Span ("todo-" ++ decimal n) v false;
        Button (Some (JNum n))] in
  exists ls',
    persists ls' (Snapshot (n + 1) (tasks sn ++ [Todo n v false]))
    /\ forall k,
         Main.handle (KeyDown k) st
         = (if ((k =? 13) && negb (String.eqb v EmptyString))%bool
            then (Normal tt, State ls' (todoList st ++ [item]) EmptyString true)
            else (Normal tt, st))
         /\ Part000.handle (KeyDown k) st = Main.handle (KeyDown k) st.
Proof.
  intros Hin Hb n v item. pose proof Hin as (Hp & Hwf & Hd & Hl).
  exists (appended v (localStorage st) sn). split.
  - apply (persists_append (localStorage st) sn v Hp Hb).
  - intros k. split; [|apply (handle_agree_in_step (KeyDown k) st sn Hin)].
    rewrite (handle_keydown_in_step st sn k Hin). fold v.
    destruct ((k =? 13) && negb (String.eqb v EmptyString))%bool; [|reflexivity].
    rewrite Hd. unfold spec_append. simpl tasks. rewrite render_app. reflexivity.
Qed.

Lemma enter_adds_item_witness :
  in_step (State (stored two_tasks) (render (tasks two_tasks)) "Call" true) two_tasks
  /\ exists ls',
       persists ls' (Snapshot 3 (tasks two_tasks ++ [Todo 2 "Call" false])).
Proof.
  assert (in_step (State (stored two_tasks) (render (tasks two_tasks)) "Call" true) two_tasks)
    as Hin.
  { apply in_step_intro; [apply persists_stored; reflexivity|].
    split; [repeat constructor | repeat constructor]. }
  split; [exact Hin|].
  destruct (enter_adds_item _ two_tasks Hin ltac:(reflexivity)) as (ls' & Hp' & _).
  exists ls'. exact Hp'.
Defined.

Lemma in_step_two_tasks v :
  in_step (State (stored two_tasks) (render (tasks two_tasks)) v true) two_tasks.
Proof.
  apply in_step_intro; [apply persists_stored; reflexivity|].
  split; repeat constructor.
Qed.

Lemma handle_click_checkbox st sn i t :
  in_step st sn -> tasks sn !! i = Some t ->
  Main.handle (Click i 0) st
  = (Normal tt,
     State (toggled (id t) (localStorage st) sn) (render (<[i := flip t]> (tasks sn)))
           (todoSubmit st) true)
  /\ spec_toggle (id t) sn = Snapshot (nextId sn) (<[i := flip t]> (tasks sn)).
Proof.
  intros Hin Hi. pose proof Hin as (Hp & Hwf & Hd & Hl).
  pose proof (well_formed_NoDup sn Hwf) as Hnd.
  assert (spec_toggle (id t) sn = Snapshot (nextId sn) (<[i := flip t]> (tasks sn))) as E.
  { unfold spec_toggle. rewrite (toggle_present _ i t Hnd Hi). reflexivity. }
  split; [|exact E].
  rewrite (in_step_state st sn Hin) at 1. destruct st as [ls dom v b].
  simpl in Hp, Hd, Hl |- *. rewrite (node_at_render _ _ _ t Hi). simpl children. simpl lookup.
  cbv iota. rewrite (click_checkbox ls v sn i t Hp Hwf Hi), E. reflexivity.
Qed.

(** X2. In a running page, a click on the checkbox of the item at place
    [i] is handled without an error; it changes the item at place [i] of
    the list, which then shows the record with its flag flipped (checkbox
    and class strike alike), and no other item; the storage then holds the
    sequence with the flag of the record at place [i] flipped and the same
    counter; the field is not touched.  A second click on the same
    checkbox gives back the list as it was and a storage that holds the
    snapshot as it was. *)
Theorem checkbox_click_flips_one_item (st : state) (sn : snapshot) (i : nat) (t : todo) :
  in_step st sn ->
  tasks sn !! i = Some t ->
  let r1 := Main.handle (Click i 0) st in
  let r2 := Main.handle (Click i 0) (snd r1) in
  fst r1 = Normal tt
  /\ todoList (snd r1) = <[i := render_item (flip t)]> (todoList st)
  /\ (forall j, j <> i -> todoList (snd r1) !! j = todoList st !! j)
  /\ persists (localStorage (snd r1)) (Snapshot (nextId sn) (<[i := flip t]> (tasks sn)))
  /\ todoSubmit (snd r1) = todoSubmit st
  /\ fst r2 = Normal tt
  /\ todoList (snd r2) = todoList st
  /\ persists (localStorage (snd r2)) sn.
Proof.
  intros Hin Hi r1 r2. pose proof Hin as (Hp & Hwf & Hd & Hl).
  destruct (handle_click_checkbox st sn i t Hin Hi) as [E1 Es].
  destruct (handle_click_in_step i 0 st sn Hin) as [_ Hin1].
  simpl after in Hin1. rewrite Hi in Hin1. fold r1 in Hin1.
  assert (tasks (spec_toggle (id t) sn) !! i = Some (flip t)) as Hi1.
  { rewrite Es. simpl tasks. apply list_lookup_insert_eq. apply lookup_lt_Some in Hi. exact Hi. }
  destruct (handle_click_checkbox (snd r1) _ i (flip t) Hin1 Hi1) as [E2 Es2].
  change (id (flip t)) with (id t) in E2, Es2.
  rewrite spec_toggle_involutive in Es2.
  assert (todoList (snd r1) = <[i := render_item (flip t)]> (todoList st)) as Hv.
  { unfold r1. rewrite E1. simpl. rewrite render_insert, Hd. reflexivity. }
  split; [unfold r1; rewrite E1; reflexivity|].
  split; [exact Hv|].
  split; [intros j Hj; rewrite Hv; apply list_lookup_insert_ne; congruence|].
  split; [rewrite <- Es; apply Hin1|].
  split; [unfold r1; rewrite E1; reflexivity|].
  split; [unfold r2; rewrite E2; reflexivity|].
  split.
  - unfold r2. rewrite E2. simpl todoList.
    rewrite <- (f_equal tasks Es2) at 1. simpl tasks. rewrite Hd. reflexivity.
  - unfold r2. rewrite E2. simpl localStorage.
    rewrite <- (spec_toggle_involutive (id t) sn) at 2.
    apply persists_toggled, Hin1.
Qed.

Lemma checkbox_click_flips_one_item_witness :
  in_step (page_of two_tasks) two_tasks
  /\ tasks two_tasks !! 1%nat = Some (Todo 1 "Walk" true)
  /\ todoList (snd (Main.handle (Click 1 0) (page_of two_tasks)))
     = <[1%nat := render_item (Todo 1 "Walk" false)]> (todoList (page_of two_tasks)).
Proof.
  pose proof (in_step_two_tasks EmptyString) as Hin.
  split; [exact Hin|]. split; [reflexivity|].
  exact (proj1 (proj2 (checkbox_click_flips_one_item (page_of two_tasks) two_tasks 1
                         (Todo 1 "Walk" true) Hin eq_refl))).
Defined.

(** X3. In a running page, a click on the Delete button of the item at
    place [i] is handled without an error; the item at place [i] leaves
    the list and the record at place [i] leaves the stored sequence, the
    other items and records keeping their order; the counter and the field
    are not touched, and the page is again in step with the storage. *)
Theorem delete_click_removes_one_item (st : state) (sn : snapshot) (i : nat) (t : todo) :
  in_step st sn ->
  tasks sn !! i = Some t ->
  let r := Main.handle (Click i 2) st in
  fst r = Normal tt
  /\ Part000.handle (Click i 2) st = r
  /\ todoList (snd r) = delete i (todoList st)
  /\ todoSubmit (snd r) = todoSubmit st
  /\ in_step (snd r) (Snapshot (nextId sn) (delete i (tasks sn))).
Proof.
  intros Hin Hi r. pose proof Hin as (Hp & Hwf & Hd & Hl).
  pose proof (well_formed_NoDup sn Hwf) as Hnd.
  destruct (handle_click_in_step i 2 st sn Hin) as [Hn Hin1].
  simpl after in Hin1. rewrite Hi in Hin1. fold r in Hn, Hin1.
  assert (spec_remove (id t) sn = Snapshot (nextId sn) (delete i (tasks sn))) as Es.
  { unfold spec_remove. rewrite (remove_present _ i t Hnd Hi). reflexivity. }
  rewrite Es in Hin1.
  split; [exact Hn|].
  split; [apply (handle_agree_in_step (Click i 2) st sn Hin)|].
  split.
  - destruct Hin1 as (_ & _ & Hd1 & _). rewrite Hd1. simpl tasks.
    rewrite render_delete, Hd. reflexivity.
  - split; [|exact Hin1].
    unfold r. rewrite (in_step_state st sn Hin) at 1. destruct st as [ls dom v b].
    simpl in Hp |- *. rewrite (node_at_render _ _ _ t Hi). simpl children. simpl lookup.
    cbv iota. rewrite (click_button ls v sn i t Hp Hwf Hi). reflexivity.
Qed.

Lemma delete_click_removes_one_item_witness :
  in_step (page_of two_tasks) two_tasks
  /\ tasks two_tasks !! 0%nat = Some (Todo 0 "Buy milk" false)
  /\ todoList (snd (Main.handle (Click 0 2) (page_of two_tasks)))
     = delete 0%nat (todoList (page_of two_tasks)).
Proof.
  pose proof (in_step_two_tasks EmptyString) as Hin.
  split; [exact Hin|]. split; [reflexivity|].
  exact (proj1 (proj2 (proj2 (delete_click_removes_one_item (page_of two_tasks) two_tasks 0
                                (Todo 0 "Buy milk" false) Hin eq_refl)))).
Defined.

(** ** Runs of the page *)

Lemma after_counter e st sn :
  in_step st sn ->
  nextId sn <= nextId (after e st sn)
  /\ Forall (fun k => nextId sn <= k < nextId (after e st sn)) (ids (created_by e st)).
Proof.
  intros Hin. rewrite (created_in_step e st sn Hin).
  destruct e as [|s|k|i j]; simpl after; try (split; [lia | constructor]).
  - destruct ((k =? 13) && negb (String.eqb (todoSubmit st) EmptyString))%bool.
    + simpl. split; [lia|]. constructor; [lia | constructor].
    + split; [lia | constructor].
  - destruct (tasks sn !! i) as [t|]; [|split; [lia | constructor]].
    destruct j as [|[|[|j]]]; simpl; (split; [lia | constructor]).
Qed.

Lemma run_ids_in_step es : forall st sn,
  in_step st sn ->
  nextId sn + Z.of_nat (List.length es) <= two53 ->
  exists sn',
    in_step (fst (run Main.handle es st)) sn'
    /\ nextId sn <= nextId sn'
    /\ StronglySorted Z.lt (ids (snd (run Main.handle es st)))
    /\ Forall (fun k => nextId sn <= k < nextId sn') (ids (snd (run Main.handle es st))).
Proof.
  induction es as [|e es IH]; intros st sn Hin Hb.
  - exists sn. simpl. split; [exact Hin|]. split; [lia|]. split; constructor.
  - simpl List.length in Hb. rewrite Nat2Z.inj_succ in Hb.
    destruct (handle_in_step e st sn Hin ltac:(lia)) as [_ Hin1].
    destruct (after_counter e st sn Hin) as [Hle Hc].
    pose proof (after_counter_step e st sn) as Hstep.
    destruct (IH _ _ Hin1 ltac:(lia)) as (sn' & Hin' & Hle' & Hs & Hr).
    exists sn'. simpl.
    destruct (run Main.handle es (snd (Main.handle e st))) as [st' log]. simpl in *.
    split; [exact Hin'|]. split; [lia|]. rewrite ids_app. split.
    + rewrite (created_in_step e st sn Hin) in Hc |- *.
      destruct e as [|s|k|i j]; try exact Hs.
      destruct ((k =? 13) && negb (String.eqb (todoSubmit st) EmptyString))%bool;
        [|exact Hs].
      simpl. constructor; [exact Hs|].
      apply Forall_forall. intros x Hx. rewrite Forall_forall in Hr.
      specialize (Hr x Hx). simpl in Hr.
      apply Forall_inv in Hc. simpl in Hc. lia.
    + apply Forall_app. split.
      * eapply Forall_impl; [exact Hc|]. simpl. intros x Hx. lia.
      * eapply Forall_impl; [exact Hr|]. simpl. intros x Hx. lia.
Qed.

Lemma run_ids_unloaded es : forall st,
  unloaded st ->
  Z.of_nat (List.length es) <= two53 ->
  (unloaded (fst (run Main.handle es st)) /\ snd (run Main.handle es st) = [])
  \/ exists sn',
       in_step (fst (run Main.handle es st)) sn'
       /\ StronglySorted Z.lt (ids (snd (run Main.handle es st)))
       /\ Forall (fun k => 0 <= k < nextId sn') (ids (snd (run Main.handle es st))).
Proof.
  induction es as [|e es IH]; intros st Hu Hb.
  - left. split; [exact Hu | reflexivity].
  - simpl List.length in Hb. rewrite Nat2Z.inj_succ in Hb.
    destruct (handle_unloaded e st Hu) as (_ & Hc & [Hu1 | Hin1]).
    + specialize (IH _ Hu1 ltac:(lia)). simpl.
      destruct (run Main.handle es (snd (Main.handle e st))) as [st' log]. simpl in *.
      rewrite Hc. exact IH.
    + right.
      destruct (run_ids_in_step es _ _ Hin1 ltac:(simpl; lia)) as (sn' & Hin' & _ & Hs & Hr).
      exists sn'. simpl.
      destruct (run Main.handle es (snd (Main.handle e st))) as [st' log]. simpl in *.
      rewrite Hc. split; [exact Hin'|]. split; [exact Hs | exact Hr].
Qed.

(** X4. Whatever the user does from a browser with nothing stored (loads
    and reloads, typing, key presses, clicks on checkboxes and on Delete
    buttons, in any order), the ids of the records created on the way are
    strictly increasing in the order of creation, hence pairwise distinct:
    the id of a deleted record is never given again.  All of them are at
    least 0 and below the counter the storage holds in the end.  (For at
    most 2^53 events: the counter is a Number, which is exact up to 2^53
    and does not grow beyond it.) *)
Theorem ids_never_reused (es : list event) :
  Z.of_nat (List.length es) <= two53 ->
  let st := fst (run Main.handle es blank) in
  let created := snd (run Main.handle es blank) in
  StronglySorted Z.lt (ids created)
  /\ NoDup (ids created)
  /\ exists n,
       ToNumber (localStorage st !! "uniqueId") = Normal n
       /\ Forall (fun k => 0 <= k < n) (ids created).
Proof.
  intros Hb st created.
  assert (unloaded blank) as Hu by (repeat split).
  destruct (run_ids_unloaded es blank Hu Hb) as [[(Hs & _ & _) Hc] | (sn' & Hin & Hs & Hr)].
  - fold st in Hs. fold created in Hc. rewrite Hc, Hs.
    split; [constructor|]. split; [constructor|].
    exists 0. split; [reflexivity | constructor].
  - fold st in Hin. fold created in Hs, Hr.
    split; [exact Hs|]. split; [apply sorted_NoDup, Hs|].
    exists (nextId sn'). split; [apply Hin | exact Hr].
Qed.

Lemma ids_never_reused_witness :
  Z.of_nat (List.length [Load; Input "a"; KeyDown 13; Input "b"; KeyDown 13; Click 0 2])
  <= two53
  /\ NoDup (ids (snd (run Main.handle
                        [Load; Input "a"; KeyDown 13; Input "b"; KeyDown 13; Click 0 2]
                        blank))).
Proof.
  assert (Z.of_nat (List.length [Load; Input "a"; KeyDown 13; Input "b"; KeyDown 13;
                                 Click 0 2]) <= two53) as Hb
    by (unfold two53; simpl; lia).
  split; [exact Hb|].
  exact (proj1 (proj2 (ids_never_reused
                         [Load; Input "a"; KeyDown 13; Input "b"; KeyDown 13; Click 0 2] Hb))).
Defined.

(** X5. After whatever the user did from a browser with nothing stored,
    once the page has been loaded, loading it again completes without an
    error and shows the very list that was shown: the same items in the
    same order, each with its checkbox checked and its text struck out as
    before; the storage is not written and the field is empty.  (For at
    most 2^53 events, the range in which the counter is exact.) *)
Theorem reload_shows_same_list (es : list event) :
  Z.of_nat (List.length es) <= two53 ->
  listening (fst (run Main.handle es blank)) = true ->
  Main.handle Load (fst (run Main.handle es blank))
  = (Normal tt,
     State (localStorage (fst (run Main.handle es blank)))
           (todoList (fst (run Main.handle es blank))) EmptyString true).
Proof.
  intros Hb Hl.
  pose proof (run_reached es blank [] 0 reached_blank ltac:(lia)) as [[Hu _] | (sn & Hin & _)].
  - destruct Hu as (_ & _ & Hf). rewrite Hf in Hl. discriminate Hl.
  - destruct Hin as (Hp & Hwf & Hd & _). simpl. unfold fresh_page.
    rewrite (script_shows _ sn Hp (well_formed_NoDup sn Hwf)), Hd. reflexivity.
Qed.

Lemma reload_shows_same_list_witness :
  Z.of_nat (List.length [Load; Input "a"; KeyDown 13; Click 0 0]) <= two53
  /\ listening (fst (run Main.handle [Load; Input "a"; KeyDown 13; Click 0 0] blank)) = true
  /\ fst (Main.handle Load (fst (run Main.handle [Load; Input "a"; KeyDown 13; Click 0 0] blank)))
     = Normal tt.
Proof.
  assert (Z.of_nat (List.length [Load; Input "a"; KeyDown 13; Click 0 0]) <= two53) as Hb
    by (unfold two53; simpl; lia).
  split; [exact Hb|]. split; [reflexivity|].
  rewrite (reload_shows_same_list [Load; Input "a"; KeyDown 13; Click 0 0] Hb eq_refl).
  reflexivity.
Defined.

(** ** Showing an item in any page *)

(** X6. [displayExistingListItem], on any page and for any record whose
    id is a Number of the model (an integer from -2^53 to 2^53),
    completes and puts one new item last in the list, holding the text of
    the record (struck out when the record is completed) and the Delete
    button.  The checkbox is put in front of the first item of the page
    that carries the data-id of the record: when no item shown before
    carries it, that is the new item, which then holds checkbox, text and
    button; when an earlier item carries the same data-id, that earlier
    item receives the checkbox and the new item has none.  The storage is
    not touched. *)
Theorem displayExistingListItem_places_checkbox (ls : gmap string string) (dom : list li)
    (v : string) (b : bool) (t : todo) :
  exact_int (id t) = true ->
  displayExistingListItem (json_of_todo t) (State ls dom v b)
  = (Normal tt, State ls (shown_with t dom) v b)
  /\ List.length (shown_with t dom) = S (List.length dom)
  /\ (find_index (fun x => String.eqb (data_id x) (decimal (id t))) dom = None ->
      shown_with t dom = (dom ++ [render_item t])%list)
  /\ (forall i x,
        find_index (fun x => String.eqb (data_id x) (decimal (id t))) dom = Some i ->
        dom !! i = Some x ->
        shown_with t dom
        = (<[i := Li (data_id x) (Checkbox (completed t) (Some (JNum (id t))) :: children x)]> dom
           ++ [Li (decimal (id t))
                 [Span ("todo-" ++ decimal (id t)) (task t) (completed t);
                  Button (Some (JNum (id t)))]])%list).
Proof.
  intros Hx. split; [|split; [|split]].
  - apply displayExistingListItem_shown, Hx.
  - unfold shown_with. destruct (find_index _ dom).
    + rewrite length_app, length_alter. simpl. lia.
    + rewrite length_app. simpl. lia.
  - intros E. unfold shown_with. rewrite E. reflexivity.
  - intros i x E Hi. unfold shown_with. rewrite E. f_equal.
    apply list_eq. intros j. destruct (decide (j = i)) as [->|Hj].
    + rewrite list_lookup_alter_eq, Hi. simpl.
      symmetry. apply list_lookup_insert_eq. apply lookup_lt_Some in Hi. exact Hi.
    + rewrite list_lookup_alter_ne by congruence.
      rewrite list_lookup_insert_ne by congruence. reflexivity.
Qed.

Lemma displayExistingListItem_places_checkbox_witness :
  exact_int (id (Todo 0 "Again" true)) = true
  /\ displayExistingListItem (json_of_todo (Todo 0 "Again" true))
       (State ∅ (render [Todo 0 "Buy milk" false]) EmptyString true)
     = (Normal tt,
        State ∅
          [Li "0" [Checkbox true (Some (JNum 0)); Checkbox false (Some (JNum 0));
                   Span "todo-0" "Buy milk" false; Button (Some (JNum 0))];
           Li "0" [Span "todo-0" "Again" true; Button (Some (JNum 0))]]
          EmptyString true).
Proof.
  split; [reflexivity|].
  exact (proj1 (displayExistingListItem_places_checkbox ∅ (render [Todo 0 "Buy milk" false])
                  EmptyString true (Todo 0 "Again" true) eq_refl)).
Defined.

(** ** A storage whose sequence cannot be read *)

Lemma not_array_cases (v : completion json) :
  (forall items, v <> Normal (JArr items)) ->
  (exists e, v = Abrupt e) \/ (exists j, v = Normal j /\ forall items, j <> JArr items).
Proof.
  intros H. destruct v as [j|e]; [right | left].
  - exists j. split; [reflexivity|]. intros items ->. apply (H items). reflexivity.
  - exists e. reflexivity.
Qed.

Lemma addToStore_unreadable ls dom v b n text :
  ToNumber (ls !! "uniqueId") = Normal n ->
  (forall items, JSON_parse (ls !! "todos") <> Normal (JArr items)) ->
  Main.addToStore text (State ls dom v b)
  = (Abrupt (unreadable (JSON_parse (ls !! "todos"))), State ls dom v b)
  /\ Part000.addToStore text (State ls dom v b)
     = (Abrupt (unreadable (JSON_parse (ls !! "todos"))), State ls dom v b).
Proof.
  intros Hnum H. unfold Main.addToStore, Part000.addToStore. step. rewrite Hnum. step.
  destruct (not_array_cases _ H) as [[x E] | (j & E & Hn)]; rewrite E; simpl unreadable.
  - split; reflexivity.
  - destruct j as [| | | |items|]; try (split; reflexivity).
    exfalso. apply (Hn items). reflexivity.
Qed.

Lemma addNewListItem_unreadable ls dom v b n value :
  ToNumber (ls !! "uniqueId") = Normal n ->
  (forall items, JSON_parse (ls !! "todos") <> Normal (JArr items)) ->
  Main.addNewListItem value (State ls dom v b)
  = (Abrupt (unreadable (JSON_parse (ls !! "todos"))),
     State ls (shown_with (Todo n value false) dom) v b)
  /\ Part000.addNewListItem value (State ls dom v b)
     = (Abrupt (unreadable (JSON_parse (ls !! "todos"))),
        State ls (shown_with (Todo n value false) dom) v b).
Proof.
  intros Hn Hna. pose proof (show_new_item_any ls dom v b n value Hn) as H.
  destruct (addToStore_unreadable ls (shown_with (Todo n value false) dom) v b n value Hn Hna)
    as [Ea Eb].
  unfold Main.addNewListItem, Part000.addNewListItem.
  unfold bind in *.
  destruct (getItem "uniqueId" _) as [[s|e] st1] eqn:E1; [|discriminate H].
  destruct (lift (ToNumber s) st1) as [[m|e] st2] eqn:E2; [|discriminate H].
  destruct (lift (createListItem _) st2) as [[x|e] st3] eqn:E3; [|discriminate H].
  destruct (appendChild x st3) as [[el|e] st4] eqn:E4; [|discriminate H].
  destruct (addToggleButton _ _ st4) as [[?|e] st5] eqn:E5; [|discriminate H].
  destruct (addDeleteButton _ _ st5) as [[[]|e] st6] eqn:E6; [|discriminate H].
  injection H as H. rewrite H. split; [exact Ea | exact Eb].
Qed.

(** X7. When the text under 'todos' is not the text of an array (the key
    is absent, the text is no JSON at all, or it is the text of another
    kind of value), no function of the store writes anything: [addToStore],
    [removeElement] and [toggleEventHandler], of either file, end with an
    exception and leave storage and page exactly as they were; the counter
    is not raised.  The exception is the SyntaxError of JSON.parse when the
    text is no JSON, and a TypeError when the value has no array methods.
    (src/main.js builds the name of the text element from the id before
    it reads the store: there the id is one whose text can be taken, as
    is every id the script passes.) *)
Theorem unreadable_store_is_not_written (st : state) (text : string) (id : jsval)
    (target : path) :
  (forall items, JSON_parse (localStorage st !! "todos") <> Normal (JArr items)) ->
  let e := unreadable (JSON_parse (localStorage st !! "todos")) in
  Main.removeElement id st = (Abrupt e, st)
  /\ Part000.removeElement id st = (Abrupt e, st)
  /\ Part000.toggleEventHandler target id st = (Abrupt e, st)
  /\ (forall c x sid,
        node_at target (todoList st) = Some (Checkbox c x) ->
        ToString id = Normal sid ->
        Main.toggleEventHandler target id st = (Abrupt e, st))
  /\ (forall n, ToNumber (localStorage st !! "uniqueId") = Normal n ->
        Main.addToStore text st = (Abrupt e, st)
        /\ Part000.addToStore text st = (Abrupt e, st))
  /\ (localStorage st !! "todos" = None -> e = TypeError)
  /\ (JSON_parse (localStorage st !! "todos") = Abrupt SyntaxError -> e = SyntaxError).
Proof.
  intros H e. destruct st as [ls dom v b]. simpl localStorage in *. simpl todoList.
  unfold e in *. clear e.
  destruct (not_array_cases _ H) as [[x E] | (j & E & Hn)]; rewrite E; simpl unreadable.
  - split; [|split; [|split; [|split; [|split; [|split]]]]].
    + unfold Main.removeElement. step. rewrite E. reflexivity.
    + unfold Part000.removeElement. step. rewrite E. reflexivity.
    + unfold Part000.toggleEventHandler. step. rewrite E. reflexivity.
    + intros c y sid Hc Hs. unfold Main.toggleEventHandler. step. rewrite Hc. step.
      rewrite Hs, E. reflexivity.
    + intros n Hnum. unfold Main.addToStore, Part000.addToStore. step. rewrite Hnum. step.
      rewrite E. split; reflexivity.
    + intros Hnone. rewrite Hnone in E. discriminate E.
    + intros Hs. injection Hs as ->. reflexivity.
  - split; [|split; [|split; [|split; [|split; [|split]]]]].
    + unfold Main.removeElement. step. rewrite E. destruct j as [| | | |items|]; try reflexivity.
      exfalso. apply (Hn items). reflexivity.
    + unfold Part000.removeElement. step. rewrite E. destruct j as [| | | |items|]; try reflexivity.
      exfalso. apply (Hn items). reflexivity.
    + unfold Part000.toggleEventHandler. step. rewrite E.
      destruct j as [| | | |items|]; try reflexivity.
      exfalso. apply (Hn items). reflexivity.
    + intros c y sid Hc Hs. unfold Main.toggleEventHandler. step. rewrite Hc. step.
      rewrite Hs, E.
      destruct j as [| | | |items|]; try reflexivity. exfalso. apply (Hn items). reflexivity.
    + intros n Hnum. unfold Main.addToStore, Part000.addToStore. step. rewrite Hnum. step.
      rewrite E. destruct j as [| | | |items|]; try (split; reflexivity).
      exfalso. apply (Hn items). reflexivity.
    + reflexivity.
    + intros Hs. discriminate Hs.
Qed.

Lemma unreadable_store_is_not_written_witness :
  (forall items, JSON_parse (localStorage blank !! "todos") <> Normal (JArr items))
  /\ Main.removeElement (Some (JNum 0)) blank = (Abrupt TypeError, blank).
Proof.
  assert (forall items, JSON_parse (localStorage blank !! "todos") <> Normal (JArr items)) as H.
  { intros items E. vm_compute in E. discriminate E. }
  split; [exact H|].
  exact (proj1 (unreadable_store_is_not_written blank "a" (Some (JNum 0)) (0%nat, 0%nat) H)).
Defined.

(** X8. [addNewListItem] shows the item before it stores the record.  So
    when Enter is pressed over a text while the sequence under 'todos'
    cannot be read, the item is put in the list all the same, with the id
    read from the counter, and then the exception of the store ends the
    listener: nothing is written to the storage, the counter is not
    raised, and the field keeps its text.  The page then shows an item
    that the storage does not hold.  Both files behave so. *)
Theorem enter_on_unreadable_store_shows_item (st : state) (n : Z) :
  listening st = true ->
  todoSubmit st <> EmptyString ->
  ToNumber (localStorage st !! "uniqueId") = Normal n ->
  (forall items, JSON_parse (localStorage st !! "todos") <> Normal (JArr items)) ->
  Main.handle (KeyDown 13) st
  = (Abrupt (unreadable (JSON_parse (localStorage st !! "todos"))),
     State (localStorage st) (shown_with (Todo n (todoSubmit st) false) (todoList st))
           (todoSubmit st) true)
  /\ Part000.handle (KeyDown 13) st = Main.handle (KeyDown 13) st
  /\ List.length (shown_with (Todo n (todoSubmit st) false) (todoList st))
     = S (List.length (todoList st)).
Proof.
  intros Hl Hv Hn Hna. destruct st as [ls dom v b]. simpl in Hl, Hv, Hn, Hna |- *. subst b.
  assert (String.eqb v EmptyString = false) as Ev by (apply String.eqb_neq, Hv).
  destruct (addNewListItem_unreadable ls dom v true n v Hn Hna) as [Ea Eb].
  unfold Main.keydown, Part000.keydown. simpl todoSubmit. rewrite Ev. simpl andb. cbv iota.
  unfold bind. rewrite Ea, Eb.
  split; [reflexivity|]. split; [reflexivity|].
  unfold shown_with. destruct (find_index _ dom).
  - rewrite length_app, length_alter. simpl. lia.
  - rewrite length_app. simpl. lia.
Qed.

Lemma enter_on_unreadable_store_shows_item_witness :
  listening (State {["todos" := "oops"]} [] "Call" true) = true
  /\ Main.handle (KeyDown 13) (State {["todos" := "oops"]} [] "Call" true)
     = (Abrupt SyntaxError,
        State {["todos" := "oops"]}
          [Li "0" [Checkbox false (Some (JNum 0)); Span "todo-0" "Call" false;
                   Button (Some (JNum 0))]]
          "Call" true).
Proof.
  split; [reflexivity|].
  assert (forall items,
            JSON_parse (localStorage (State {["todos" := "oops"]} [] "Call" true) !! "todos")
            <> Normal (JArr items)) as H.
  { intros items E. vm_compute in E. discriminate E. }
  exact (proj1 (enter_on_unreadable_store_shows_item
                  (State {["todos" := "oops"]} [] "Call" true) 0
                  eq_refl ltac:(discriminate) eq_refl H)).
Defined.

(** X9. In a running page, adding an item and then deleting it gives back
    the list and the stored sequence as they were, but not the counter,
    which stays one higher: the id of the deleted record is spent.  When
    the user then types a text and presses Enter, the new record gets the
    following id: the storage holds the old sequence followed by a record
    with the id n + 1, n being the counter at the start, and the list
    shows the old items followed by the item of that record.  (With
    n + 1 below 2^53, the range in which the counter is exact.) *)
Theorem delete_after_enter_keeps_counter (st : state) (sn : snapshot) (next : string) :
  in_step st sn ->
  todoSubmit st <> EmptyString ->
  next <> EmptyString ->
  nextId sn + 1 < two53 ->
  let st1 := snd (Main.handle (KeyDown 13) st) in
  let st2 := snd (Main.handle (Click (List.length (tasks sn)) 2) st1) in
  let st3 := snd (Main.handle (KeyDown 13) (snd (Main.handle (Input next) st2))) in
  fst (Main.handle (Click (List.length (tasks sn)) 2) st1) = Normal tt
  /\ todoList st2 = todoList st
  /\ in_step st2 (Snapshot (nextId sn + 1) (tasks sn))
  /\ persists (localStorage st3)
       (Snapshot (nextId sn + 2) (tasks sn ++ [Todo (nextId sn + 1) next false]))
  /\ todoList st3 = (todoList st ++ [render_item (Todo (nextId sn + 1) next false)])%list.
Proof.
  intros Hin Hv Hnext Hb st1 st2 st3. pose proof Hin as (Hp & Hwf & Hd & Hl).
  assert (String.eqb (todoSubmit st) EmptyString = false) as Ev by (apply String.eqb_neq, Hv).
  assert (String.eqb next EmptyString = false) as En by (apply String.eqb_neq, Hnext).
  destruct (handle_in_step (KeyDown 13) st sn Hin ltac:(lia)) as [_ Hin1]. fold st1 in Hin1.
  simpl after in Hin1. rewrite Ev in Hin1. simpl in Hin1.
  assert (tasks (spec_append (todoSubmit st) sn) !! List.length (tasks sn)
          = Some (new_todo sn (todoSubmit st))) as Hi.
  { unfold spec_append. simpl tasks. apply list_lookup_middle. reflexivity. }
  destruct (handle_click_in_step (List.length (tasks sn)) 2 st1 _ Hin1) as [Hn Hin2].
  fold st2 in Hin2. unfold after in Hin2. rewrite Hi in Hin2.
  assert (spec_remove (id (new_todo sn (todoSubmit st))) (spec_append (todoSubmit st) sn)
          = Snapshot (nextId sn + 1) (tasks sn)) as Es.
  { unfold spec_remove, spec_append. simpl. f_equal. rewrite List.filter_app. simpl.
    rewrite Z.eqb_refl. simpl. rewrite app_nil_r.
    apply remove_absent, below_not_in, Hwf. }
  rewrite Es in Hin2.
  split; [exact Hn|]. split; [|split; [exact Hin2|]].
  - destruct Hin2 as (_ & _ & Hd2 & _). rewrite Hd2, Hd. reflexivity.
  - destruct (handle_in_step (Input next) st2 _ Hin2 ltac:(simpl; lia)) as [_ Hin3].
    simpl after in Hin3.
    pose proof (handle_keydown_in_step _ _ 13 Hin3) as E.
    change (todoSubmit (snd (Main.handle (Input next) st2))) with next in E.
    rewrite En in E. simpl andb in E. cbv iota in E.
    unfold st3. rewrite E. simpl snd. simpl localStorage. simpl todoList. split.
    + replace (nextId sn + 2) with (nextId sn + 1 + 1) by lia.
      apply (persists_append _ (Snapshot (nextId sn + 1) (tasks sn)) next);
        [apply Hin3 | simpl; lia].
    + unfold spec_append. simpl tasks. rewrite render_app, Hd. reflexivity.
Qed.

Lemma delete_after_enter_keeps_counter_witness :
  in_step (State (stored two_tasks) (render (tasks two_tasks)) "Call" true) two_tasks
  /\ todoList (snd (Main.handle (Click 2 2)
                      (snd (Main.handle (KeyDown 13)
                              (State (stored two_tasks) (render (tasks two_tasks)) "Call" true)))))
     = render (tasks two_tasks).
Proof.
  pose proof (in_step_two_tasks "Call") as Hin.
  split; [exact Hin|].
  exact (proj1 (proj2 (delete_after_enter_keeps_counter _ two_tasks "Mail" Hin
                         ltac:(discriminate) ltac:(discriminate) ltac:(reflexivity)))).
Defined.

(** ** Startup on other stored values *)

(** X10. When the page is loaded over a text under 'todos' that is JSON
    but not the text of an array (null, a number, a string, an object),
    the script raises a TypeError at [todos.forEach]: nothing is shown,
    the storage is left as it is, and the listener of the field is not
    registered, so that key presses do nothing afterwards. *)
Theorem startup_non_array_throws (st : state) (s : string) (j : json) (k : Z) :
  localStorage st !! "todos" = Some s ->
  s <> EmptyString ->
  JSON_parse_text s = Normal j ->
  (forall items, j <> JArr items) ->
  Main.handle Load st = (Abrupt TypeError, State (localStorage st) [] EmptyString false)
  /\ Part000.handle Load st = (Abrupt TypeError, State (localStorage st) [] EmptyString false)
  /\ Main.handle (KeyDown k) (snd (Main.handle Load st)) = (Normal tt, snd (Main.handle Load st)).
Proof.
  intros Hs Hne Hj Hn. destruct st as [ls dom v b]. simpl localStorage in *.
  assert (script (fresh_page (State ls dom v b))
          = (Abrupt TypeError, State ls [] EmptyString false)) as E.
  { unfold script, startup, fresh_page. step. rewrite Hs.
    rewrite (not_item_false s Hne). step. rewrite Hs.
    change (JSON_parse (Some s)) with (JSON_parse_text s). rewrite Hj.
    destruct j as [| | | |items|]; try reflexivity.
    exfalso. apply (Hn items). reflexivity. }
  split; [exact E|]. split; [exact E|].
  simpl Main.handle at 2 3. rewrite E. reflexivity.
Qed.

Lemma startup_non_array_throws_witness :
  localStorage (State {["todos" := "null"]} [] EmptyString false) !! "todos" = Some "null"
  /\ JSON_parse_text "null" = Normal JNull
  /\ Main.handle Load (State {["todos" := "null"]} [] EmptyString false)
     = (Abrupt TypeError, State {["todos" := "null"]} [] EmptyString false).
Proof.
  split; [reflexivity|]. split; [reflexivity|].
  exact (proj1 (startup_non_array_throws (State {["todos" := "null"]} [] EmptyString false)
                  "null" JNull 13 eq_refl ltac:(discriminate) eq_refl ltac:(discriminate))).
Defined.

Lemma forEachM_app {A : Type} (f : A -> M unit) (l1 l2 : list A) (st : state) :
  forEachM f (l1 ++ l2)%list st
  = match forEachM f l1 st with
    | (Normal _, st') => forEachM f l2 st'
    | (Abrupt e, st') => (Abrupt e, st')
    end.
Proof.
  revert st. induction l1 as [|x l1 IH]; intros st; [reflexivity|].
  simpl. unfold bind. destruct (f x st) as [[[]|e] st']; [apply IH | reflexivity].
Qed.

(** X11. When the page is loaded over a stored array that holds records
    with distinct ids and then a null, the script shows the records that
    come before the null, in their order, and then raises a TypeError
    (reading a property of null): the elements after the null are not
    shown, the storage is left as it is, and the listener of the field is
    not registered. *)
Theorem startup_stops_at_null (st : state) (l : list todo) (rest : list json) :
  JSON_parse (localStorage st !! "todos")
  = Normal (JArr (List.map json_of_todo l ++ JNull :: rest)) ->
  NoDup (ids l) ->
  Main.handle Load st = (Abrupt TypeError, State (localStorage st) (render l) EmptyString false)
  /\ Part000.handle Load st = Main.handle Load st.
Proof.
  intros Hj Hnd. split; [|reflexivity]. destruct st as [ls dom v b]. simpl localStorage in *.
  simpl Main.handle. unfold script, startup, fresh_page. step.
  assert (not_item (ls !! "todos") = false) as Hni.
  { destruct (ls !! "todos") as [s|]; [|discriminate Hj].
    destruct s; [discriminate Hj | reflexivity]. }
  rewrite Hni, Hj. step. rewrite forEachM_app.
  change (State ls [] EmptyString false) with (State ls (render []) EmptyString false).
  assert (exact_todos l = true) as Hx.
  { pose proof (JSON_parse_exact _ _ Hj) as He. simpl in He.
    rewrite forallb_app in He. apply andb_prop in He as [He _].
    rewrite <- exact_json_todos. simpl. exact He. }
  rewrite (forEachM_display ls EmptyString false l [] Hx) by exact Hnd.
  reflexivity.
Qed.

Lemma startup_stops_at_null_witness :
  let text := json_text (JArr [json_of_todo (Todo 0 "a" true); JNull;
                                    json_of_todo (Todo 1 "b" false)]) in
  JSON_parse (Some text)
  = Normal (JArr (List.map json_of_todo [Todo 0 "a" true] ++ [JNull;
                                    json_of_todo (Todo 1 "b" false)]))
  /\ Main.handle Load (State {["todos" := text]} [] EmptyString false)
     = (Abrupt TypeError,
        State {["todos" := text]} (render [Todo 0 "a" true]) EmptyString false).
Proof.
  intros text.
  assert (JSON_parse (localStorage (State {["todos" := text]} [] EmptyString false) !! "todos")
          = Normal (JArr (List.map json_of_todo [Todo 0 "a" true] ++ [JNull;
                                    json_of_todo (Todo 1 "b" false)]))) as H
    by (vm_compute; reflexivity).
  split; [exact H|].
  assert (NoDup (ids [Todo 0 "a" true])) as Hnd by (apply sorted_NoDup; repeat constructor).
  exact (proj1 (startup_stops_at_null (State {["todos" := text]} [] EmptyString false)
                  [Todo 0 "a" true] [json_of_todo (Todo 1 "b" false)] H Hnd)).
Defined.

(** ** The counter *)

(** X12. [incrementUniqueId], of either file, on a storage whose text under
    'uniqueId' reads as the number n (an absent key reads as 0; n is a
    Number of the model, an integer from -2^53 to 2^53), completes and
    leaves under 'uniqueId' a text that reads as n + 1 when n is below
    2^53, and as 2^53 again when n is 2^53 (the double next to 2^53 + 1);
    it writes no other key and does not touch the page.  The two files
    leave the same state. *)
Theorem incrementUniqueId_adds_one (st : state) (n : Z) :
  ToNumber (localStorage st !! "uniqueId") = Normal n ->
  let r := Main.incrementUniqueId st in
  fst r = Normal tt
  /\ Part000.incrementUniqueId st = r
  /\ (n < two53 -> ToNumber (localStorage (snd r) !! "uniqueId") = Normal (n + 1))
  /\ (n = two53 -> ToNumber (localStorage (snd r) !! "uniqueId") = Normal two53)
  /\ (forall k, k <> "uniqueId" -> localStorage (snd r) !! k = localStorage st !! k)
  /\ todoList (snd r) = todoList st
  /\ todoSubmit (snd r) = todoSubmit st
  /\ listening (snd r) = listening st.
Proof.
  intros Hn r. unfold r. rewrite <- (incrementUniqueId_agree st).
  pose proof (ToNumber_exact _ _ Hn) as Hx.
  unfold Main.incrementUniqueId. destruct st as [ls dom v b]. simpl localStorage in Hn.
  step. rewrite Hn. step. rewrite (plus_one_exact n Hx). step.
  rewrite (String_of_number_exact _ (exact_int_succ n Hx)).
  cbn [fst snd localStorage todoList todoSubmit listening].
  split; [reflexivity|]. split; [reflexivity|]. split; [|split].
  - intros Hlt. rewrite lookup_insert_eq, (succ_number_below n Hlt).
    apply ToNumber_decimal. rewrite <- (succ_number_below n Hlt). apply exact_int_succ, Hx.
  - intros ->. rewrite lookup_insert_eq. apply ToNumber_decimal. reflexivity.
  - split; [|repeat split]. intros k Hk. apply lookup_insert_ne. congruence.
Qed.

Lemma incrementUniqueId_adds_one_witness :
  ToNumber (localStorage blank !! "uniqueId") = Normal 0
  /\ ToNumber (localStorage (snd (Main.incrementUniqueId blank)) !! "uniqueId") = Normal 1.
Proof.
  split; [reflexivity|].
  exact (proj1 (proj2 (proj2 (incrementUniqueId_adds_one blank 0 eq_refl)))
           ltac:(reflexivity)).
Defined.

(** ** The two files in any state *)

(** X13. Apart from [toggleEventHandler], the two files do the same in
    every state, reachable or not: [addNewListItem] and the listener of the
    field give the same completion and the same state, and so does the
    handling of a load, of an edit of the field, of a key press, and of a
    click on anything but a checkbox. *)
Theorem listeners_agree_in_every_state (st : state) (value : string) (e : event) :
  Main.addNewListItem value st = Part000.addNewListItem value st
  /\ (forall k, Main.keydown k st = Part000.keydown k st)
  /\ ((forall i j c x, e = Click i j -> node_at (i, j) (todoList st) <> Some (Checkbox c x)) ->
      Main.handle e st = Part000.handle e st).
Proof.
  assert (forall k, Main.keydown k st = Part000.keydown k st) as Hk
    by (intros k; apply keydown_agree).
  split; [apply addNewListItem_agree|]. split; [exact Hk|].
  intros Hc. destruct e as [|s|k|i j]; [reflexivity | reflexivity | |].
  - simpl. destruct (listening st); [apply Hk | reflexivity].
  - simpl. destruct (node_at (i, j) (todoList st)) as [[c x| |x]|] eqn:E; try reflexivity.
    exfalso. apply (Hc i j c x eq_refl). exact E.
Qed.

(** ** The checkbox and the store *)

(** X14. [toggleEventHandler] flips the checkbox from its own attribute
    and the record from its own flag; it never compares the two.  So, on a
    storage that holds a sequence with the record [t] of the id, a click
    that reaches a checkbox in a page that shows the text of the id
    completes, leaves the checkbox with the opposite state and the storage
    with the record flipped: the checkbox agrees with the stored flag after
    the click exactly when it agreed before, and a disagreement between
    page and storage is never repaired by a click.  Both files behave
    so. *)
Theorem toggle_keeps_disagreement (st : state) (sn : snapshot) (t : todo) (target p : path)
    (c : bool) (x : jsval) :
  persists (localStorage st) sn ->
  In t (tasks sn) ->
  node_at target (todoList st) = Some (Checkbox c x) ->
  find_span ("todo-" ++ decimal (id t)) (todoList st) O = Some p ->
  let r := Main.toggleEventHandler target (Some (JNum (id t))) st in
  fst r = Normal tt
  /\ Part000.toggleEventHandler target (Some (JNum (id t))) st = r
  /\ node_at target (todoList (snd r)) = Some (Checkbox (negb c) x)
  /\ persists (localStorage (snd r)) (spec_toggle (id t) sn)
  /\ In (flip t) (tasks (spec_toggle (id t) sn))
  /\ (completed (flip t) = negb c <-> completed t = c).
Proof.
  intros Hp Hin Hc Hs r. destruct st as [ls dom v b]. simpl localStorage in *.
  simpl todoList in *.
  pose proof (exact_todos_In _ t (proj2 (persists_exact ls sn Hp)) Hin) as Hx.
  destruct (toggleEventHandler_completes ls dom v b sn Hp target c x (id t) p Hx Hc Hs)
    as [Em Ep].
  unfold r. rewrite Em, Ep. simpl.
  split; [reflexivity|]. split; [reflexivity|].
  split; [apply (toggled_view_checkbox target p c x dom Hc)|].
  split; [apply persists_toggled, Hp|]. split.
  - apply in_map_iff. exists t. rewrite Z.eqb_refl. split; [reflexivity | exact Hin].
  - destruct (completed t), c; simpl; split; congruence.
Qed.

Lemma toggle_keeps_disagreement_witness :
  let st := State (stored two_tasks)
              [Li "0" [Checkbox true (Some (JNum 0)); Span "todo-0" "Buy milk" false]]
              EmptyString true in
  persists (localStorage st) two_tasks
  /\ node_at (0%nat, 0%nat)
       (todoList (snd (Main.toggleEventHandler (0%nat, 0%nat) (Some (JNum 0)) st)))
     = Some (Checkbox false (Some (JNum 0)))
  /\ persists (localStorage (snd (Main.toggleEventHandler (0%nat, 0%nat) (Some (JNum 0)) st)))
       (Snapshot 2 [Todo 0 "Buy milk" true; Todo 1 "Walk" true]).
Proof.
  intros st.
  assert (persists (localStorage st) two_tasks) as Hp by (apply persists_stored; reflexivity).
  assert (In (Todo 0 "Buy milk" false) (tasks two_tasks)) as Hin by (left; reflexivity).
  pose proof (toggle_keeps_disagreement st two_tasks (Todo 0 "Buy milk" false)
                (0%nat, 0%nat) (0%nat, 1%nat) true (Some (JNum 0)) Hp Hin eq_refl eq_refl)
    as (_ & _ & Hv & Hs & _).
  split; [exact Hp|]. split; [exact Hv | exact Hs].
Defined.

(** X15. In a page that started from a browser with nothing stored, no
    event ever ends with an exception: whatever the user did before, the
    next load, edit, key press or click is handled to its end, by either
    file and with the same resulting state. *)
Theorem no_event_raises (es : list event) (e : event) :
  fst (Main.handle e (fst (run Main.handle es blank))) = Normal tt
  /\ Part000.handle e (fst (run Part000.handle es blank))
     = Main.handle e (fst (run Main.handle es blank)).
Proof.
  assert (unloaded blank \/ in_use blank) as Hb by (left; repeat split).
  destruct (run_loaded_or_not es blank Hb) as [Hr E].
  destruct (handle_loaded_or_not e _ Hr) as (Hn & _ & Ee).
  split; [exact Hn|]. rewrite E. exact Ee.
Qed.
